(** * Schedule-Maker: the record codec, the sanitizer and the report summary

    A shallow embedding of [Smaker/utils.py], [Smaker/config.py], of the
    persistence and rendering methods of [Smaker/schedule_manager.py] and
    of the prompts of [Smaker/cli_interface.py].

    Modelling conventions.
    - A Python [str] is a list of code points ([N]).  String literals of the
      source are written [pystr "..."].
    - A call that may raise is a value of [outcome]; [try]/[except] is a
      match on it.
    - [re], [json] and [html] are library code: the fragments the program
      uses are modelled below (a backtracking matcher with greedy
      quantifiers and capture groups, the JSON grammar, [html.escape]).
    - An [int] is an integer of [Z]; a [float] is an IEEE 754 binary64
      number, with the operations of [SpecFloat] (rounding to nearest,
      ties to even).  The interpreter's bound on the digits of a string
      converted to an [int] and its bound on nested calls are the
      constants [MAX_STR_DIGITS] and [RECURSION_LIMIT].
    - A text file is read with universal newlines and written in UTF-8.
    - [str.lower] and [str.upper] follow the Unicode tables: they are
      parameters of the definitions that call them.
    - Standard input is the list of the lines still to be read. *)

From Stdlib Require Import String Ascii NArith ZArith Bool List Lia
  Permutation SpecFloat.
Import ListNotations.

Set Warnings "-register-all".

(** ** Python strings *)

Module Py.

Definition char := N.
Definition str := list char.

Definition pystr (s : string) : str :=
  map N_of_ascii (list_ascii_of_string s).

Definition ch (a : ascii) : char := N_of_ascii a.

Fixpoint str_eqb (a b : str) : bool :=
  match a, b with
  | [], [] => true
  | x :: a', y :: b' => N.eqb x y && str_eqb a' b'
  | _, _ => false
  end.

(** Truth value of a string: [if text:]. *)
Definition truthy (s : str) : bool :=
  match s with [] => false | _ :: _ => true end.

(** [s.startswith(p)], also returning the rest. *)
Fixpoint strip_prefix (p s : str) : option str :=
  match p with
  | [] => Some s
  | x :: p' =>
      match s with
      | y :: s' => if N.eqb x y then strip_prefix p' s' else None
      | [] => None
      end
  end.

Definition starts_with (p s : str) : bool :=
  match strip_prefix p s with Some _ => true | None => false end.

(** [sub in s]. *)
Fixpoint contains (sub s : str) : bool :=
  starts_with sub s ||
  match s with
  | [] => false
  | _ :: s' => contains sub s'
  end.

(** [s.replace(old, new)] for a non-empty [old]: occurrences are replaced
    from left to right and do not overlap. *)
Fixpoint replace_loop (fuel : nat) (old new s : str) : str :=
  match fuel with
  | O => s
  | S fuel' =>
      match strip_prefix old s with
      | Some rest => new ++ replace_loop fuel' old new rest
      | None =>
          match s with
          | [] => []
          | c :: s' => c :: replace_loop fuel' old new s'
          end
      end
  end.

Definition replace (old new s : str) : str :=
  replace_loop (S (length s)) old new s.

(** [s.split(sep)] for a non-empty [sep]; [acc] is the current field,
    reversed. *)
Fixpoint split_loop (fuel : nat) (sep : str) (acc s : str) : list str :=
  match fuel with
  | O => [rev acc ++ s]
  | S fuel' =>
      match s with
      | [] => [rev acc]
      | c :: s' =>
          match strip_prefix sep s with
          | Some rest => rev acc :: split_loop fuel' sep [] rest
          | None => split_loop fuel' sep (c :: acc) s'
          end
      end
  end.

Definition split (sep s : str) : list str :=
  split_loop (S (length s)) sep [] s.

(** [s.split(sep, 1)]: the part before the first occurrence of [sep] and,
    when there is one, the part after it. *)
Fixpoint split_once_loop (sep : str) (acc s : str) : str * option str :=
  match strip_prefix sep s with
  | Some rest => (rev acc, Some rest)
  | None =>
      match s with
      | [] => (rev acc, None)
      | c :: s' => split_once_loop sep (c :: acc) s'
      end
  end.

Definition split_once (sep s : str) : str * option str :=
  split_once_loop sep [] s.

(** The characters [str.strip()] removes: [str.isspace]. *)
Definition is_space (c : char) : bool :=
  ((9 <=? c) && (c <=? 13) || (28 <=? c) && (c <=? 32) || (c =? 133)
   || (c =? 160) || (c =? 5760) || (8192 <=? c) && (c <=? 8202)
   || (c =? 8232) || (c =? 8233) || (c =? 8239) || (c =? 8287)
   || (c =? 12288))%N.

Fixpoint lstrip (s : str) : str :=
  match s with
  | c :: s' => if is_space c then lstrip s' else s
  | [] => []
  end.

Definition rstrip (s : str) : str := rev (lstrip (rev s)).

Definition strip (s : str) : str := rstrip (lstrip s).

(** What a call does: it returns, or it raises. *)
Inductive outcome (E A : Type) : Type :=
| Returns (a : A)
| Raises (e : E).

Arguments Returns {E A} a.
Arguments Raises {E A} e.

(** The exceptions the modelled code meets. *)
Inductive exn : Type :=
| JSONDecodeError
| OSError
| RecursionError
| ValueError
| OverflowError
| UnicodeEncodeError.

(** [x] followed by [f] on what [x] returns; an exception of [x] goes
    through. *)
Definition and_then {A B : Type} (x : outcome exn A)
    (f : A -> outcome exn B) : outcome exn B :=
  match x with
  | Returns a => f a
  | Raises e => Raises e
  end.

(** *** Limits of the interpreter *)

(** [sys.get_int_max_str_digits()]: the conversion of a string of more
    digits to an [int] raises [ValueError]. *)
Definition MAX_STR_DIGITS : nat := 4300.

(** [sys.getrecursionlimit()], which the program leaves at its default.
    The calls in progress when [json.loads] is entered, a handful, count
    against the limit as well; the model leaves them out, and takes the
    scanner to accept 1000 nested lists and objects. *)
Definition RECURSION_LIMIT : nat := 1000.

(** *** Numbers *)

(** [float]: binary64. *)
Definition float : Type := spec_float.

Definition prec : Z := 53.
Definition emax : Z := 1024.

(** A Python number: an [int] or a [float]. *)
Inductive number : Type :=
| PyInt (n : Z)
| PyFloat (x : float).

(** [x + y] and [x - y] on floats. *)
Definition float_add (x y : float) : float := SFadd prec emax x y.

Definition float_sub (x y : float) : float := SFsub prec emax x y.

(** A rounded result that does not fit a [float] is an [OverflowError]. *)
Definition fits (x : float) : outcome exn float :=
  match x with
  | S754_infinity _ => Raises OverflowError
  | _ => Returns x
  end.

(** The conversion of an [int] that meets a [float] in an operation: the
    nearest float, [OverflowError] when the integer is too large. *)
Definition float_of_int (n : Z) : outcome exn float :=
  fits (binary_normalize prec emax n 0 false).

(** [a / b] on integers, for a positive [b]: the quotient rounded once,
    [OverflowError] when it is too large. *)
Definition int_true_divide (a : Z) (b : positive) : outcome exn float :=
  match a with
  | Z0 => Returns (S754_zero false)
  | Zpos m =>
      let '(q, e, l) := SFdiv_core_binary prec emax (Zpos m) 0 (Zpos b) 0 in
      fits (binary_round_aux prec emax false q e l)
  | Zneg m =>
      let '(q, e, l) := SFdiv_core_binary prec emax (Zpos m) 0 (Zpos b) 0 in
      fits (binary_round_aux prec emax true q e l)
  end.

(** [n + x] for an [int] [n] and a [float] [x]. *)
Definition int_add_float (n : Z) (x : float) : outcome exn float :=
  and_then (float_of_int n) (fun a => Returns (float_add a x)).

(** *** Text files *)

(** Reading in text mode: a carriage return, with the line feed that
    follows it if there is one, is read as a line feed. *)
Fixpoint universal_newlines (s : str) : str :=
  match s with
  | [] => []
  | c :: rest =>
      if N.eqb c 13 then
        10%N :: match rest with
                | d :: rest' =>
                    if N.eqb d 10 then universal_newlines rest'
                    else universal_newlines rest
                | [] => []
                end
      else c :: universal_newlines rest
  end.

(** A string with a surrogate code point has no UTF-8 encoding. *)
Definition surrogate (c : char) : bool := N.leb 55296 c && N.leb c 57343.

Definition encodable (s : str) : bool :=
  forallb (fun c => negb (surrogate c)) s.

End Py.

Import Py.

(** ** The [re] module *)

Module Re.

Inductive regex : Type :=
| Eps
| Cls (p : char -> bool)
| Cat (r1 r2 : regex)
| Alt (r1 r2 : regex)
| Star (r : regex)
| Grp (n : nat) (r : regex)
| Bos
| Eos.

(** A position in the subject, with the groups captured so far. *)
Record mstate : Type := MState {
  before : list char;
  after : list char;
  groups : list (nat * str)
}.

Definition advance (c : char) (rest : list char) (st : mstate) : mstate :=
  MState (c :: before st) rest (groups st).

Definition consumed (st st' : mstate) : str :=
  firstn (length (after st) - length (after st')) (after st).

Definition set_group (n : nat) (st st' : mstate) : mstate :=
  MState (before st') (after st') ((n, consumed st st') :: groups st').

(** The loop of [r*]: one more iteration that consumes something is tried
    before leaving the loop; [fuel] bounds the number of iterations by the
    length of what is left of the subject. *)
Fixpoint star_loop {A : Type}
    (body : mstate -> (mstate -> option A) -> option A)
    (k : mstate -> option A) (fuel : nat) (st : mstate) : option A :=
  match fuel with
  | O => k st
  | S fuel' =>
      match body st (fun st' =>
              if length (after st') <? length (after st)
              then star_loop body k fuel' st' else None) with
      | Some x => Some x
      | None => k st
      end
  end.

(** The matcher tries the alternatives in the order of the engine: the
    left branch of [|] first, then the right one; [k] is what remains to be
    matched.  [$] holds at the end of the subject and before a newline that
    ends it. *)
Fixpoint exec {A : Type} (r : regex) (st : mstate)
    (k : mstate -> option A) {struct r} : option A :=
  match r with
  | Eps => k st
  | Cls p =>
      match after st with
      | c :: rest => if p c then k (advance c rest st) else None
      | [] => None
      end
  | Cat r1 r2 => exec r1 st (fun st' => exec r2 st' k)
  | Alt r1 r2 =>
      match exec r1 st k with
      | Some x => Some x
      | None => exec r2 st k
      end
  | Star r1 => star_loop (exec r1) k (length (after st)) st
  | Grp n r1 => exec r1 st (fun st' => k (set_group n st st'))
  | Bos => match before st with [] => k st | _ :: _ => None end
  | Eos =>
      match after st with
      | [] => k st
      | [c] => if N.eqb c 10 then k st else None
      | _ => None
      end
  end.

Definition Plus (r : regex) : regex := Cat r (Star r).

(** [r{2,}] *)
Definition AtLeast2 (r : regex) : regex := Cat r (Cat r (Star r)).

Fixpoint Lit (s : str) : regex :=
  match s with
  | [] => Eps
  | c :: s' => Cat (Cls (N.eqb c)) (Lit s')
  end.

(** [.] without DOTALL. *)
Definition Dot : regex := Cls (fun c => negb (N.eqb c 10)).

Definition in_range (lo hi : ascii) (c : char) : bool :=
  (N.leb (ch lo) c && N.leb c (ch hi))%bool.

Definition one_of (s : string) (c : char) : bool :=
  existsb (N.eqb c) (pystr s).

(** [re.match(r, s)]: a match that starts at the beginning of [s]. *)
Definition re_match (r : regex) (s : str) : option mstate :=
  exec r (MState [] s []) Some.

(** [re.search(r, s)]: the match at the leftmost position that has one. *)
Fixpoint search_from (r : regex) (bef aft : list char) : option mstate :=
  match exec r (MState bef aft []) Some with
  | Some st => Some st
  | None =>
      match aft with
      | [] => None
      | c :: aft' => search_from r (c :: bef) aft'
      end
  end.

Definition re_search (r : regex) (s : str) : option mstate :=
  search_from r [] s.

(** [m.group(n)] of a group that took part in the match. *)
Fixpoint group (n : nat) (gs : list (nat * str)) : str :=
  match gs with
  | [] => []
  | (m, s) :: gs' => if Nat.eqb m n then s else group n gs'
  end.

(** [re.sub(r, repl, s)] for a replacement without group references. *)
Fixpoint sub_loop (r : regex) (repl : str) (fuel : nat)
    (bef aft : list char) : str :=
  match fuel with
  | O => aft
  | S fuel' =>
      let copy :=
        match aft with
        | [] => []
        | c :: aft' => c :: sub_loop r repl fuel' (c :: bef) aft'
        end in
      match exec r (MState bef aft []) Some with
      | Some st' =>
          if length (after st') <? length aft
          then repl ++ sub_loop r repl fuel' (before st') (after st')
          else repl ++ copy
      | None => copy
      end
  end.

Definition re_sub (r : regex) (repl s : str) : str :=
  sub_loop r repl (S (length s)) [] s.

End Re.

Import Re.

(** ** utils.py *)

(** [[;&<>$`\\\x00-\x1F\x7F]] *)
Definition sanitize_class (c : char) : bool :=
  one_of ";&<>$`\" c || N.leb c 31 || N.eqb c 127.

Definition sanitize_input (text : str) : str :=
  if negb (truthy text) then []
  else if str_eqb text (pystr "DIEEEEE") then text
  else re_sub (Cls sanitize_class) [] text.

(** [^[a-zA-Z0-9._%+-]+@[a-zA-Z0-9.-]+\.[a-zA-Z]{2,}$] *)
Definition alpha (c : char) : bool :=
  in_range "a" "z" c || in_range "A" "Z" c.

Definition alnum (c : char) : bool := alpha c || in_range "0" "9" c.

Definition email_local (c : char) : bool := alnum c || one_of "._%+-" c.

Definition email_domain (c : char) : bool := alnum c || one_of ".-" c.

Definition email_pattern : regex :=
  Cat Bos
  (Cat (Plus (Cls email_local))
  (Cat (Lit (pystr "@"))
  (Cat (Plus (Cls email_domain))
  (Cat (Lit (pystr "."))
  (Cat (AtLeast2 (Cls alpha))
   Eos))))).

Definition is_valid_email (email : str) : bool :=
  if negb (truthy email) then false
  else match re_match email_pattern email with
       | Some _ => true
       | None => false
       end.

Definition digit_or_semi (c : char) : bool :=
  in_range "0" "9" c || N.eqb c (ch ";").

Definition not_char (a : ascii) (c : char) : bool := negb (N.eqb c (ch a)).

(** The substitutions of [clean_text], in the order of the source. *)
Definition clean_patterns : list regex :=
  [ (* \x1B\[[0-9;]*[JKmsu] *)
    Cat (Cls (N.eqb 27)) (Cat (Lit (pystr "["))
      (Cat (Star (Cls digit_or_semi)) (Cls (one_of "JKmsu"))));
    (* \[[0-9;]*m *)
    Cat (Lit (pystr "[")) (Cat (Star (Cls digit_or_semi)) (Lit (pystr "m")));
    (* Study information for [^:]*: *)
    Cat (Lit (pystr "Study information for "))
      (Cat (Star (Cls (not_char ":"))) (Lit (pystr ":")));
    (* Enter specific study goals for [^(]*\(press Enter for none\): *)
    Cat (Lit (pystr "Enter specific study goals for "))
      (Cat (Star (Cls (not_char "(")))
         (Lit (pystr "(press Enter for none):")));
    (* Work information for [^:]*: *)
    Cat (Lit (pystr "Work information for "))
      (Cat (Star (Cls (not_char ":"))) (Lit (pystr ":")));
    (* Add another plan for .* \(y/n\): *)
    Cat (Lit (pystr "Add another plan for "))
      (Cat (Star Dot) (Lit (pystr " (y/n):")));
    (* Plan Name: *)
    Lit (pystr "Plan Name:");
    (* Plan Details \(e\.g\., hours, location\): *)
    Lit (pystr "Plan Details (e.g., hours, location):") ].

Definition clean_text (text : str) : str :=
  if negb (truthy text) then []
  else strip (fold_left (fun t r => re_sub r [] t) clean_patterns text).

(** ** config.py *)

Inductive Day : Type := Monday | Tues | Wed | Thur | Fri | Sat | Sun.

Definition DAYS : list Day := [Monday; Tues; Wed; Thur; Fri; Sat; Sun].

Definition day_name (d : Day) : str :=
  match d with
  | Monday => pystr "Monday"
  | Tues => pystr "Tues"
  | Wed => pystr "Wed"
  | Thur => pystr "Thur"
  | Fri => pystr "Fri"
  | Sat => pystr "Sat"
  | Sun => pystr "Sun"
  end.

Definition Day_eqb (a b : Day) : bool :=
  match a, b with
  | Monday, Monday | Tues, Tues | Wed, Wed | Thur, Thur
  | Fri, Fri | Sat, Sat | Sun, Sun => true
  | _, _ => false
  end.

Definition DEFAULT_STUDY_TIMES (d : Day) : str :=
  match d with
  | Sun => pystr "12:00-2:00"
  | _ => pystr "11:00-3:00"
  end.

Definition PLAN_SAVE_SEPARATOR : str := pystr "||PLANS||".

(** ** The schedule *)

Record Plan : Type := mkPlan {
  name : str;
  details : str
}.

Record DaySchedule : Type := mkDay {
  study_time : str;
  goals : str;
  plans : list Plan
}.

(** The schedule dictionary: one entry for each of the seven keys of
    [DAYS]. *)
Definition WeekSchedule : Type := Day -> DaySchedule.

Definition set_day (w : WeekSchedule) (d : Day) (x : DaySchedule)
    : WeekSchedule :=
  fun d' => if Day_eqb d' d then x else w d'.

Definition initialize_default_schedule : WeekSchedule :=
  fun day => mkDay (DEFAULT_STUDY_TIMES day) [] [].

(** ** The [json] module *)

Module Json.

Inductive json : Type :=
| JNull
| JBool (b : bool)
| JNum (literal : str)
| JStr (s : str)
| JArr (items : list json)
| JObj (members : list (str * json)).

Definition quote : char := 34%N.
Definition backslash : char := 92%N.

Definition hex_digit (n : N) : char :=
  if N.ltb n 10 then (48 + n)%N else (87 + n)%N.

(** [encode_basestring]: what [json.dumps(..., ensure_ascii=False)] writes
    for one character of a string. *)
Definition escape_char (c : char) : str :=
  if N.eqb c quote then [backslash; quote]
  else if N.eqb c backslash then [backslash; backslash]
  else if N.eqb c 10 then backslash :: pystr "n"
  else if N.eqb c 13 then backslash :: pystr "r"
  else if N.eqb c 9 then backslash :: pystr "t"
  else if N.eqb c 12 then backslash :: pystr "f"
  else if N.eqb c 8 then backslash :: pystr "b"
  else if N.ltb c 32
       then backslash :: pystr "u00" ++ [hex_digit (c / 16); hex_digit (c mod 16)]
  else [c].

Definition dumps_string (s : str) : str :=
  quote :: flat_map escape_char s ++ [quote].

Definition dumps_plan (p : Plan) : str :=
  pystr "{" ++ dumps_string (pystr "name") ++ pystr ": "
    ++ dumps_string (name p) ++ pystr ", "
    ++ dumps_string (pystr "details") ++ pystr ": "
    ++ dumps_string (details p) ++ pystr "}".

Fixpoint join (sep : str) (l : list str) : str :=
  match l with
  | [] => []
  | [x] => x
  | x :: l' => x ++ sep ++ join sep l'
  end.

(** [json.dumps(valid_plans, ensure_ascii=False)] for a list of
    [{'name': ..., 'details': ...}] dictionaries. *)
Definition dumps_plans (l : list Plan) : str :=
  pystr "[" ++ join (pystr ", ") (map dumps_plan l) ++ pystr "]".

(** *** The decoder *)

Definition is_ws (c : char) : bool :=
  N.eqb c 32 || N.eqb c 9 || N.eqb c 10 || N.eqb c 13.

Fixpoint skip_ws (s : str) : str :=
  match s with
  | c :: s' => if is_ws c then skip_ws s' else s
  | [] => []
  end.

Definition hex_value (c : char) : option N :=
  if in_range "0" "9" c then Some (c - 48)%N
  else if in_range "a" "f" c then Some (c - 87)%N
  else if in_range "A" "F" c then Some (c - 55)%N
  else None.

(** The four hexadecimal digits of a [\u] escape. *)
Definition decode_uXXXX (s : str) : option (N * str) :=
  match s with
  | a :: b :: c :: d :: rest =>
      match hex_value a, hex_value b, hex_value c, hex_value d with
      | Some x, Some y, Some z, Some w =>
          Some (4096 * x + 256 * y + 16 * z + w, rest)%N
      | _, _, _, _ => None
      end
  | _ => None
  end.

(** A [\u] escape: a high surrogate followed by the escape of a low
    surrogate is one code point. *)
Definition unicode_escape (s : str) : option (char * str) :=
  match decode_uXXXX s with
  | None => None
  | Some (uni, rest) =>
      if (N.leb 55296 uni && N.leb uni 56319)%bool then
        match rest with
        | b :: u :: rest2 =>
            if (N.eqb b backslash && N.eqb u (ch "u"))%bool then
              match decode_uXXXX rest2 with
              | None => None
              | Some (uni2, rest3) =>
                  if (N.leb 56320 uni2 && N.leb uni2 57343)%bool
                  then Some (65536 + ((uni - 55296) * 1024 + (uni2 - 56320)),
                             rest3)%N
                  else Some (uni, rest)
              end
            else Some (uni, rest)
        | _ => Some (uni, rest)
        end
      else Some (uni, rest)
  end.

Definition simple_escape (c : char) : option char :=
  if N.eqb c quote then Some quote
  else if N.eqb c backslash then Some backslash
  else if N.eqb c (ch "/") then Some (ch "/")
  else if N.eqb c (ch "b") then Some 8%N
  else if N.eqb c (ch "f") then Some 12%N
  else if N.eqb c (ch "n") then Some 10%N
  else if N.eqb c (ch "r") then Some 13%N
  else if N.eqb c (ch "t") then Some 9%N
  else None.

(** [scanstring] in strict mode, from the character after the opening
    quote; [acc] is the decoded text, reversed. *)
Fixpoint scanstring (fuel : nat) (s : str) (acc : str) : option (str * str) :=
  match fuel with
  | O => None
  | S fuel' =>
      match s with
      | [] => None
      | c :: rest =>
          if N.eqb c quote then Some (rev acc, rest)
          else if N.eqb c backslash then
            match rest with
            | [] => None
            | e :: rest' =>
                if N.eqb e (ch "u") then
                  match unicode_escape rest' with
                  | Some (u, rest2) => scanstring fuel' rest2 (u :: acc)
                  | None => None
                  end
                else
                  match simple_escape e with
                  | Some x => scanstring fuel' rest' (x :: acc)
                  | None => None
                  end
            end
          else if N.ltb c 32 then None
          else scanstring fuel' rest (c :: acc)
      end
  end.

Definition Opt (r : regex) : regex := Alt r Eps.

Definition digit (c : char) : bool := in_range "0" "9" c.

(** [NUMBER_RE]: an optional sign and an integer part without leading
    zeros (group 1), an optional fraction (group 2), an optional exponent
    (group 3). *)
Definition NUMBER_RE : regex :=
  Cat (Grp 1 (Cat (Opt (Lit (pystr "-")))
                (Alt (Lit (pystr "0"))
                     (Cat (Cls (in_range "1" "9")) (Star (Cls digit))))))
  (Cat (Opt (Grp 2 (Cat (Lit (pystr ".")) (Plus (Cls digit)))))
       (Opt (Grp 3 (Cat (Cls (one_of "eE"))
                     (Cat (Opt (Cls (one_of "-+"))) (Plus (Cls digit))))))).

Definition keyword (kw : string) (v : json) (s : str) : option (json * str) :=
  match strip_prefix (pystr kw) s with
  | Some rest => Some (v, rest)
  | None => None
  end.

(** The digits of the integer part of a number. *)
Definition int_digits (integer : str) : nat := length (filter digit integer).

(** A value that is neither a string, an object nor an array.  A number
    without fraction and exponent is converted by [int], which raises
    [ValueError] when it has more than [MAX_STR_DIGITS] digits. *)
Definition scan_atom (s : str) : outcome exn (json * str) :=
  match keyword "null" JNull s with
  | Some r => Returns r
  | None =>
  match keyword "true" (JBool true) s with
  | Some r => Returns r
  | None =>
  match keyword "false" (JBool false) s with
  | Some r => Returns r
  | None =>
  match re_match NUMBER_RE s with
  | Some st =>
      let integer := group 1 (groups st) in
      let frac := group 2 (groups st) in
      let exp := group 3 (groups st) in
      if truthy frac || truthy exp
      then Returns (JNum (firstn (length s - length (after st)) s), after st)
      else if MAX_STR_DIGITS <? int_digits integer then Raises ValueError
      else Returns (JNum (firstn (length s - length (after st)) s), after st)
  | None =>
  match keyword "NaN" (JNum (pystr "NaN")) s with
  | Some r => Returns r
  | None =>
  match keyword "Infinity" (JNum (pystr "Infinity")) s with
  | Some r => Returns r
  | None =>
  match keyword "-Infinity" (JNum (pystr "-Infinity")) s with
  | Some r => Returns r
  | None => Raises JSONDecodeError
  end end end end end end end.

(** [scan_once], [JSONArray] and [JSONObject].  A value is scanned after
    at most two calls for each character that is read, so that twice the
    length of the text is fuel enough.  [depth] is the number of nested
    calls that are left: the scan of an object or of an array is one more
    call, and raises [RecursionError] when none is left. *)
Fixpoint scan_once (fuel depth : nat) (s : str) {struct fuel}
    : outcome exn (json * str) :=
  match fuel with
  | O => Raises JSONDecodeError
  | S fuel' =>
      match s with
      | [] => Raises JSONDecodeError
      | c :: rest =>
          if N.eqb c quote then
            match scanstring (S (length rest)) rest [] with
            | Some (x, rest') => Returns (JStr x, rest')
            | None => Raises JSONDecodeError
            end
          else if N.eqb c (ch "{") then
            match depth with
            | O => Raises RecursionError
            | S depth' =>
                match skip_ws rest with
                | c' :: rest' =>
                    if N.eqb c' (ch "}") then Returns (JObj [], rest')
                    else if N.eqb c' quote
                         then scan_members fuel' depth' rest' []
                    else Raises JSONDecodeError
                | [] => Raises JSONDecodeError
                end
            end
          else if N.eqb c (ch "[") then
            match depth with
            | O => Raises RecursionError
            | S depth' =>
                match skip_ws rest with
                | c' :: rest' =>
                    if N.eqb c' (ch "]") then Returns (JArr [], rest')
                    else scan_items fuel' depth' (c' :: rest') []
                | [] => Raises JSONDecodeError
                end
            end
          else scan_atom s
      end
  end

with scan_items (fuel depth : nat) (s : str) (acc : list json) {struct fuel}
    : outcome exn (json * str) :=
  match fuel with
  | O => Raises JSONDecodeError
  | S fuel' =>
      match scan_once fuel' depth s with
      | Raises e => Raises e
      | Returns (v, rest) =>
          match skip_ws rest with
          | c :: rest' =>
              if N.eqb c (ch "]") then Returns (JArr (rev (v :: acc)), rest')
              else if N.eqb c (ch ",")
                   then scan_items fuel' depth (skip_ws rest') (v :: acc)
              else Raises JSONDecodeError
          | [] => Raises JSONDecodeError
          end
      end
  end

with scan_members (fuel depth : nat) (s : str) (acc : list (str * json))
    {struct fuel} : outcome exn (json * str) :=
  match fuel with
  | O => Raises JSONDecodeError
  | S fuel' =>
      match scanstring (S (length s)) s [] with
      | None => Raises JSONDecodeError
      | Some (key, rest) =>
          match skip_ws rest with
          | c :: rest1 =>
              if N.eqb c (ch ":") then
                match scan_once fuel' depth (skip_ws rest1) with
                | Raises e => Raises e
                | Returns (v, rest2) =>
                    match skip_ws rest2 with
                    | c' :: rest3 =>
                        if N.eqb c' (ch "}")
                        then Returns (JObj (rev ((key, v) :: acc)), rest3)
                        else if N.eqb c' (ch ",") then
                          match skip_ws rest3 with
                          | q :: rest4 =>
                              if N.eqb q quote
                              then scan_members fuel' depth rest4
                                     ((key, v) :: acc)
                              else Raises JSONDecodeError
                          | [] => Raises JSONDecodeError
                          end
                        else Raises JSONDecodeError
                    | [] => Raises JSONDecodeError
                    end
                end
              else Raises JSONDecodeError
          | [] => Raises JSONDecodeError
          end
      end
  end.

(** [json.loads(s)]; the scan starts with the whole of
    [RECURSION_LIMIT] left. *)
Definition loads (s : str) : outcome exn json :=
  match s with
  | 65279%N :: _ => Raises JSONDecodeError
  | _ =>
      match scan_once (S (2 * length s)) RECURSION_LIMIT (skip_ws s) with
      | Returns (v, rest) =>
          match skip_ws rest with
          | [] => Returns v
          | _ :: _ => Raises JSONDecodeError
          end
      | Raises e => Raises e
      end
  end.

(** [d.get(key, default)] on a decoded object: of two members with the same
    key the later one is kept. *)
Fixpoint dict_get (key : str) (members : list (str * json)) : option json :=
  match members with
  | [] => None
  | (k, v) :: rest =>
      match dict_get key rest with
      | Some v' => Some v'
      | None => if str_eqb k key then Some v else None
      end
  end.

End Json.

Import Json.

(** ** schedule_manager.py: reading the record file *)

(** A file as the program finds it: missing, there but raising when it is
    opened or read (no permission, bytes that are not UTF-8), or holding the
    encoding of a text. *)
Inductive FileState : Type :=
| Absent
| Unreadable
| Content (text : str).

(** What a path leads to: a file in one of its states, or nothing that can
    be examined, [os.stat] raising an error other than the absence of the
    file (a directory on the way that cannot be searched gives
    [PermissionError], a subclass of [OSError]).  A file state is read as
    the path that leads to it. *)
Inductive PathState : Type :=
| Reachable (file : FileState)
| Unreachable.

Coercion Reachable : FileState >-> PathState.

Definition exists_ (f : FileState) : bool :=
  match f with Absent => false | _ => true end.

(** [path.exists()]: [pathlib], as of Python 3.11, raises again the errors
    of [os.stat] that do not mean absence. *)
Definition path_exists (path : PathState) : outcome exn bool :=
  match path with
  | Reachable f => Returns (exists_ f)
  | Unreachable => Raises OSError
  end.

Record Manager : Type := mkManager {
  schedule : WeekSchedule
}.

(** Undoes the shell escaping: a backslash and a double quote become a
    double quote, then two backslashes become one. *)
Definition unescape (s : str) : str :=
  replace [backslash; backslash] [backslash]
    (replace [backslash; quote] [quote] s).

(** The pattern of a day's line: the text [schedule[Day]=], a double
    quote, group 1 made of characters other than the quote and the backslash
    and of pairs of a backslash and a character that [.] matches, and a
    closing double quote. *)
Definition plain_char (c : char) : bool :=
  negb (N.eqb c quote || N.eqb c backslash).

Definition line_head (day : Day) : str :=
  pystr "schedule[" ++ day_name day ++ pystr "]=" ++ [quote].

Definition line_body : regex :=
  Star (Alt (Cls plain_char) (Cat (Cls (N.eqb backslash)) Dot)).

Definition line_pattern (day : Day) : regex :=
  Cat (Lit (line_head day)) (Cat (Grp 1 line_body) (Lit [quote])).

Definition set_study_time (x : str) (d : DaySchedule) : DaySchedule :=
  mkDay x (goals d) (plans d).

Definition set_goals (x : str) (d : DaySchedule) : DaySchedule :=
  mkDay (study_time d) x (plans d).

Definition set_plans (x : list Plan) (d : DaySchedule) : DaySchedule :=
  mkDay (study_time d) (goals d) x.

Section Load.

(** [str(v)] for a decoded value [v] that is not a string. *)
Variable py_str : json -> str.

(** [str(item.get(key, ''))] *)
Definition item_field (key : string) (members : list (str * json)) : str :=
  match dict_get (pystr key) members with
  | Some (JStr s) => s
  | Some v => py_str v
  | None => []
  end.

(** The loop over the decoded list: items that are not dictionaries and
    items whose name is empty after sanitization are skipped. *)
Fixpoint validate_plans (plans_list : list json) : list Plan :=
  match plans_list with
  | [] => []
  | JObj members :: rest =>
      let plan_name := sanitize_input (item_field "name" members) in
      let plan_details := sanitize_input (item_field "details" members) in
      if truthy plan_name
      then mkPlan plan_name plan_details :: validate_plans rest
      else validate_plans rest
  | _ :: rest => validate_plans rest
  end.

Definition field (legacy_data : list str) (i : nat) : str :=
  nth i legacy_data [].

Definition yes_no (x : str) : str :=
  if str_eqb x (pystr "yes") || str_eqb x (pystr "no") then x else pystr "no".

(** The plans of a record in the format that had no JSON part. *)
Definition legacy_plans (legacy_data : list str) : list Plan :=
  let dg_work := yes_no (field legacy_data 1) in
  let dg_hours := clean_text (field legacy_data 2) in
  let jj_work := yes_no (field legacy_data 3) in
  let jj_hours := clean_text (field legacy_data 4) in
  let day_notes := clean_text (field legacy_data 6) in
  (if str_eqb dg_work (pystr "yes")
   then [mkPlan (pystr "Dollar General") dg_hours] else [])
  ++ (if str_eqb jj_work (pystr "yes")
      then [mkPlan (pystr "JJ Pizza") jj_hours] else [])
  ++ (if truthy day_notes then [mkPlan (pystr "Note") day_notes] else []).

(** The body of the loop of [load_schedule_data] for a day whose line was
    found, [data_str] being [match.group(1)] and [d0] the entry of
    [temp_schedule]. *)
Definition parse_day (day : Day) (d0 : DaySchedule) (data_str : str)
    : outcome exn DaySchedule :=
  let (legacy_part, json_part) := split_once PLAN_SAVE_SEPARATOR data_str in
  let legacy_part_unescaped := unescape legacy_part in
  let legacy_data := split (pystr "|") legacy_part_unescaped in
  let d1 :=
    if 1 <=? length legacy_data then
      let study_time := clean_text (field legacy_data 0) in
      let study_time :=
        if negb (truthy study_time) || contains (pystr "information") study_time
        then DEFAULT_STUDY_TIMES day else study_time in
      set_study_time study_time d0
    else d0 in
  let d2 :=
    if 2 <=? length legacy_data
    then set_goals (clean_text (field legacy_data 1)) d1
    else d1 in
  match json_part with
  | Some (c :: json_rest) =>
      let json_part_unescaped := unescape (c :: json_rest) in
      let json_part_cleaned := strip json_part_unescaped in
      if negb (truthy json_part_cleaned) then Returns (set_plans [] d2)
      else
        match loads json_part_cleaned with
        | Returns (JArr plans_list) =>
            Returns (set_plans (validate_plans plans_list) d2)
        | Returns _ => Returns (set_plans [] d2)
        | Raises JSONDecodeError => Returns (set_plans [] d2)
        | Raises e => Raises e
        end
  | _ =>
      if 7 <=? length legacy_data then
        Returns (set_plans (legacy_plans legacy_data)
                   (set_goals (clean_text (field legacy_data 5)) d2))
      else Returns (set_plans [] d2)
  end.

(** [re.search(pattern, content)] and [match.group(1)]. *)
Definition find_entry (day : Day) (content : str) : option str :=
  match re_search (line_pattern day) content with
  | Some m => Some (group 1 (groups m))
  | None => None
  end.

(** One turn of [for day in DAYS], on [(temp_schedule, loaded_something)]. *)
Definition load_day (content : str) (acc : outcome exn (WeekSchedule * bool))
    (day : Day) : outcome exn (WeekSchedule * bool) :=
  match acc with
  | Raises e => Raises e
  | Returns (temp_schedule, loaded_something) =>
      match find_entry day content with
      | Some data_str =>
          match parse_day day (temp_schedule day) data_str with
          | Returns d => Returns (set_day temp_schedule day d, true)
          | Raises e => Raises e
          end
      | None =>
          Returns (set_day temp_schedule day (initialize_default_schedule day),
                   loaded_something)
      end
  end.

(** [open(path, 'r', encoding='utf-8')] and [f.read()]. *)
Definition read_text (path : PathState) : outcome exn str :=
  match path with
  | Reachable (Content text) => Returns (universal_newlines text)
  | _ => Raises OSError
  end.

(** The [try] block of [load_schedule_data]. *)
Definition load_try (path : PathState) : outcome exn WeekSchedule :=
  match read_text path with
  | Raises e => Raises e
  | Returns content =>
      match fold_left (load_day content) DAYS
              (Returns (initialize_default_schedule, false)) with
      | Raises e => Raises e
      | Returns (temp_schedule, loaded_something) =>
          if loaded_something then Returns temp_schedule
          else Returns initialize_default_schedule
      end
  end.

(** [load_schedule_data]: what the call does, and the manager after it.
    The test [ANSWERS_FILE.exists()] comes before the [try] block. *)
Definition load_schedule_data (path : PathState) (self : Manager)
    : outcome exn WeekSchedule * Manager :=
  match path_exists path with
  | Raises e => (Raises e, self)
  | Returns false =>
      (Returns initialize_default_schedule,
       mkManager initialize_default_schedule)
  | Returns true =>
      match load_try path with
      | Returns w => (Returns w, mkManager w)
      | Raises _ =>
          (Returns initialize_default_schedule,
           mkManager initialize_default_schedule)
      end
  end.

End Load.

(** ** schedule_manager.py: writing the record file *)

(** [s.replace('\\', '\\\\')] followed by the replacement of every double
    quote by a backslash and a double quote. *)
Definition shell_escape (s : str) : str :=
  replace [quote] [backslash; quote]
    (replace [backslash] [backslash; backslash] s).

(** The loop that builds [valid_plans]. *)
Fixpoint valid_plans (l : list Plan) : list Plan :=
  match l with
  | [] => []
  | p :: rest =>
      let name := sanitize_input (name p) in
      let details := sanitize_input (details p) in
      if truthy name then mkPlan name details :: valid_plans rest
      else valid_plans rest
  end.

Definition combined_data (day_data : DaySchedule) : str :=
  let study_time := sanitize_input (study_time day_data) in
  let goals := sanitize_input (goals day_data) in
  let plans_json := dumps_plans (valid_plans (plans day_data)) in
  let escaped_study_time := shell_escape study_time in
  let escaped_goals := shell_escape goals in
  let shell_safe_plans_json := shell_escape plans_json in
  escaped_study_time ++ pystr "|" ++ escaped_goals
    ++ PLAN_SAVE_SEPARATOR ++ shell_safe_plans_json.

Definition newline : str := [10%N].

Definition day_line (day : Day) (day_data : DaySchedule) : str :=
  line_head day ++ combined_data day_data ++ [quote] ++ newline.

Section Save.

Variable CURRENT_DATE : str.

(** The arguments of the calls of [f.write], in order. *)
Definition preamble : list str :=
  [pystr "# Schedule data saved on " ++ CURRENT_DATE ++ newline;
   pystr "days=(" ++ newline]
  ++ map (fun day => pystr "  " ++ [quote] ++ day_name day ++ [quote] ++ newline)
       DAYS
  ++ [pystr ")" ++ newline ++ newline;
      pystr "declare -A schedule" ++ newline].

Definition file_chunks (w : WeekSchedule) : list str :=
  preamble ++ map (fun day => day_line day (w day)) DAYS.

Definition file_text (w : WeekSchedule) : str := concat (file_chunks w).

(** The directory of the record file: the file itself and the backup
    copies, by time stamp. *)
Record Disk : Type := mkDisk {
  answers_file : FileState;
  backups : list (N * FileState)
}.

(** What the environment lets fail during one call of [save_schedule_data]:
    [writes_ok = Some n] makes the call of [f.write] after the first [n]
    raise. *)
Record Faults : Type := mkFaults {
  mkdir_raises : bool;
  copy_raises : bool;
  open_raises : bool;
  writes_ok : option nat;
  chmod_raises : bool
}.

Definition World : Type := (Manager * Disk)%type.

Definition io (A : Type) : Type := World -> outcome exn A * World.

Definition ret {A : Type} (a : A) : io A := fun w => (Returns a, w).

Definition raise {A : Type} (e : exn) : io A := fun w => (Raises e, w).

Definition bind {A B : Type} (m : io A) (f : A -> io B) : io B :=
  fun w =>
    match m w with
    | (Returns a, w') => f a w'
    | (Raises e, w') => (Raises e, w')
    end.

(** [try: m except Exception: h] *)
Definition try_except {A : Type} (m : io A) (h : exn -> io A) : io A :=
  fun w =>
    match m w with
    | (Returns a, w') => (Returns a, w')
    | (Raises e, w') => h e w'
    end.

Notation "x <- m ;; f" := (bind m (fun x => f))
  (at level 61, m at next level, right associativity).
Notation "m ;;; f" := (bind m (fun _ => f))
  (at level 61, right associativity).

Definition get_disk : io Disk := fun w => (Returns (snd w), w).

Definition put_disk (d : Disk) : io unit := fun w => (Returns tt, (fst w, d)).

Definition get_self : io Manager := fun w => (Returns (fst w), w).

Definition put_self (m : Manager) : io unit :=
  fun w => (Returns tt, (m, snd w)).

Definition mkdir (flt : Faults) : io unit :=
  if mkdir_raises flt then raise OSError else ret tt.

Definition copy2 (flt : Faults) (stamp : N) : io unit :=
  if copy_raises flt then raise OSError
  else d <- get_disk ;;
       put_disk (mkDisk (answers_file d) ((stamp, answers_file d) :: backups d)).

(** [open(ANSWERS_FILE, 'w')] empties the file. *)
Definition open_w (flt : Faults) : io unit :=
  if open_raises flt then raise OSError
  else d <- get_disk ;; put_disk (mkDisk (Content []) (backups d)).

Definition append_text (f : FileState) (chunk : str) : FileState :=
  match f with
  | Content text => Content (text ++ chunk)
  | _ => Content chunk
  end.

(** [f.write(chunk)]: the text is encoded, which raises
    [UnicodeEncodeError] for a text with a surrogate, then written, which
    raises when [ok] is false. *)
Definition write (ok : bool) (chunk : str) : io unit :=
  if negb (encodable chunk) then raise UnicodeEncodeError
  else if ok then
    d <- get_disk ;;
    put_disk (mkDisk (append_text (answers_file d) chunk) (backups d))
  else raise OSError.

(** The calls of [f.write], [budget] being what is left of [writes_ok]. *)
Fixpoint write_all (budget : option nat) (chunks : list str) : io unit :=
  match chunks with
  | [] => ret tt
  | chunk :: rest =>
      match budget with
      | Some O => write false chunk
      | Some (S n) => write true chunk ;;; write_all (Some n) rest
      | None => write true chunk ;;; write_all None rest
      end
  end.

Definition chmod (flt : Faults) : io unit :=
  if chmod_raises flt then raise OSError else ret tt.

(** [save_schedule_data(schedule_to_save)]; [stamp] is [int(time.time())]. *)
Definition save_schedule_data (flt : Faults) (stamp : N)
    (schedule_to_save : option WeekSchedule) : io bool :=
  self <- get_self ;;
  let schedule_to_save :=
    match schedule_to_save with
    | None => schedule self
    | Some w => w
    end in
  try_except
    (mkdir flt ;;;
     d <- get_disk ;;
     (if exists_ (answers_file d)
      then try_except (copy2 flt stamp) (fun _ => ret tt)
      else ret tt) ;;;
     open_w flt ;;;
     write_all (writes_ok flt) (file_chunks schedule_to_save) ;;;
     try_except (chmod flt) (fun _ => ret tt) ;;;
     put_self (mkManager schedule_to_save) ;;;
     ret true)
    (fun _ => ret false).

End Save.

(** ** schedule_manager.py: the week summary of the text report

    The statistics [generate_text_schedule] computes after the days; the
    boxes and the formatting of the lines are not modelled. *)

Definition visible (p : Plan) : bool := truthy (strip (details p)).

Section Summary.

(** [unicodedata.decimal]: the value of a character that [\d] matches. *)
Variable decimal : char -> option N.

Definition is_decimal (c : char) : bool :=
  match decimal c with Some _ => true | None => false end.

(** The value of a string of decimal digits. *)
Definition int_value (s : str) : Z :=
  fold_left (fun acc c =>
               match decimal c with
               | Some v => (10 * acc + Z.of_N v)%Z
               | None => (10 * acc)%Z
               end) s 0%Z.

(** [int(s)] for a string of decimal digits. *)
Definition py_int (s : str) : outcome exn Z :=
  if MAX_STR_DIGITS <? length s then Raises ValueError
  else Returns (int_value s).

(** [(\d+):(\d+)-(\d+):(\d+)] *)
Definition time_pattern : regex :=
  Cat (Grp 1 (Plus (Cls is_decimal)))
  (Cat (Lit (pystr ":"))
  (Cat (Grp 2 (Plus (Cls is_decimal)))
  (Cat (Lit (pystr "-"))
  (Cat (Grp 3 (Plus (Cls is_decimal)))
  (Cat (Lit (pystr ":"))
       (Grp 4 (Plus (Cls is_decimal)))))))).

Notation "x <- m ;; f" := (and_then m (fun x => f))
  (at level 61, m at next level, right associativity).

(** [(end_hour + end_min/60) - (start_hour + start_min/60)] *)
Definition hours_between (start_hour start_min end_hour end_min : Z)
    : outcome exn float :=
  end_part <- int_true_divide end_min 60 ;;
  end_time <- int_add_float end_hour end_part ;;
  start_part <- int_true_divide start_min 60 ;;
  start_time <- int_add_float start_hour start_part ;;
  Returns (float_sub end_time start_time).

(** The hours one [study_time] adds to [total_study_hours], if it adds
    any. *)
Definition study_hours (study_time : str) : outcome exn (option float) :=
  if truthy study_time then
    match re_match time_pattern study_time with
    | Some time_match =>
        start_hour <- py_int (group 1 (groups time_match)) ;;
        start_min <- py_int (group 2 (groups time_match)) ;;
        end_hour <- py_int (group 3 (groups time_match)) ;;
        end_min <- py_int (group 4 (groups time_match)) ;;
        let end_hour :=
          if (end_hour <? start_hour)%Z then (end_hour + 12)%Z else end_hour in
        hours <- hours_between start_hour start_min end_hour end_min ;;
        Returns (Some hours)
    | None => Returns None
    end
  else Returns None.

Record Statistics : Type := mkStatistics {
  total_study_hours : number;
  total_plans : nat;
  days_with_goals : nat
}.

(** [total_study_hours += hours] *)
Definition add_hours (total : number) (hours : float) : outcome exn number :=
  match total with
  | PyInt n => total <- int_add_float n hours ;; Returns (PyFloat total)
  | PyFloat x => Returns (PyFloat (float_add x hours))
  end.

(** One turn of the loop that computes the weekly statistics. *)
Definition count_day (schedule_data : WeekSchedule)
    (acc : outcome exn Statistics) (day : Day) : outcome exn Statistics :=
  acc <- acc ;;
  let day_data := schedule_data day in
  hours <- study_hours (study_time day_data) ;;
  total <- match hours with
           | Some hours => add_hours (total_study_hours acc) hours
           | None => Returns (total_study_hours acc)
           end ;;
  let visible_plans := filter visible (plans day_data) in
  Returns (mkStatistics total
             (total_plans acc + length visible_plans)
             (if truthy (goals day_data) then days_with_goals acc + 1
              else days_with_goals acc)).

(** The statistics of [generate_text_schedule]; an exception leaves the
    method. *)
Definition week_statistics (schedule_data : WeekSchedule)
    : outcome exn Statistics :=
  fold_left (count_day schedule_data) DAYS
    (Returns (mkStatistics (PyInt 0) 0 0)).

End Summary.

(** ** schedule_manager.py: the HTML report *)

(** [html.escape(s)], with [quote=True]. *)
Definition html_escape (s : str) : str :=
  let s := replace (pystr "&") (pystr "&amp;") s in
  let s := replace (pystr "<") (pystr "&lt;") s in
  let s := replace (pystr ">") (pystr "&gt;") s in
  let s := replace [quote] (pystr "&quot;") s in
  replace (pystr "'") (pystr "&#x27;") s.

(** A literal of the template; the double quotes of the source are written
    [~], a character the template does not use. *)
Definition html_lit (s : string) : str :=
  map (fun c => if N.eqb c 126 then quote else c) (pystr s).

Definition day_colors (day : Day) : str :=
  match day with
  | Monday => pystr "#3b82f6"
  | Tues => pystr "#8b5cf6"
  | Wed => pystr "#10b981"
  | Thur => pystr "#f59e0b"
  | Fri => pystr "#ef4444"
  | Sat => pystr "#6366f1"
  | Sun => pystr "#ec4899"
  end.

Section Html.

Variable CURRENT_DATE : str.

(** The pieces each [html_content += ...] appends. *)
Definition html_open : list str :=
  [html_lit "<!DOCTYPE html>
    <html lang=~en~>
    <head>
        <meta charset=~UTF-8~>
        <meta name=~viewport~ content=~width=device-width, initial-scale=1.0~>
        <title>Weekly Schedule - ";
   CURRENT_DATE;
   html_lit "</title>
        <!--[if mso]>
        <noscript>
            <xml>
                <o:OfficeDocumentSettings>
                    <o:PixelsPerInch>96</o:PixelsPerInch>
                </o:OfficeDocumentSettings>
            </xml>
        </noscript>
        <![endif]-->
        <style type=~text/css~>
            /* Reset styles */
            body, table, td, a { text-size-adjust: 100%; -webkit-text-size-adjust: 100%; -ms-text-size-adjust: 100%; }
            table, td { mso-table-lspace: 0pt; mso-table-rspace: 0pt; }
            img { border: 0; line-height: 100%; outline: none; text-decoration: none; -ms-interpolation-mode: bicubic; }
            
            /* Remove default styling */
            body { margin: 0; padding: 0; width: 100% !important; min-width: 100%; }
            
            /* Email client specific styles */
            .ReadMsgBody { width: 100%; }
            .ExternalClass { width: 100%; }
            .ExternalClass, .ExternalClass p, .ExternalClass span, .ExternalClass font, .ExternalClass td, .ExternalClass div { line-height: 100%; }
            
            /* Outlook specific */
            table { border-collapse: collapse !important; }
            
            /* Mobile styles */
            @media screen and (max-width: 600px) {
                .mobile-hide { display: none !important; }
                .mobile-center { text-align: center !important; }
                .container { width: 100% !important; max-width: 100% !important; }
                .day-column { width: 100% !important; display: block !important; margin-bottom: 20px !important; }
                .day-table { width: 100% !important; }
            }
        </style>
    </head>
    <body style=~margin: 0; padding: 0; background-color: #f6f9fc; font-family: -apple-system, BlinkMacSystemFont, 'Segoe UI', Roboto, Helvetica, Arial, sans-serif;~>
        <!-- Wrapper table -->
        <table cellpadding=~0~ cellspacing=~0~ border=~0~ width=~100%~ style=~background-color: #f6f9fc;~>
            <tr>
                <td align=~center~ style=~padding: 40px 20px;~>
                    
                    <!-- Container table -->
                    <table cellpadding=~0~ cellspacing=~0~ border=~0~ width=~100%~ class=~container~ style=~max-width: 800px; background-color: #ffffff; border-radius: 8px; box-shadow: 0 4px 6px rgba(0, 0, 0, 0.07);~>
                        
                        <!-- Header -->
                        <tr>
                            <td style=~padding: 40px 30px; text-align: center; background-color: #1a365d; border-radius: 8px 8px 0 0;~>
                                <h1 style=~margin: 0; color: #ffffff; font-size: 28px; font-weight: 700; line-height: 1.2;~>My Weekly Schedule</h1>
                                <p style=~margin: 10px 0 0 0; color: #e2e8f0; font-size: 16px;~>";
   CURRENT_DATE;
   html_lit "</p>
                            </td>
                        </tr>
                        
                        <!-- Schedule Content -->
                        <tr>
                            <td style=~padding: 30px;~>
                                
                                <!-- Days Grid -->
                                <table cellpadding=~0~ cellspacing=~0~ border=~0~ width=~100%~>
                                    <tr>
                                        <td style=~padding-bottom: 30px;~>
                                            
                                            <!-- Mobile responsive: Stack on small screens -->
                                            <!--[if mso]>
                                            <table cellpadding=~0~ cellspacing=~0~ border=~0~ width=~100%~><tr>
                                            <![endif]-->
                                            
                                            <table cellpadding=~0~ cellspacing=~0~ border=~0~ width=~100%~ style=~table-layout: 100%;~>
    "].

Definition row_open : str := html_lit "<tr>".

Definition row_close : str := html_lit "</tr>".

Definition empty_cell : str :=
  html_lit "<td class=~day-column~ width=~33%~ style=~padding: 0 5px;~></td>".

Definition card_open (color day : str) : list str :=
  [html_lit "
                        <td class=~day-column~ width=~33%~ valign=~top~ style=~padding: 0 5px 15px 5px;~>
                            <table cellpadding=~0~ cellspacing=~0~ border=~0~ width=~100%~ class=~day-table~ style=~background-color: #ffffff; border: 1px solid #e5e7eb; border-radius: 6px; overflow: hidden;~>
                                <!-- Day Header -->
                                <tr>
                                    <td style=~background-color: ";
   color;
   html_lit "; padding: 12px 15px; text-align: center;~>
                                        <h3 style=~margin: 0; color: #ffffff; font-size: 18px; font-weight: 600;~>";
   day;
   html_lit "</h3>
                                    </td>
                                </tr>
                                <!-- Day Content -->
                                <tr>
                                    <td style=~padding: 15px;~>
    "].

Definition study_block (color study_time : str) : list str :=
  [html_lit "
                                        <table cellpadding=~0~ cellspacing=~0~ border=~0~ width=~100%~ style=~margin-bottom: 12px;~>
                                            <tr>
                                                <td style=~border-left: 3px solid ";
   color;
   html_lit "; padding-left: 12px;~>
                                                    <p style=~margin: 0 0 4px 0; color: #374151; font-size: 14px; font-weight: 600;~>Study Time</p>
                                                    <p style=~margin: 0; color: #6b7280; font-size: 13px;~>";
   html_escape study_time;
   html_lit "</p>
                                                </td>
                                            </tr>
                                        </table>
    "].

Definition goals_block (color goals : str) : list str :=
  [html_lit "
                                        <table cellpadding=~0~ cellspacing=~0~ border=~0~ width=~100%~ style=~margin-bottom: 12px;~>
                                            <tr>
                                                <td style=~border-left: 3px solid ";
   color;
   html_lit "; padding-left: 12px;~>
                                                    <p style=~margin: 0 0 4px 0; color: #374151; font-size: 14px; font-weight: 600;~>Goals</p>
                                                    <p style=~margin: 0; color: #6b7280; font-size: 13px;~>";
   html_escape goals;
   html_lit "</p>
                                                </td>
                                            </tr>
                                        </table>
    "].

Definition plan_block (color : str) (plan : Plan) : list str :=
  let plan_name := name plan in
  let plan_details := details plan in
  [html_lit "
                                        <table cellpadding=~0~ cellspacing=~0~ border=~0~ width=~100%~ style=~margin-bottom: 12px;~>
                                            <tr>
                                                <td style=~border-left: 3px solid ";
   color;
   html_lit "; padding-left: 12px;~>
                                                    <p style=~margin: 0 0 4px 0; color: #374151; font-size: 14px; font-weight: 600;~>";
   html_escape plan_name;
   html_lit "</p>
                                                    <p style=~margin: 0; color: #6b7280; font-size: 13px;~>";
   html_escape plan_details;
   html_lit "</p>
                                                </td>
                                            </tr>
                                        </table>
    "].

Definition placeholder_block : str :=
  html_lit "
                                        <table cellpadding=~0~ cellspacing=~0~ border=~0~ width=~100%~>
                                            <tr>
                                                <td style=~padding: 8px 0;~>
                                                    <p style=~margin: 0; color: #9ca3af; font-size: 13px; font-style: italic; text-align: center;~>No schedule set</p>
                                                </td>
                                            </tr>
                                        </table>
    ".

Definition card_close : str :=
  html_lit "
                                    </td>
                                </tr>
                            </table>
                        </td>
    ".

Definition row_spacer : str :=
  html_lit "<tr><td colspan=~3~ style=~height: 10px;~></td></tr>".

Definition grid_close : str :=
  html_lit "
                                            </table>
                                            
                                            <!--[if mso]>
                                            </tr></table>
                                            <![endif]-->
                                            
                                        </td>
                                    </tr>
                                </table>
    ".

Definition notes_block (escaped_notes : str) : list str :=
  [html_lit "
                                <!-- Notes Section -->
                                <table cellpadding=~0~ cellspacing=~0~ border=~0~ width=~100%~ style=~margin-top: 30px;~>
                                    <tr>
                                        <td style=~background-color: #f9fafb; border: 1px solid #e5e7eb; border-radius: 6px; padding: 20px;~>
                                            <h3 style=~margin: 0 0 12px 0; color: #1f2937; font-size: 18px; font-weight: 600;~>Additional Notes</h3>
                                            <pre style=~margin: 0; color: #4b5563; font-size: 14px; font-family: -apple-system, BlinkMacSystemFont, 'Segoe UI', Roboto, Helvetica, Arial, sans-serif; white-space: pre-wrap; word-wrap: break-word;~>";
   escaped_notes;
   html_lit "</pre>
                                        </td>
                                    </tr>
                                </table>
    "].

Definition html_close : list str :=
  [html_lit "
                            </td>
                        </tr>
                        
                        <!-- Footer -->
                        <tr>
                            <td style=~padding: 30px; text-align: center; border-top: 1px solid #e5e7eb;~>
                                <p style=~margin: 0; color: #6b7280; font-size: 13px;~>Schedule generated on ";
   CURRENT_DATE;
   html_lit "</p>
                            </td>
                        </tr>
                        
                    </table>
                    <!-- End Container -->
                    
                </td>
            </tr>
        </table>
        <!-- End Wrapper -->
    </body>
    </html>
    "].

Variable schedule_data : WeekSchedule.

(** The card of one day. *)
Definition day_card (day : Day) : list str :=
  let day_data := schedule_data day in
  let study_time := study_time day_data in
  let goals := goals day_data in
  let plans := plans day_data in
  let color := day_colors day in
  let visible_plans := filter visible plans in
  card_open color (day_name day)
  ++ (if truthy study_time then study_block color study_time else [])
  ++ (if truthy goals then goals_block color goals else [])
  ++ flat_map (plan_block color) visible_plans
  ++ (if negb (truthy study_time) && negb (truthy goals)
         && match visible_plans with [] => true | _ :: _ => false end
      then [placeholder_block] else [])
  ++ [card_close].

Definition days_per_row : nat :=
  if 4 <? length DAYS then 3 else length DAYS.

(** [for i in range(days_per_row)], from [day_index]. *)
Fixpoint row_cells (n day_index : nat) : list str * nat :=
  match n with
  | O => ([], day_index)
  | S n' =>
      match nth_error DAYS day_index with
      | None =>
          let (cells, i) := row_cells n' day_index in (empty_cell :: cells, i)
      | Some day =>
          let (cells, i) := row_cells n' (S day_index) in
          (day_card day ++ cells, i)
      end
  end.

(** [while day_index < len(DAYS)] *)
Fixpoint grid_rows (fuel day_index : nat) : list str :=
  match fuel with
  | O => []
  | S fuel' =>
      if day_index <? length DAYS then
        let (cells, i) := row_cells days_per_row day_index in
        [row_open] ++ cells ++ [row_close]
        ++ (if i <? length DAYS then [row_spacer] else [])
        ++ grid_rows fuel' i
      else []
  end.

Definition html_pieces (notes_content : str) : list str :=
  html_open
  ++ grid_rows (length DAYS) 0
  ++ [grid_close]
  ++ (if truthy notes_content && truthy (strip notes_content)
      then notes_block (html_escape (strip notes_content)) else [])
  ++ html_close.

(** The markup before the style sheet is inlined. *)
Definition html_content (notes_content : str) : str :=
  concat (html_pieces notes_content).

(** [css_inline.CSSInliner(...).inline] *)
Variable inline : str -> outcome exn str.

Definition generate_html_email (notes_content : str) : str :=
  match inline (html_content notes_content) with
  | Returns inlined_html => inlined_html
  | Raises _ => html_content notes_content
  end.

End Html.

(** ** schedule_manager.py: the groups of the reminders

    What [generate_reminders] decides before it prints: whether the week
    has anything to remind of, the goals and the plans it lists, and the
    group each plan is listed under.  The boxes and the layout of the lines
    are not modelled. *)

Definition nonempty {A : Type} (l : list A) : bool :=
  match l with [] => false | _ :: _ => true end.

(** The loop that sets [has_any_content]. *)
Definition has_any_content (schedule_data : WeekSchedule) : bool :=
  existsb (fun day =>
             let day_data := schedule_data day in
             let visible_plans := filter visible (plans day_data) in
             truthy (goals day_data) || nonempty visible_plans)
    DAYS.

Definition all_goals (schedule_data : WeekSchedule) : list (Day * str) :=
  flat_map (fun day =>
              let goals := goals (schedule_data day) in
              if truthy goals then [(day, goals)] else [])
    DAYS.

Definition all_plans (schedule_data : WeekSchedule) : list (Day * Plan) :=
  flat_map (fun day =>
              map (fun plan => (day, plan))
                (filter visible (plans (schedule_data day))))
    DAYS.

Record PlanGroups : Type := mkGroups {
  work_plans : list (Day * Plan);
  appointment_plans : list (Day * Plan);
  eat_plans : list (Day * Plan);
  sleeping_plans : list (Day * Plan);
  pray_plans : list (Day * Plan);
  break_plans : list (Day * Plan);
  study_plans : list (Day * Plan);
  youtube_plans : list (Day * Plan);
  play_plans : list (Day * Plan);
  other_plans : list (Day * Plan)
}.

Definition no_groups : PlanGroups := mkGroups [] [] [] [] [] [] [] [] [] [].

(** [word in plan_name] *)
Definition has (word : string) (plan_name : str) : bool :=
  contains (pystr word) plan_name.

Section Reminders.

(** [str.lower] *)
Variable lower : str -> str.

(** One turn of [for day, plan in all_plans]. *)
Definition group_plan (g : PlanGroups) (entry : Day * Plan) : PlanGroups :=
  let plan_name := lower (name (snd entry)) in
  if has "work" plan_name || has "dollar general" plan_name
     || has "jj" plan_name
  then mkGroups (work_plans g ++ [entry]) (appointment_plans g) (eat_plans g)
         (sleeping_plans g) (pray_plans g) (break_plans g) (study_plans g)
         (youtube_plans g) (play_plans g) (other_plans g)
  else if has "appointment" plan_name || has "appt" plan_name
          || has "meeting" plan_name
  then mkGroups (work_plans g) (appointment_plans g ++ [entry]) (eat_plans g)
         (sleeping_plans g) (pray_plans g) (break_plans g) (study_plans g)
         (youtube_plans g) (play_plans g) (other_plans g)
  else if has "eat" plan_name || has "meal" plan_name
          || has "lunch" plan_name || has "dinner" plan_name
  then mkGroups (work_plans g) (appointment_plans g) (eat_plans g ++ [entry])
         (sleeping_plans g) (pray_plans g) (break_plans g) (study_plans g)
         (youtube_plans g) (play_plans g) (other_plans g)
  else if has "sleep" plan_name || has "night" plan_name
          || has "bedtime" plan_name || has "nap" plan_name
          || has "rest" plan_name
  then mkGroups (work_plans g) (appointment_plans g) (eat_plans g)
         (sleeping_plans g ++ [entry]) (pray_plans g) (break_plans g)
         (study_plans g) (youtube_plans g) (play_plans g) (other_plans g)
  else if has "pray" plan_name || has "worship" plan_name
          || has "rosary" plan_name || has "meditation" plan_name
  then mkGroups (work_plans g) (appointment_plans g) (eat_plans g)
         (sleeping_plans g) (pray_plans g ++ [entry]) (break_plans g)
         (study_plans g) (youtube_plans g) (play_plans g) (other_plans g)
  else if has "break" plan_name || has "relax" plan_name
          || has "chill" plan_name
  then mkGroups (work_plans g) (appointment_plans g) (eat_plans g)
         (sleeping_plans g) (pray_plans g) (break_plans g ++ [entry])
         (study_plans g) (youtube_plans g) (play_plans g) (other_plans g)
  else if has "study" plan_name || has "homework" plan_name
          || has "assignment" plan_name || has "revision" plan_name
          || has "research" plan_name
  then mkGroups (work_plans g) (appointment_plans g) (eat_plans g)
         (sleeping_plans g) (pray_plans g) (break_plans g)
         (study_plans g ++ [entry]) (youtube_plans g) (play_plans g)
         (other_plans g)
  else if has "play" plan_name || has "game" plan_name
          || has "gaming" plan_name || has "fun" plan_name
          || has "outside" plan_name
  then mkGroups (work_plans g) (appointment_plans g) (eat_plans g)
         (sleeping_plans g) (pray_plans g) (break_plans g) (study_plans g)
         (youtube_plans g) (play_plans g ++ [entry]) (other_plans g)
  else if has "youtube" plan_name || has "video" plan_name
          || has "watch" plan_name
  then mkGroups (work_plans g) (appointment_plans g) (eat_plans g)
         (sleeping_plans g) (pray_plans g) (break_plans g) (study_plans g)
         (youtube_plans g ++ [entry]) (play_plans g) (other_plans g)
  else mkGroups (work_plans g) (appointment_plans g) (eat_plans g)
         (sleeping_plans g) (pray_plans g) (break_plans g) (study_plans g)
         (youtube_plans g) (play_plans g) (other_plans g ++ [entry]).

(** The groups after the loop. *)
Definition grouped_plans (schedule_data : WeekSchedule) : PlanGroups :=
  fold_left group_plan (all_plans schedule_data) no_groups.

(** The groups in the order in which they are printed. *)
Definition printed_groups (g : PlanGroups) : list (list (Day * Plan)) :=
  [work_plans g; appointment_plans g; eat_plans g; youtube_plans g;
   sleeping_plans g; pray_plans g; break_plans g; study_plans g;
   play_plans g; other_plans g].

End Reminders.

(** ** schedule_manager.py: the legacy configuration *)

(** [DEFAULT_EMAIL] of config.py *)
Definition DEFAULT_EMAIL : str := pystr "your_default_recipient@example.com".

Definition not_quote (c : char) : bool := negb (N.eqb c quote).

Definition email_line_head : str := pystr "EMAIL=" ++ [quote].

(** The pattern of the recipient in the legacy file: the text [EMAIL=], a
    double quote, group 1 made of characters other than the double quote,
    and a double quote. *)
Definition email_line : regex :=
  Cat (Lit email_line_head)
    (Cat (Grp 1 (Star (Cls not_quote))) (Lit [quote])).

(** [load_legacy_config]: the recipient after the call, [config] being the
    path of the legacy file and [email_to] the recipient before the call.
    The test [CONFIG_FILE.exists()] comes before the [try] block. *)
Definition load_legacy_config (config : PathState) (email_to : str)
    : outcome exn str :=
  match path_exists config with
  | Raises e => Raises e
  | Returns false => Returns email_to
  | Returns true =>
      match read_text config with
      | Returns content =>
          match re_search email_line content with
          | Some email_match =>
              let loaded_email := group 1 (groups email_match) in
              if str_eqb email_to DEFAULT_EMAIL then Returns loaded_email
              else Returns email_to
          | None => Returns email_to
          end
      | Raises _ => Returns email_to
      end
  end.

(** ** schedule_manager.py: the notes file *)

(** The notes the manager holds and the notes file; [Content text] is a
    file that holds the UTF-8 encoding of [text]. *)
Record Notes : Type := mkNotes {
  additional_notes : str;
  NOTES_FILE : FileState
}.

(** [NOTES_FILE.stat().st_size > 0] *)
Definition st_size_positive (f : FileState) : bool :=
  match f with
  | Absent => false
  | Unreadable => true
  | Content text => truthy text
  end.

(** [f.read()] on the notes file. *)
Definition read_notes (f : FileState) : outcome exn str :=
  match f with
  | Content text => Returns (universal_newlines text)
  | Absent | Unreadable => Raises OSError
  end.

(** [load_notes]: the notes it returns and the manager after it. *)
Definition load_notes (self : Notes) : str * Notes :=
  let loaded :=
    if exists_ (NOTES_FILE self) && st_size_positive (NOTES_FILE self) then
      match read_notes (NOTES_FILE self) with
      | Returns text => text
      | Raises _ => []
      end
    else [] in
  (loaded, mkNotes loaded (NOTES_FILE self)).

(** The exceptions of writing the notes. *)
Inductive notes_exn : Type :=
| NotesOSError
| UnicodeEncodeError.

Section SaveNotes.

Definition notes_io (A : Type) : Type :=
  Notes -> outcome notes_exn A * Notes.

Definition notes_ret {A : Type} (a : A) : notes_io A :=
  fun s => (Returns a, s).

Definition notes_raise {A : Type} (e : notes_exn) : notes_io A :=
  fun s => (Raises e, s).

Definition notes_bind {A B : Type} (m : notes_io A) (f : A -> notes_io B)
    : notes_io B :=
  fun s =>
    match m s with
    | (Returns a, s') => f a s'
    | (Raises e, s') => (Raises e, s')
    end.

Definition notes_try {A : Type} (m : notes_io A)
    (h : notes_exn -> notes_io A) : notes_io A :=
  fun s =>
    match m s with
    | (Returns a, s') => (Returns a, s')
    | (Raises e, s') => h e s'
    end.

Notation "m ;;; f" := (notes_bind m (fun _ => f))
  (at level 61, right associativity).

Definition notes_mkdir (flt : Faults) : notes_io unit :=
  if mkdir_raises flt then notes_raise NotesOSError else notes_ret tt.

(** [open(NOTES_FILE, 'w')] empties the file. *)
Definition notes_open_w (flt : Faults) : notes_io unit :=
  if open_raises flt then notes_raise NotesOSError
  else fun s => (Returns tt, mkNotes (additional_notes s) (Content [])).

(** [f.write(notes_content)]: the text is encoded, then written;
    [writes_ok = Some 0] makes the write raise. *)
Definition notes_write (flt : Faults) (text : str) : notes_io unit :=
  if negb (encodable text) then notes_raise UnicodeEncodeError
  else match writes_ok flt with
       | Some O => notes_raise NotesOSError
       | _ => fun s => (Returns tt, mkNotes (additional_notes s) (Content text))
       end.

Definition notes_chmod (flt : Faults) : notes_io unit :=
  if chmod_raises flt then notes_raise NotesOSError else notes_ret tt.

Definition set_additional_notes (text : str) : notes_io unit :=
  fun s => (Returns tt, mkNotes text (NOTES_FILE s)).

(** [save_notes(notes_content)] *)
Definition save_notes (flt : Faults) (notes_content : option str)
    : notes_io bool :=
  fun self =>
    let notes_content :=
      match notes_content with
      | None => additional_notes self
      | Some notes => notes
      end in
    notes_try
      (notes_mkdir flt ;;;
       notes_open_w flt ;;;
       notes_write flt notes_content ;;;
       notes_try (notes_chmod flt) (fun _ => notes_ret tt) ;;;
       set_additional_notes notes_content ;;;
       notes_ret true)
      (fun _ => notes_ret false)
      self.

End SaveNotes.

(** ** cli_interface.py: the prompts

    Standard input is the list of the lines still to be read; [input()]
    takes the first one and raises [EOFError] when there is none.  What is
    printed is not modelled. *)

Inductive cli_exn : Type := EOFError.

Definition cli (A : Type) : Type :=
  list str -> outcome cli_exn A * list str.

Definition input : cli str :=
  fun stdin =>
    match stdin with
    | [] => (Raises EOFError, [])
    | line :: rest => (Returns line, rest)
    end.

Section Cli.

(** [str.lower], [str.upper] and [sys.stdin.isatty()] *)
Variable lower : str -> str.
Variable upper : str -> str.
Variable stdin_isatty : bool.

(** Whether [default] is the given word. *)
Definition default_is (word : string) (default : option str) : bool :=
  match default with
  | Some d => str_eqb d (pystr word)
  | None => false
  end.

Definition default_answer (default : option str) : option str :=
  if default_is "yes" default then Some (pystr "y")
  else if default_is "no" default then Some (pystr "n")
  else None.

(** The loop of [ask_yes_no]: an answer that is neither yes nor no asks
    again; the end of the input answers no. *)
Fixpoint ask_loop (default_answer : option str) (stdin : list str)
    : bool * list str :=
  match stdin with
  | [] => (false, [])
  | line :: rest =>
      let answer := strip (lower line) in
      let answer :=
        match default_answer with
        | Some d => if negb (truthy answer) then d else answer
        | None => answer
        end in
      if str_eqb answer (pystr "y") || str_eqb answer (pystr "yes")
      then (true, rest)
      else if str_eqb answer (pystr "n") || str_eqb answer (pystr "no")
      then (false, rest)
      else ask_loop default_answer rest
  end.

Definition ask_yes_no (default : option str) (stdin : list str)
    : bool * list str :=
  if negb stdin_isatty then (default_is "yes" default, stdin)
  else ask_loop (default_answer default) stdin.

(** [a or b] on strings. *)
Definition or_else (a b : str) : str := if truthy a then a else b.

(** The loop that asks for new plans; [None] when [fuel] turns are not
    enough. *)
Fixpoint add_plans (fuel : nat) (new_plans : list Plan) (stdin : list str)
    : option (outcome cli_exn (list Plan) * list str) :=
  match fuel with
  | O => None
  | S fuel' =>
      let (add_more, stdin1) :=
        ask_yes_no
          (Some (if negb (nonempty new_plans) then pystr "yes" else pystr "no"))
          stdin in
      if negb add_more then Some (Returns new_plans, stdin1)
      else
        match input stdin1 with
        | (Raises e, stdin2) => Some (Raises e, stdin2)
        | (Returns line1, stdin2) =>
            let plan_name := sanitize_input (strip line1) in
            match input stdin2 with
            | (Raises e, stdin3) => Some (Raises e, stdin3)
            | (Returns line2, stdin3) =>
                let plan_details := sanitize_input (strip line2) in
                add_plans fuel'
                  (if truthy plan_name
                   then new_plans ++ [mkPlan plan_name plan_details]
                   else new_plans)
                  stdin3
            end
        end
  end.

(** [collect_day_info_cli(day, day_data)] *)
Definition collect_day_info_cli (day : Day) (day_data : DaySchedule)
    (stdin : list str)
    : option (outcome cli_exn DaySchedule * list str) :=
  let default_study_time := study_time day_data in
  match input stdin with
  | (Raises e, stdin1) => Some (Raises e, stdin1)
  | (Returns line1, stdin1) =>
      let study_time :=
        sanitize_input (or_else (strip line1) default_study_time) in
      let default_goals := goals day_data in
      match input stdin1 with
      | (Raises e, stdin2) => Some (Raises e, stdin2)
      | (Returns line2, stdin2) =>
          let study_goals :=
            sanitize_input (or_else (strip line2) default_goals) in
          let current_plans := plans day_data in
          let (new_plans, stdin3) :=
            if nonempty current_plans then
              let (clear, stdin3) :=
                ask_yes_no (Some (pystr "no")) stdin2 in
              if negb clear then (current_plans, stdin3) else ([], stdin3)
            else ([], stdin2) in
          if negb (nonempty new_plans) then
            match add_plans (S (length stdin3)) new_plans stdin3 with
            | Some (Returns new_plans, stdin4) =>
                Some (Returns (mkDay study_time study_goals new_plans), stdin4)
            | Some (Raises e, stdin4) => Some (Raises e, stdin4)
            | None => None
            end
          else Some (Returns (mkDay study_time study_goals new_plans), stdin3)
      end
  end.

(** The loop of [add_notes_cli] that reads the lines of the notes: it ends
    at a line that is [END] once stripped and put in upper case, and at the
    end of the input. *)
Fixpoint read_note_lines (stdin : list str) : list str * list str :=
  match stdin with
  | [] => ([], [])
  | line :: rest =>
      if str_eqb (upper (strip line)) (pystr "END") then ([], rest)
      else
        let kept :=
          if str_eqb line (pystr "DIEEEEE") then line
          else sanitize_input line in
        let (lines, rest') := read_note_lines rest in
        (kept :: lines, rest')
  end.

(** [add_notes_cli(manager)]: what is left of the input, and the manager
    after it; the report files it writes again are not modelled. *)
Definition add_notes_cli (flt : Faults) (stdin : list str) (manager : Notes)
    : list str * Notes :=
  let (previous_notes, manager) := load_notes manager in
  let (update, stdin) :=
    if truthy previous_notes
    then ask_yes_no (Some (pystr "no")) stdin
    else (true, stdin) in
  if negb update then (stdin, manager)
  else
    let (lines, stdin) := read_note_lines stdin in
    let new_notes := join newline lines in
    (stdin, snd (save_notes flt (Some new_notes) manager)).

End Cli.

(** * Properties *)

(** ** The sanitizer *)

Lemma sub_loop_class (p : char -> bool) :
  forall fuel bef aft,
    length aft < fuel ->
    sub_loop (Cls p) [] fuel bef aft = filter (fun c => negb (p c)) aft.
Proof.
  induction fuel as [|fuel IH]; intros bef aft Hlen; [lia|].
  destruct aft as [|c rest]; [reflexivity|].
  cbn [sub_loop exec after length filter app].
  destruct (p c) eqn:Hp; cbn [negb advance after before].
  - replace (length rest <? S (length rest)) with true
      by (symmetry; apply Nat.ltb_lt; lia).
    apply IH. simpl in Hlen. lia.
  - f_equal. apply IH. simpl in Hlen. lia.
Qed.

Lemma re_sub_class (p : char -> bool) (s : str) :
  re_sub (Cls p) [] s = filter (fun c => negb (p c)) s.
Proof. unfold re_sub. apply sub_loop_class. lia. Qed.

Lemma str_eqb_eq (a b : str) : str_eqb a b = true <-> a = b.
Proof.
  revert b. induction a as [|x a IH]; intros [|y b]; simpl; split;
    try congruence; try reflexivity.
  - intros H. apply andb_true_iff in H as [Hx Hr].
    apply N.eqb_eq in Hx. apply IH in Hr. congruence.
  - intros H. injection H as -> ->. rewrite N.eqb_refl. simpl.
    apply IH. reflexivity.
Qed.

(** [sanitize_input] is the filter of its character class: the two early
    returns agree with it. *)
Lemma sanitize_input_filter (text : str) :
  sanitize_input text = filter (fun c => negb (sanitize_class c)) text.
Proof.
  unfold sanitize_input. destruct text as [|c text]; [reflexivity|].
  cbn [truthy negb].
  destruct (str_eqb (c :: text) (pystr "DIEEEEE")) eqn:E.
  - apply str_eqb_eq in E. rewrite E. reflexivity.
  - apply re_sub_class.
Qed.

Lemma filter_idem {A : Type} (f : A -> bool) (l : list A) :
  filter f (filter f l) = filter f l.
Proof.
  induction l as [|x l IH]; simpl; [reflexivity|].
  destruct (f x) eqn:E; simpl; rewrite ?E, IH; reflexivity.
Qed.

Lemma sanitize_input_idem (text : str) :
  sanitize_input (sanitize_input text) = sanitize_input text.
Proof. rewrite !sanitize_input_filter. apply filter_idem. Qed.

(** The characters the claim lists, the comma among them. *)
Definition claimed_unsafe (c : char) : bool :=
  existsb (N.eqb c) [59; 38; 60; 62; 36; 96; 92; 44]%N
  || N.leb c 31 || N.eqb c 127.

(** The characters the pattern lists: [; & < > $ ` \], the control
    characters 0x00 to 0x1F, and 0x7F. *)
Definition unsafe (c : char) : bool :=
  existsb (N.eqb c) [59; 38; 60; 62; 36; 96; 92]%N
  || N.leb c 31 || N.eqb c 127.

(** C3, as stated, fails: a comma is kept. *)
Lemma sanitize_keeps_comma :
  sanitize_input (pystr "a,b") = pystr "a,b"
  /\ sanitize_input (pystr "a,b")
     <> filter (fun c => negb (claimed_unsafe c)) (pystr "a,b").
Proof. split; [reflexivity | discriminate]. Qed.

(** C3, amended: [sanitize_input] removes exactly the characters
    [; & < > $ ` \], the control characters 0x00-0x1F and 0x7F, keeps every
    other character (the comma too) in place, and returns the seven
    characters of [DIEEEEE] as they are. *)
Theorem sanitize_input_spec :
  (forall text,
     sanitize_input text = filter (fun c => negb (unsafe c)) text)
  /\ sanitize_input (pystr "DIEEEEE") = pystr "DIEEEEE"
  /\ length (pystr "DIEEEEE") = 7.
Proof.
  split; [|split; reflexivity].
  intros text. rewrite sanitize_input_filter.
  apply filter_ext. intros c. reflexivity.
Qed.

(** ** The e-mail check *)

(** The shape C8 describes. *)
Definition email_shape (s : str) : Prop :=
  exists local domain tld,
    s = local ++ pystr "@" ++ domain ++ pystr "." ++ tld
    /\ local <> [] /\ forallb email_local local = true
    /\ domain <> [] /\ forallb email_domain domain = true
    /\ 2 <= length tld /\ forallb alpha tld = true.

Lemma email_shape_last_alpha (s : str) (c : char) :
  email_shape (s ++ [c]) -> alpha c = true.
Proof.
  intros (l & d & t & Heq & _ & _ & _ & _ & Hlen & Ht).
  destruct (exists_last (l := t)) as (t' & x & ->).
  { intros ->. simpl in Hlen. lia. }
  rewrite forallb_app in Ht. apply andb_true_iff in Ht as [_ Hx].
  simpl in Hx. rewrite andb_true_r in Hx.
  replace (l ++ pystr "@" ++ d ++ pystr "." ++ t' ++ [x])
    with ((l ++ pystr "@" ++ d ++ pystr "." ++ t') ++ [x]) in Heq
    by (rewrite <- !app_assoc; reflexivity).
  apply app_inj_tail in Heq as [_ ->]. exact Hx.
Qed.

(** The examples of the specification. *)
Example is_valid_email_examples :
  is_valid_email (pystr "a@b.co") = true
  /\ is_valid_email (pystr "a@b") = false
  /\ is_valid_email [] = false
  /\ is_valid_email (pystr "a.b+c@sub.domain.org") = true.
Proof. repeat split; reflexivity. Qed.

(** C8 at the failing input: an address followed by a newline is accepted,
    although it does not have the shape. *)
Theorem is_valid_email_trailing_newline :
  is_valid_email (pystr "a@b.co" ++ newline) = true
  /\ ~ email_shape (pystr "a@b.co" ++ newline).
Proof.
  split; [reflexivity|].
  intros H. apply email_shape_last_alpha in H. discriminate H.
Qed.

(** ** Reading the record file *)

Lemma Day_eqb_eq (a b : Day) : Day_eqb a b = true <-> a = b.
Proof. destruct a, b; simpl; split; congruence. Qed.

Lemma Day_eqb_refl (a : Day) : Day_eqb a a = true.
Proof. destruct a; reflexivity. Qed.

Lemma Day_eqb_neq (a b : Day) : a <> b -> Day_eqb a b = false.
Proof.
  intros H. destruct (Day_eqb a b) eqn:E; [|reflexivity].
  apply Day_eqb_eq in E. contradiction.
Qed.

Lemma NoDup_DAYS : NoDup DAYS.
Proof.
  unfold DAYS.
  repeat (constructor; [simpl; intuition discriminate|]). constructor.
Qed.

Lemma In_DAYS (d : Day) : In d DAYS.
Proof. destruct d; simpl; tauto. Qed.

Section LoadFacts.

Variable py_str : json -> str.

(** The entry [parse_day] computes, when it returns. *)
Definition day_result (day : Day) (d0 : DaySchedule) (data_str : str)
    : DaySchedule :=
  match parse_day py_str day d0 data_str with
  | Returns d => d
  | Raises _ => d0
  end.

(** [parse_day] raises on the record of a day: [json.loads] raised
    something else than a [JSONDecodeError]. *)
Definition parse_raises (day : Day) (data_str : str) : bool :=
  match parse_day py_str day (initialize_default_schedule day) data_str with
  | Returns _ => false
  | Raises _ => true
  end.

Lemma parse_day_result (day : Day) (data_str : str) :
  parse_raises day data_str = false ->
  parse_day py_str day (initialize_default_schedule day) data_str
  = Returns (day_result day (initialize_default_schedule day) data_str).
Proof.
  unfold parse_raises, day_result.
  destruct (parse_day py_str day (initialize_default_schedule day) data_str);
    [reflexivity | discriminate].
Qed.

(** What [load_schedule_data] makes of one day of a text it decodes. *)
Definition decoded (content : str) (day : Day) : DaySchedule :=
  match find_entry day content with
  | Some data_str => day_result day (initialize_default_schedule day) data_str
  | None => initialize_default_schedule day
  end.

Definition found (content : str) (day : Day) : bool :=
  match find_entry day content with Some _ => true | None => false end.

(** The record of [day] in [content] makes [parse_day] raise. *)
Definition day_raises (content : str) (day : Day) : bool :=
  match find_entry day content with
  | Some data_str => parse_raises day data_str
  | None => false
  end.

(** The record of some day makes [parse_day] raise. *)
Definition decode_raises (content : str) : bool :=
  existsb (day_raises content) DAYS.

Lemma load_day_returns (content : str) (temp : WeekSchedule) (b : bool)
    (day : Day) :
  temp day = initialize_default_schedule day ->
  day_raises content day = false ->
  load_day py_str content (Returns (temp, b)) day
  = Returns (set_day temp day (decoded content day), b || found content day).
Proof.
  intros Ht Hr. unfold load_day, decoded, found, day_raises in *.
  destruct (find_entry day content) as [data_str|].
  - rewrite Ht, (parse_day_result _ _ Hr), orb_true_r. reflexivity.
  - rewrite orb_false_r. reflexivity.
Qed.

Lemma load_day_raises (content : str) (temp : WeekSchedule) (b : bool)
    (day : Day) :
  temp day = initialize_default_schedule day ->
  day_raises content day = true ->
  exists e, load_day py_str content (Returns (temp, b)) day = Raises e.
Proof.
  intros Ht Hr. unfold load_day, day_raises, parse_raises in *.
  destruct (find_entry day content) as [data_str|]; [|discriminate].
  rewrite Ht.
  destruct (parse_day py_str day (initialize_default_schedule day) data_str)
    as [d|e]; [discriminate|].
  exists e. reflexivity.
Qed.

Lemma load_fold_raised (content : str) (e : exn) :
  forall days, fold_left (load_day py_str content) days (Raises e) = Raises e.
Proof. induction days as [|day days IH]; [reflexivity | exact IH]. Qed.

Lemma load_fold (content : str) :
  forall (days : list Day) (temp : WeekSchedule) (b : bool),
    NoDup days ->
    (forall d, In d days -> temp d = initialize_default_schedule d) ->
    existsb (day_raises content) days = false ->
    exists temp',
      fold_left (load_day py_str content) days (Returns (temp, b))
      = Returns (temp', b || existsb (found content) days)
      /\ (forall d, In d days -> temp' d = decoded content d)
      /\ (forall d, ~ In d days -> temp' d = temp d).
Proof.
  induction days as [|day days IH]; intros temp b Hnd Hdef Hr.
  - exists temp. simpl. rewrite orb_false_r. repeat split; tauto.
  - inversion Hnd as [|? ? Hnotin Hnd']; subst.
    cbn [existsb] in Hr. apply orb_false_iff in Hr. destruct Hr as (Hr & Hrs).
    cbn [fold_left].
    rewrite load_day_returns by (try exact Hr; apply Hdef; left; reflexivity).
    destruct (IH (set_day temp day (decoded content day))
                (b || found content day) Hnd')
      as (temp' & Hfold & Hin & Hout); [|exact Hrs|].
    { intros d Hd. unfold set_day.
      rewrite Day_eqb_neq by (intros ->; contradiction).
      apply Hdef. right. exact Hd. }
    exists temp'. split; [|split].
    + rewrite Hfold. cbn [existsb]. rewrite orb_assoc. reflexivity.
    + intros d [<-|Hd]; [|apply Hin; exact Hd].
      rewrite Hout by exact Hnotin. unfold set_day. rewrite Day_eqb_refl.
      reflexivity.
    + intros d Hd. rewrite Hout by (intros H; apply Hd; right; exact H).
      unfold set_day. rewrite Day_eqb_neq; [reflexivity|].
      intros ->. apply Hd. left. reflexivity.
Qed.

Lemma load_fold_raises (content : str) :
  forall (days : list Day) (temp : WeekSchedule) (b : bool),
    NoDup days ->
    (forall d, In d days -> temp d = initialize_default_schedule d) ->
    existsb (day_raises content) days = true ->
    exists e,
      fold_left (load_day py_str content) days (Returns (temp, b)) = Raises e.
Proof.
  induction days as [|day days IH]; intros temp b Hnd Hdef Hr;
    [discriminate|].
  inversion Hnd as [|? ? Hnotin Hnd']; subst.
  cbn [existsb] in Hr. cbn [fold_left].
  destruct (day_raises content day) eqn:E.
  - destruct (load_day_raises content temp b day) as (e & He);
      [apply Hdef; left; reflexivity | exact E|].
    rewrite He. exists e. apply load_fold_raised.
  - rewrite load_day_returns by (try exact E; apply Hdef; left; reflexivity).
    apply IH; [exact Hnd' | | exact Hr].
    intros d Hd. unfold set_day.
    rewrite Day_eqb_neq by (intros ->; contradiction).
    apply Hdef. right. exact Hd.
Qed.

Lemma decoded_not_found (content : str) :
  existsb (found content) DAYS = false ->
  forall d, decoded content d = initialize_default_schedule d.
Proof.
  intros H d. unfold decoded.
  assert (Hd : found content d = false).
  { destruct (found content d) eqn:E; [|reflexivity].
    assert (existsb (found content) DAYS = true)
      by (apply existsb_exists; exists d; split; [apply In_DAYS | exact E]).
    congruence. }
  unfold found in Hd. destruct (find_entry d content); [discriminate|].
  reflexivity.
Qed.

(** A file that can be read is decoded day by day from the text read, as
    long as no record makes [parse_day] raise. *)
Lemma load_try_content (content : str) :
  decode_raises (universal_newlines content) = false ->
  exists w,
    load_try py_str (Content content) = Returns w
    /\ forall d, w d = decoded (universal_newlines content) d.
Proof.
  intros Hr. unfold load_try. cbn [read_text].
  destruct (load_fold (universal_newlines content) DAYS
              initialize_default_schedule false
              NoDup_DAYS (fun d _ => eq_refl) Hr) as (temp' & -> & Hin & _).
  cbn [orb].
  destruct (existsb (found (universal_newlines content)) DAYS) eqn:E.
  - exists temp'. split; [reflexivity|]. intros d. apply Hin, In_DAYS.
  - exists initialize_default_schedule. split; [reflexivity|].
    intros d. symmetry. apply decoded_not_found. exact E.
Qed.

Lemma load_try_raises (content : str) :
  decode_raises (universal_newlines content) = true ->
  exists e, load_try py_str (Content content) = Raises e.
Proof.
  intros Hr. unfold load_try. cbn [read_text].
  destruct (load_fold_raises (universal_newlines content) DAYS
              initialize_default_schedule false
              NoDup_DAYS (fun d _ => eq_refl) Hr) as (e & ->).
  exists e. reflexivity.
Qed.

(** What [load_schedule_data] returns for a file that holds [content]: the
    week decoded from the text read, or the default week when a record makes
    [parse_day] raise. *)
Definition loaded (content : str) : WeekSchedule :=
  if decode_raises (universal_newlines content)
  then initialize_default_schedule
  else decoded (universal_newlines content).

Lemma load_schedule_data_content (content : str) (self : Manager) :
  exists w,
    load_schedule_data py_str (Content content) self
    = (Returns w, mkManager w)
    /\ forall d, w d = loaded content d.
Proof.
  unfold load_schedule_data, loaded. cbn [path_exists exists_].
  destruct (decode_raises (universal_newlines content)) eqn:Hr.
  - destruct (load_try_raises content Hr) as (e & ->).
    exists initialize_default_schedule. split; reflexivity.
  - destruct (load_try_content content Hr) as (w & -> & Hd).
    exists w. split; [reflexivity | exact Hd].
Qed.

Lemma day_raises_false (content : str) (day : Day) :
  decode_raises content = false -> day_raises content day = false.
Proof.
  intros H. destruct (day_raises content day) eqn:E; [|reflexivity].
  assert (decode_raises content = true)
    by (apply existsb_exists; exists day; split; [apply In_DAYS | exact E]).
  congruence.
Qed.

(** Every day of a loaded schedule is the default entry or what [parse_day]
    returned for the day's record. *)
Lemma load_schedule_data_days (fs : FileState) (self : Manager) :
  exists w,
    load_schedule_data py_str fs self = (Returns w, mkManager w)
    /\ forall day,
         w day = initialize_default_schedule day
         \/ exists data_str,
              parse_raises day data_str = false
              /\ w day = day_result day (initialize_default_schedule day)
                           data_str.
Proof.
  destruct fs as [| |content].
  - exists initialize_default_schedule. split; [reflexivity|]. now left.
  - exists initialize_default_schedule. split; [reflexivity|]. now left.
  - destruct (load_schedule_data_content content self) as (w & Hw & Hd).
    exists w. split; [exact Hw|]. intros day. rewrite Hd. unfold loaded.
    destruct (decode_raises (universal_newlines content)) eqn:Hr;
      [now left|].
    pose proof (day_raises_false _ day Hr) as Hday.
    unfold decoded. unfold day_raises in Hday.
    destruct (find_entry day (universal_newlines content)) as [data_str|];
      [|now left].
    right. exists data_str. split; [exact Hday | reflexivity].
Qed.

End LoadFacts.

(** C2: [load_schedule_data] raises when the path of the record file cannot
    be examined: the test [ANSWERS_FILE.exists()] comes before the [try]
    block, its exception reaches the caller, and the manager is left as it
    was.  When the path leads to a file, whatever its state, the call
    returns and the manager holds what it returns: the result of the [try]
    block, or the default schedule when the block raised, as it does for a
    file that cannot be read; for an absent file the result is the default
    schedule, whose days have no plans, no goals and the study time of the
    default table. *)
Theorem load_schedule_data_raises :
  forall (py_str : json -> str) (self : Manager),
    load_schedule_data py_str Unreachable self = (Raises OSError, self)
    /\ (forall fs : FileState,
          exists w,
            load_schedule_data py_str fs self = (Returns w, mkManager w)
            /\ (forall e, load_try py_str fs = Raises e ->
                w = initialize_default_schedule)
            /\ (forall w0, exists_ fs = true ->
                load_try py_str fs = Returns w0 -> w = w0))
    /\ load_try py_str Unreadable = Raises OSError
    /\ load_schedule_data py_str Absent self
       = (Returns initialize_default_schedule,
          mkManager initialize_default_schedule)
    /\ forall day,
         plans (initialize_default_schedule day) = []
         /\ goals (initialize_default_schedule day) = []
         /\ study_time (initialize_default_schedule day)
            = DEFAULT_STUDY_TIMES day.
Proof.
  intros py_str self. split; [reflexivity|]. split.
  { intros fs. destruct fs as [| |content].
    - exists initialize_default_schedule. split; [reflexivity|].
      split; [reflexivity | discriminate].
    - exists initialize_default_schedule. split; [reflexivity|].
      split; [reflexivity | discriminate].
    - unfold load_schedule_data. cbn [path_exists exists_].
      destruct (load_try py_str (Content content)) as [w|e].
      + exists w. split; [reflexivity|]. split; [discriminate|].
        intros w0 _ H. congruence.
      + exists initialize_default_schedule. split; [reflexivity|].
        split; [reflexivity | discriminate]. }
  split; [reflexivity|]. split; [reflexivity|].
  intros day. repeat split.
Qed.


(** *** Plans without a name *)

(** A plan whose name is not empty after sanitization. *)
Definition named (p : Plan) : Prop := truthy (sanitize_input (name p)) = true.

Lemma truthy_sanitize_idem (x : str) :
  truthy (sanitize_input x) = true ->
  truthy (sanitize_input (sanitize_input x)) = true.
Proof. rewrite sanitize_input_idem. tauto. Qed.

Lemma valid_plans_named (l : list Plan) : Forall named (valid_plans l).
Proof.
  induction l as [|p l IH]; simpl; [constructor|].
  destruct (truthy (sanitize_input (name p))) eqn:E; [|exact IH].
  constructor; [|exact IH]. apply truthy_sanitize_idem. exact E.
Qed.

Lemma validate_plans_named (py_str : json -> str) (l : list json) :
  Forall named (validate_plans py_str l).
Proof.
  induction l as [|item l IH]; simpl; [constructor|].
  destruct item; try exact IH.
  destruct (truthy (sanitize_input (item_field py_str "name" members))) eqn:E;
    [|exact IH].
  constructor; [|exact IH]. apply truthy_sanitize_idem. exact E.
Qed.

Lemma legacy_plans_named (legacy_data : list str) :
  Forall named (legacy_plans legacy_data).
Proof.
  unfold legacy_plans. apply Forall_app; split; [|apply Forall_app; split].
  - destruct (str_eqb _ _); constructor; [reflexivity | constructor].
  - destruct (str_eqb _ _); constructor; [reflexivity | constructor].
  - destruct (truthy _); constructor; [reflexivity | constructor].
Qed.

Lemma day_result_named (py_str : json -> str) (day : Day) (d0 : DaySchedule)
    (data_str : str) :
  Forall named (plans d0) ->
  Forall named (plans (day_result py_str day d0 data_str)).
Proof.
  intros Hd0. apply Forall_forall. intros p.
  assert (Hd : In p (plans d0) -> named p)
    by (revert p; apply Forall_forall; exact Hd0).
  unfold day_result, parse_day.
  destruct (split_once PLAN_SAVE_SEPARATOR data_str) as [legacy_part json_part].
  assert (Hnil : forall P : Prop, In p [] -> P) by (intros P []).
  assert (Hleg : forall l, In p (legacy_plans l) -> named p).
  { intros l. apply Forall_forall, legacy_plans_named. }
  assert (Hval : forall l, In p (validate_plans py_str l) -> named p).
  { intros l. apply Forall_forall, validate_plans_named. }
  destruct json_part as [[|c r]|].
  - destruct (7 <=? _); cbv beta iota delta [plans set_plans]; first [apply Hleg | apply Hval | apply Hnil].
  - destruct (negb _); [cbv beta iota delta [plans set_plans]; first [apply Hleg | apply Hval | apply Hnil]|].
    destruct (loads _) as [v|e] eqn:El.
    + destruct v; cbv beta iota delta [plans set_plans];
        first [apply Hleg | apply Hval | apply Hnil].
    + destruct e; first [exact Hd | apply Hnil].
  - destruct (7 <=? _); cbv beta iota delta [plans set_plans]; first [apply Hleg | apply Hval | apply Hnil].
Qed.

Lemma decoded_named (py_str : json -> str) (content : str) (day : Day) :
  Forall named (plans (decoded py_str content day)).
Proof.
  unfold decoded. destruct (find_entry day content).
  - apply day_result_named. constructor.
  - constructor.
Qed.

(** A plan with its two fields sanitized. *)
Definition sanitize_plan (p : Plan) : Plan :=
  mkPlan (sanitize_input (name p)) (sanitize_input (details p)).

Lemma valid_plans_filter (l : list Plan) :
  valid_plans l
  = map sanitize_plan (filter (fun p => truthy (sanitize_input (name p))) l).
Proof.
  induction l as [|p l IH]; [reflexivity|]. cbn [valid_plans filter].
  destruct (truthy (sanitize_input (name p))); [|exact IH].
  cbn [map]. rewrite IH. reflexivity.
Qed.

(** *** Records of the format without a JSON part *)

Lemma starts_with_false (p s : str) :
  starts_with p s = false -> strip_prefix p s = None.
Proof. unfold starts_with. destruct (strip_prefix p s); congruence. Qed.

Lemma split_once_loop_absent (sep : str) :
  forall s acc,
    contains sep s = false ->
    split_once_loop sep acc s = (rev acc ++ s, None).
Proof.
  induction s as [|c s IH]; intros acc H; simpl in H;
    apply orb_false_iff in H as [Hs Hc]; apply starts_with_false in Hs.
  - cbn [split_once_loop]. rewrite Hs, app_nil_r. reflexivity.
  - cbn [split_once_loop]. rewrite Hs. rewrite IH by exact Hc.
    simpl. rewrite <- app_assoc. reflexivity.
Qed.

Lemma split_once_absent (sep s : str) :
  contains sep s = false -> split_once sep s = (s, None).
Proof. intros H. unfold split_once. rewrite split_once_loop_absent; auto. Qed.

(** The plans C5 promises: the fields themselves as details. *)
Definition claimed_legacy_plans (legacy_data : list str) : list Plan :=
  [mkPlan (pystr "Dollar General") (field legacy_data 2);
   mkPlan (pystr "JJ Pizza") (field legacy_data 4)]
  ++ (if truthy (clean_text (field legacy_data 6))
      then [mkPlan (pystr "Note") (field legacy_data 6)] else []).

(** C5, as stated, fails: the details are the fields after [clean_text],
    which trims them. *)
Lemma legacy_details_are_cleaned :
  let data_str := pystr "9:00|yes| 5 |yes|3|read|call" in
  let legacy_data := split (pystr "|") (unescape data_str) in
  contains PLAN_SAVE_SEPARATOR data_str = false
  /\ 7 <= length legacy_data
  /\ field legacy_data 1 = pystr "yes"
  /\ field legacy_data 3 = pystr "yes"
  /\ exists d,
       parse_day (fun _ => []) Monday (initialize_default_schedule Monday)
         data_str = Returns d
       /\ plans d <> claimed_legacy_plans legacy_data.
Proof.
  cbv zeta. split; [reflexivity|]. split; [vm_compute; lia|].
  split; [reflexivity|]. split; [reflexivity|].
  eexists. split; [vm_compute; reflexivity|]. vm_compute. discriminate.
Qed.

(** C5, amended: for a captured content without the separator whose
    unescaped text has at least 7 pipe-separated fields, the fields 1 and 3
    being [yes], the day has the plans [Dollar General] and [JJ Pizza] with
    [clean_text] of the fields 2 and 4 as details, followed by a plan [Note]
    with [clean_text] of field 6 as details exactly when that text is not
    empty; [clean_text] of field 5 is the day's goals. *)
Theorem legacy_fallback :
  forall (py_str : json -> str) (day : Day) (d0 : DaySchedule)
         (data_str : str),
    contains PLAN_SAVE_SEPARATOR data_str = false ->
    7 <= length (split (pystr "|") (unescape data_str)) ->
    field (split (pystr "|") (unescape data_str)) 1 = pystr "yes" ->
    field (split (pystr "|") (unescape data_str)) 3 = pystr "yes" ->
    exists d,
      parse_day py_str day d0 data_str = Returns d
      /\ plans d
         = [mkPlan (pystr "Dollar General")
              (clean_text (field (split (pystr "|") (unescape data_str)) 2));
            mkPlan (pystr "JJ Pizza")
              (clean_text (field (split (pystr "|") (unescape data_str)) 4))]
           ++ (if truthy
                    (clean_text
                       (field (split (pystr "|") (unescape data_str)) 6))
               then [mkPlan (pystr "Note")
                       (clean_text
                          (field (split (pystr "|") (unescape data_str)) 6))]
               else [])
      /\ goals d
         = clean_text (field (split (pystr "|") (unescape data_str)) 5).
Proof.
  intros py_str day d0 data_str Hsep Hlen H1 H3.
  unfold parse_day. rewrite (split_once_absent _ _ Hsep).
  set (legacy_data := split (pystr "|") (unescape data_str)) in *.
  replace (7 <=? length legacy_data) with true
    by (symmetry; apply Nat.leb_le; exact Hlen).
  eexists. split; [reflexivity|].
  cbn [plans goals set_plans set_goals]. split; [|reflexivity].
  unfold legacy_plans. rewrite H1, H3. reflexivity.
Qed.

Lemma legacy_fallback_witness :
  exists d,
    parse_day (fun _ => []) Tues (initialize_default_schedule Tues)
      (pystr "9:00|yes| 5 |yes|3|read|call") = Returns d
    /\ plans d = [mkPlan (pystr "Dollar General") (pystr "5");
                  mkPlan (pystr "JJ Pizza") (pystr "3");
                  mkPlan (pystr "Note") (pystr "call")]
    /\ goals d = pystr "read".
Proof.
  apply (legacy_fallback (fun _ => []) Tues (initialize_default_schedule Tues)
           (pystr "9:00|yes| 5 |yes|3|read|call")).
  - reflexivity.
  - vm_compute. lia.
  - reflexivity.
  - reflexivity.
Defined.

(** *** A JSON part that cannot be used *)

(** What [json.loads] does with the JSON part of a captured content, when
    the part is present and not blank. *)
Definition json_segment (data_str : str) : option (outcome exn json) :=
  match snd (split_once PLAN_SAVE_SEPARATOR data_str) with
  | Some (c :: json_rest) =>
      let json_part_cleaned := strip (unescape (c :: json_rest)) in
      if truthy json_part_cleaned then Some (loads json_part_cleaned)
      else None
  | _ => None
  end.

(** The two cases the loop handles for the day: [json.loads] raises
    [JSONDecodeError], or it returns something that is not a list. *)
Definition corrupt_segment (data_str : str) : bool :=
  match json_segment data_str with
  | Some (Returns (JArr _)) => false
  | Some (Returns _) => true
  | Some (Raises JSONDecodeError) => true
  | _ => false
  end.

(** [json.loads] raises something else. *)
Definition fatal_segment (data_str : str) : bool :=
  match json_segment data_str with
  | Some (Raises JSONDecodeError) => false
  | Some (Raises _) => true
  | _ => false
  end.

Lemma parse_day_corrupt (py_str : json -> str) (day : Day)
    (d0 : DaySchedule) (data_str : str) :
  corrupt_segment data_str = true ->
  exists d, parse_day py_str day d0 data_str = Returns d /\ plans d = [].
Proof.
  unfold corrupt_segment, json_segment, parse_day.
  destruct (split_once PLAN_SAVE_SEPARATOR data_str) as [legacy_part json_part].
  cbn [snd]. destruct json_part as [[|c r]|]; try discriminate.
  cbv zeta. destruct (truthy (strip (unescape (c :: r)))); [|discriminate].
  cbn [negb].
  destruct (loads _) as [v|e].
  - destruct v; try discriminate; intros _; eexists; split; reflexivity.
  - destruct e; try discriminate. intros _. eexists. split; reflexivity.
Qed.

Lemma parse_day_fatal (py_str : json -> str) (day : Day)
    (d0 : DaySchedule) (data_str : str) :
  fatal_segment data_str = true ->
  exists e, parse_day py_str day d0 data_str = Raises e.
Proof.
  unfold fatal_segment, json_segment, parse_day.
  destruct (split_once PLAN_SAVE_SEPARATOR data_str) as [legacy_part json_part].
  cbn [snd]. destruct json_part as [[|c r]|]; try discriminate.
  cbv zeta. destruct (truthy (strip (unescape (c :: r)))); [|discriminate].
  cbn [negb].
  destruct (loads _) as [v|e]; [destruct v; discriminate|].
  destruct e; try discriminate; intros _; eexists; reflexivity.
Qed.

(** Where the handler of the day applies, the day is isolated: it has no
    plans, and every other day is decoded as in a file that holds the same
    records for the other days, as long as no record makes [json.loads]
    raise something else than [JSONDecodeError]. *)
Lemma json_decode_error_isolated (py_str : json -> str)
    (content content' : str) (self : Manager) (day : Day) (data_str : str) :
  find_entry day (universal_newlines content) = Some data_str ->
  corrupt_segment data_str = true ->
  (forall d, d <> day ->
     find_entry d (universal_newlines content)
     = find_entry d (universal_newlines content')) ->
  decode_raises py_str (universal_newlines content') = false ->
  exists w w',
    load_schedule_data py_str (Content content) self
    = (Returns w, mkManager w)
    /\ load_schedule_data py_str (Content content') self
       = (Returns w', mkManager w')
    /\ plans (w day) = []
    /\ forall d, d <> day -> w d = w' d.
Proof.
  intros Hfind Hbad Hsame Hr'.
  destruct (parse_day_corrupt py_str day (initialize_default_schedule day)
              data_str Hbad) as (d0 & Hd0 & Hplans).
  assert (Hr : decode_raises py_str (universal_newlines content) = false).
  { unfold decode_raises. destruct (existsb _ DAYS) eqn:E; [|reflexivity].
    apply existsb_exists in E. destruct E as (d & _ & Hd).
    destruct (Day_eqb d day) eqn:Eq.
    - apply Day_eqb_eq in Eq. subst d. unfold day_raises in Hd.
      rewrite Hfind in Hd. unfold parse_raises in Hd. rewrite Hd0 in Hd.
      discriminate.
    - assert (Hne : d <> day)
        by (intros ->; rewrite Day_eqb_refl in Eq; discriminate).
      pose proof (day_raises_false py_str _ d Hr') as Hd'.
      unfold day_raises in Hd, Hd'. rewrite (Hsame d Hne) in Hd.
      congruence. }
  destruct (load_schedule_data_content py_str content self) as (w & Hw & Hd).
  destruct (load_schedule_data_content py_str content' self)
    as (w' & Hw' & Hd').
  exists w, w'. split; [exact Hw|]. split; [exact Hw'|].
  unfold loaded in Hd, Hd'. rewrite Hr in Hd. rewrite Hr' in Hd'. split.
  - rewrite Hd. unfold decoded. rewrite Hfind. unfold day_result.
    rewrite Hd0. exact Hplans.
  - intros d Hne. rewrite Hd, Hd'. unfold decoded.
    rewrite (Hsame d Hne). reflexivity.
Qed.

(** Two files that differ in the JSON part of Wednesday only. *)
Definition sample_records (wed_json : str) : str :=
  line_head Tues ++ pystr "9:00|read||PLANS||[]" ++ [quote] ++ newline
  ++ line_head Wed ++ pystr "10:00|write||PLANS||" ++ wed_json
  ++ [quote] ++ newline
  ++ line_head Thur ++ pystr "8:00|yes|5|yes|3|rest|call" ++ [quote] ++ newline.

Lemma json_decode_error_isolated_sample :
  exists w w',
    load_schedule_data (fun _ => [])
      (Content (sample_records (pystr "[{")))
      (mkManager initialize_default_schedule) = (Returns w, mkManager w)
    /\ load_schedule_data (fun _ => [])
         (Content (sample_records (pystr "[]")))
         (mkManager initialize_default_schedule) = (Returns w', mkManager w')
    /\ plans (w Wed) = []
    /\ forall d, d <> Wed -> w d = w' d.
Proof.
  apply (json_decode_error_isolated (fun _ => [])
           (sample_records (pystr "[{")) (sample_records (pystr "[]"))
           (mkManager initialize_default_schedule) Wed
           (pystr "10:00|write||PLANS||[{")).
  - vm_compute. reflexivity.
  - vm_compute. reflexivity.
  - intros d Hd. destruct d; try (vm_compute; reflexivity).
    exfalso. apply Hd. reflexivity.
  - vm_compute. reflexivity.
Qed.

(** An integer of one digit more than [int] converts: a JSON text, but not
    one that [json.loads] returns from. *)
Definition long_integer : str := repeat (ch "1") (S MAX_STR_DIGITS).

(** C6: the handler of the day catches [JSONDecodeError] only.  On a JSON
    part that is an integer of 4301 digits [json.loads] raises [ValueError],
    which leaves the loop over the days and reaches the handler of the whole
    file: the call returns the default week, and the records of the other
    days are lost with the corrupt one.  In the file below only the JSON
    part of Wednesday is corrupt; with [[]] in its place Tuesday has its
    study time and its goals. *)
Theorem corrupt_json_not_isolated :
  loads long_integer = Raises ValueError
  /\ fatal_segment (pystr "10:00|write||PLANS||" ++ long_integer) = true
  /\ find_entry Wed (sample_records long_integer)
     = Some (pystr "10:00|write||PLANS||" ++ long_integer)
  /\ load_schedule_data (fun _ => [])
       (Content (sample_records long_integer))
       (mkManager initialize_default_schedule)
     = (Returns initialize_default_schedule,
        mkManager initialize_default_schedule)
  /\ exists w',
       load_schedule_data (fun _ => [])
         (Content (sample_records (pystr "[]")))
         (mkManager initialize_default_schedule)
       = (Returns w', mkManager w')
       /\ study_time (w' Tues) = pystr "9:00"
       /\ goals (w' Tues) = pystr "read"
       /\ w' Tues <> initialize_default_schedule Tues.
Proof.
  split; [vm_compute; reflexivity|].
  split; [vm_compute; reflexivity|].
  split; [vm_compute; reflexivity|].
  split; [vm_compute; reflexivity|].
  eexists. split; [vm_compute; reflexivity|].
  split; [reflexivity|]. split; [reflexivity|]. discriminate.
Qed.

(** ** Writing the record file *)

(** A call of [f.write] raises: the budget of successful writes runs out
    before [chunks] are written, or a chunk cannot be encoded. *)
Definition writes_fail (budget : option nat) (chunks : list str) : bool :=
  match budget with
  | Some n => n <? length chunks
  | None => false
  end
  || negb (forallb encodable chunks).

(** The exception of the first call of [f.write] that raises. *)
Fixpoint write_exception (budget : option nat) (chunks : list str)
    : option exn :=
  match chunks with
  | [] => None
  | chunk :: rest =>
      if negb (encodable chunk) then Some Py.UnicodeEncodeError
      else match budget with
           | Some O => Some OSError
           | Some (S n) => write_exception (Some n) rest
           | None => write_exception None rest
           end
  end.

(** The chunks that are written before a call of [f.write] raises. *)
Fixpoint written (budget : option nat) (chunks : list str) : list str :=
  match chunks with
  | [] => []
  | chunk :: rest =>
      if negb (encodable chunk) then []
      else match budget with
           | Some O => []
           | Some (S n) => chunk :: written (Some n) rest
           | None => chunk :: written None rest
           end
  end.

Lemma writes_fail_exception (chunks : list str) :
  forall budget,
    writes_fail budget chunks
    = match write_exception budget chunks with
      | Some _ => true
      | None => false
      end.
Proof.
  unfold writes_fail.
  induction chunks as [|chunk chunks IH]; intros budget.
  - destruct budget as [n|]; reflexivity.
  - cbn [forallb write_exception length].
    destruct (encodable chunk); cbn [negb andb].
    + destruct budget as [[|n]|].
      * reflexivity.
      * rewrite <- IH. reflexivity.
      * rewrite <- IH. reflexivity.
    + apply orb_true_r.
Qed.

Lemma written_all (chunks : list str) :
  forall budget,
    writes_fail budget chunks = false -> written budget chunks = chunks.
Proof.
  unfold writes_fail.
  induction chunks as [|chunk chunks IH]; intros budget H; [reflexivity|].
  cbn [forallb written length] in *.
  destruct (encodable chunk); cbn [negb andb] in *;
    [|rewrite orb_true_r in H; discriminate].
  destruct budget as [[|n]|].
  - discriminate.
  - rewrite IH; [reflexivity | exact H].
  - rewrite IH; [reflexivity | exact H].
Qed.

(** When a write raises, what was written is a beginning of the text, and
    not the whole of it. *)
Lemma written_part (chunks : list str) :
  Forall (fun chunk => chunk <> []) chunks ->
  forall budget,
    writes_fail budget chunks = true ->
    exists rest,
      concat chunks = concat (written budget chunks) ++ rest /\ rest <> [].
Proof.
  unfold writes_fail.
  induction 1 as [|chunk chunks Hc _ IH]; intros budget H.
  - destruct budget; discriminate.
  - assert (Hall : concat (chunk :: chunks) <> []).
    { cbn [concat]. destruct chunk; [contradiction | discriminate]. }
    cbn [forallb written length] in *.
    destruct (encodable chunk); cbn [negb andb] in *;
      [|exists (concat (chunk :: chunks)); split; [reflexivity | exact Hall]].
    destruct budget as [[|n]|].
    + exists (concat (chunk :: chunks)). split; [reflexivity | exact Hall].
    + destruct (IH (Some n) H) as (rest & Hrest & Hne).
      exists rest. split; [|exact Hne].
      cbn [concat]. rewrite Hrest, app_assoc. reflexivity.
    + destruct (IH None H) as (rest & Hrest & Hne).
      exists rest. split; [|exact Hne].
      cbn [concat]. rewrite Hrest, app_assoc. reflexivity.
Qed.

Lemma write_all_run (self : Manager) :
  forall (chunks : list str) (budget : option nat) (d : Disk),
    write_all budget chunks (self, d)
    = (match write_exception budget chunks with
       | Some e => Raises e
       | None => Returns tt
       end,
       (self,
        mkDisk (fold_left append_text (written budget chunks) (answers_file d))
          (backups d))).
Proof.
  induction chunks as [|chunk chunks IH]; intros budget d.
  - destruct d as [f b]. destruct budget as [[|n]|]; reflexivity.
  - cbn [write_all write_exception written].
    destruct budget as [[|n]|]; unfold write;
      destruct (encodable chunk); cbn [negb];
      try (destruct d as [f b]; reflexivity).
    + unfold bind at 1.
      cbv beta iota delta [bind get_disk put_disk fst snd].
      rewrite IH. reflexivity.
    + unfold bind at 1.
      cbv beta iota delta [bind get_disk put_disk fst snd].
      rewrite IH. reflexivity.
Qed.

Lemma fold_append_text (chunks : list str) :
  forall text,
    fold_left append_text chunks (Content text)
    = Content (text ++ concat chunks).
Proof.
  induction chunks as [|c chunks IH]; intros text; simpl.
  - rewrite app_nil_r. reflexivity.
  - rewrite IH, <- app_assoc. reflexivity.
Qed.

Lemma forallb_concat {X : Type} (p : X -> bool) (l : list (list X)) :
  forallb p (concat l) = forallb (forallb p) l.
Proof.
  induction l as [|x l IH]; [reflexivity|].
  cbn [concat forallb]. rewrite forallb_app, IH. reflexivity.
Qed.

(** An exception that leaves the [try] block of [save_schedule_data]: the
    directory cannot be made, the file cannot be opened, or a write
    raises. *)
Definition save_fails (CURRENT_DATE : str) (flt : Faults) (w : WeekSchedule)
    : bool :=
  mkdir_raises flt || open_raises flt
  || writes_fail (writes_ok flt) (file_chunks CURRENT_DATE w).

(** The backup copies after the call. *)
Definition kept_backups (flt : Faults) (stamp : N) (disk : Disk)
    : list (N * FileState) :=
  if exists_ (answers_file disk) && negb (copy_raises flt)
  then (stamp, answers_file disk) :: backups disk
  else backups disk.

(** The disk after the call. *)
Definition disk_after (CURRENT_DATE : str) (flt : Faults) (stamp : N)
    (w : WeekSchedule) (disk : Disk) : Disk :=
  if mkdir_raises flt then disk
  else if open_raises flt
  then mkDisk (answers_file disk) (kept_backups flt stamp disk)
  else mkDisk
         (Content (concat (written (writes_ok flt)
                             (file_chunks CURRENT_DATE w))))
         (kept_backups flt stamp disk).

Lemma save_schedule_data_run (CURRENT_DATE : str) (flt : Faults) (stamp : N)
    (schedule_to_save : option WeekSchedule) (self : Manager) (disk : Disk) :
  let w := match schedule_to_save with
           | None => schedule self
           | Some w => w
           end in
  save_schedule_data CURRENT_DATE flt stamp schedule_to_save (self, disk)
  = (Returns (negb (save_fails CURRENT_DATE flt w)),
     (if save_fails CURRENT_DATE flt w then self else mkManager w,
      disk_after CURRENT_DATE flt stamp w disk)).
Proof.
  intros w. unfold save_schedule_data, save_fails, disk_after.
  cbv beta iota delta [bind try_except get_self get_disk mkdir fst snd].
  fold w.
  destruct (mkdir_raises flt) eqn:Hmk; cbn [orb negb]; [reflexivity|].
  cbv beta iota delta [ret raise].
  set (disk1 := mkDisk (answers_file disk) (kept_backups flt stamp disk)).
  assert (Hcopy :
    (if exists_ (answers_file disk)
     then try_except (copy2 flt stamp) (fun _ => ret tt)
     else ret tt) (self, disk) = (Returns tt, (self, disk1))).
  { unfold disk1, kept_backups. destruct disk as [f b]. cbn [answers_file backups].
    destruct (exists_ f); [|reflexivity].
    unfold try_except, copy2. destruct (copy_raises flt); reflexivity. }
  cbv beta iota delta [ret try_except] in Hcopy |- *.
  rewrite Hcopy. cbv beta iota delta [open_w].
  destruct (open_raises flt) eqn:Hop; cbn [orb negb]; [reflexivity|].
  cbv beta iota delta [bind get_disk put_disk fst snd ret].
  rewrite write_all_run. cbn [answers_file backups disk1].
  rewrite fold_append_text. cbn [app].
  rewrite writes_fail_exception.
  destruct (write_exception (writes_ok flt) (file_chunks CURRENT_DATE w));
    cbn [negb]; [reflexivity|].
  unfold chmod. destruct (chmod_raises flt); reflexivity.
Qed.

(** C10: [save_schedule_data] never raises.  When the directory cannot be
    made, the file cannot be opened, or a call of [f.write] raises, because
    the environment makes it fail or because a chunk of the text has a
    surrogate and cannot be encoded, it returns [False] and leaves the
    manager as it was.  Otherwise it returns [True], the file holds the
    whole text, and the manager's schedule is the schedule that was saved.
    A failure of the backup copy or of [chmod] changes nothing of this. *)
Theorem save_schedule_data_atomic :
  forall (CURRENT_DATE : str) (flt : Faults) (stamp : N)
         (schedule_to_save : option WeekSchedule) (self : Manager)
         (disk : Disk),
    let w := match schedule_to_save with
             | None => schedule self
             | Some w => w
             end in
    let fails :=
      mkdir_raises flt || open_raises flt
      || match writes_ok flt with
         | Some n => n <? length (file_chunks CURRENT_DATE w)
         | None => false
         end
      || negb (encodable (file_text CURRENT_DATE w)) in
    exists disk',
      save_schedule_data CURRENT_DATE flt stamp schedule_to_save (self, disk)
      = (Returns (negb fails), (if fails then self else mkManager w, disk'))
      /\ (if fails then True
          else answers_file disk' = Content (file_text CURRENT_DATE w)).
Proof.
  intros date flt stamp arg self disk w fails.
  assert (Hfails : fails = save_fails date flt w).
  { unfold fails, save_fails, writes_fail, file_text.
    unfold encodable at 1. rewrite forallb_concat, orb_assoc. reflexivity. }
  rewrite Hfails. exists (disk_after date flt stamp w disk).
  split; [apply save_schedule_data_run|].
  destruct (save_fails date flt w) eqn:Hf; [exact I|].
  unfold save_fails in Hf.
  apply orb_false_iff in Hf. destruct Hf as (Hf & Hwf).
  apply orb_false_iff in Hf. destruct Hf as (Hmk & Hop).
  unfold disk_after. rewrite Hmk, Hop. cbn [answers_file].
  rewrite written_all by exact Hwf. reflexivity.
Qed.

(** ** The matcher on the patterns of the program *)

Lemma exec_Cat {A : Type} (r1 r2 : regex) (st : mstate)
    (k : mstate -> option A) :
  exec (Cat r1 r2) st k = exec r1 st (fun st' => exec r2 st' k).
Proof. reflexivity. Qed.

Lemma exec_Lit {A : Type} (l : str) :
  forall (st : mstate) (k : mstate -> option A),
    exec (Lit l) st k
    = match strip_prefix l (after st) with
      | Some rest => k (MState (rev l ++ before st) rest (groups st))
      | None => None
      end.
Proof.
  induction l as [|a l IH]; intros [bef aft gs] k.
  - reflexivity.
  - cbn [Lit strip_prefix after before groups]. rewrite exec_Cat.
    cbn [exec after]. destruct aft as [|c aft]; [reflexivity|].
    destruct (N.eqb a c) eqn:E; [|reflexivity].
    apply N.eqb_eq in E. subst c. rewrite IH.
    cbn [advance after before groups rev]. rewrite <- app_assoc.
    reflexivity.
Qed.

(** Where a greedy loop over a character class stops. *)
Definition stops (p : char -> bool) (rest : str) : Prop :=
  match rest with
  | [] => True
  | c :: _ => p c = false
  end.

Lemma ltb_length_cons {X : Type} (c : X) (l : list X) :
  (length l <? length (c :: l)) = true.
Proof. apply Nat.ltb_lt. simpl. lia. Qed.

Lemma star_loop_S {A : Type}
    (body : mstate -> (mstate -> option A) -> option A)
    (k : mstate -> option A) (fuel : nat) (st : mstate) :
  star_loop body k (S fuel) st
  = match body st (fun st' =>
            if length (after st') <? length (after st)
            then star_loop body k fuel st' else None) with
    | Some x => Some x
    | None => k st
    end.
Proof. reflexivity. Qed.

Lemma exec_Cls {A : Type} (p : char -> bool) (st : mstate)
    (k : mstate -> option A) :
  exec (Cls p) st k
  = match after st with
    | c :: rest => if p c then k (advance c rest st) else None
    | [] => None
    end.
Proof. reflexivity. Qed.

Lemma star_class_greedy {A : Type} (p : char -> bool)
    (k : mstate -> option A) (x : A) :
  forall ds fuel bef rest gs,
    forallb p ds = true -> stops p rest -> length ds <= fuel ->
    k (MState (rev ds ++ bef) rest gs) = Some x ->
    star_loop (exec (Cls p)) k fuel (MState bef (ds ++ rest) gs) = Some x.
Proof.
  induction ds as [|c ds IH]; intros fuel bef rest gs Hds Hstop Hfuel Hk.
  - cbn [app rev] in *. destruct fuel as [|fuel]; [exact Hk|].
    rewrite star_loop_S, exec_Cls. cbn [after].
    destruct rest as [|c rest]; [exact Hk|].
    cbn [stops] in Hstop. rewrite Hstop. exact Hk.
  - destruct fuel as [|fuel]; [simpl in Hfuel; lia|].
    cbn [forallb] in Hds. apply andb_true_iff in Hds as [Hc Hds].
    rewrite star_loop_S, exec_Cls. cbn [after app]. rewrite Hc.
    cbn [advance after before groups]. rewrite ltb_length_cons.
    unfold advance. cbn [before groups].
    rewrite (IH fuel (c :: bef) rest gs Hds Hstop); [reflexivity | |].
    + simpl in Hfuel. lia.
    + cbn [rev] in Hk. rewrite <- app_assoc in Hk. exact Hk.
Qed.

Lemma consumed_app (bef bef' ds rest : list char) (gs gs' : list (nat * str)) :
  consumed (MState bef (ds ++ rest) gs) (MState bef' rest gs') = ds.
Proof.
  unfold consumed. cbn [after]. rewrite length_app.
  replace (length ds + length rest - length rest) with (length ds + 0) by lia.
  rewrite firstn_app_2. cbn [firstn]. apply app_nil_r.
Qed.

(** A group [(p+)] in front of a character that [p] rejects takes all the
    characters of the class. *)
Lemma exec_plus_group {A : Type} (n : nat) (p : char -> bool)
    (k : mstate -> option A) (x : A) :
  forall ds bef rest gs,
    ds <> [] -> forallb p ds = true -> stops p rest ->
    k (MState (rev ds ++ bef) rest ((n, ds) :: gs)) = Some x ->
    exec (Grp n (Plus (Cls p))) (MState bef (ds ++ rest) gs) k = Some x.
Proof.
  intros ds bef rest gs Hne Hds Hstop Hk.
  destruct ds as [|c ds]; [contradiction|].
  cbn [forallb] in Hds. apply andb_true_iff in Hds as [Hc Hds].
  unfold Plus.
  change (exec (Grp n (Cat (Cls p) (Star (Cls p))))
            (MState bef ((c :: ds) ++ rest) gs) k)
    with (exec (Cls p) (MState bef ((c :: ds) ++ rest) gs)
            (fun st1 =>
               star_loop (exec (Cls p))
                 (fun st' => k (set_group n (MState bef ((c :: ds) ++ rest) gs) st'))
                 (length (after st1)) st1)).
  rewrite exec_Cls. cbn [after app]. rewrite Hc.
  cbn [advance after before groups].
  apply star_class_greedy; [exact Hds | exact Hstop | rewrite length_app; lia |].
  unfold set_group. cbn [before after groups].
  change (c :: ds ++ rest) with ((c :: ds) ++ rest).
  rewrite consumed_app. cbn [rev] in Hk. rewrite <- app_assoc in Hk. exact Hk.
Qed.

(** ** The week summary *)

Definition ascii_decimal (c : char) : option N :=
  if in_range "0" "9" c then Some (c - 48)%N else None.



(** The hours between two times of day as C7 describes them: 12 is added to
    an end hour that is less than the start hour, a time is its hour plus
    its minutes divided by 60, and the start is subtracted from the end, in
    the floating-point arithmetic of the interpreter. *)
Definition duration (start_hour start_min end_hour end_min : Z)
    : outcome exn float :=
  let end_hour :=
    if (end_hour <? start_hour)%Z then (end_hour + 12)%Z else end_hour in
  and_then (int_true_divide end_min 60) (fun end_part =>
  and_then (float_of_int end_hour) (fun end_whole =>
  and_then (int_true_divide start_min 60) (fun start_part =>
  and_then (float_of_int start_hour) (fun start_whole =>
  Returns (float_sub (float_add end_whole end_part)
             (float_add start_whole start_part)))))).

(** A plan whose details are not empty after trimming: they hold a
    character that is not white space. *)
Definition has_details (p : Plan) : bool :=
  existsb (fun c => negb (is_space c)) (details p).


Lemma truthy_lstrip (s : str) :
  truthy (lstrip s) = existsb (fun c => negb (is_space c)) s.
Proof.
  induction s as [|c s IH]; [reflexivity|]. cbn [lstrip existsb].
  destruct (is_space c); [exact IH | reflexivity].
Qed.

Lemma truthy_rev (s : str) : truthy (rev s) = truthy s.
Proof.
  destruct s as [|c s]; [reflexivity|]. cbn [rev truthy].
  destruct (rev s); reflexivity.
Qed.

Lemma existsb_rev_eq {X : Type} (p : X -> bool) (l : list X) :
  existsb p (rev l) = existsb p l.
Proof.
  induction l as [|x l IH]; [reflexivity|].
  cbn [rev existsb]. rewrite existsb_app, IH. cbn [existsb].
  rewrite orb_false_r. apply orb_comm.
Qed.

Lemma existsb_lstrip (s : str) :
  existsb (fun c => negb (is_space c)) (lstrip s)
  = existsb (fun c => negb (is_space c)) s.
Proof.
  induction s as [|c s IH]; [reflexivity|]. cbn [lstrip].
  destruct (is_space c) eqn:E; [|reflexivity].
  cbn [existsb]. rewrite E. exact IH.
Qed.

Lemma truthy_strip_existsb (s : str) :
  truthy (strip s) = existsb (fun c => negb (is_space c)) s.
Proof.
  unfold strip, rstrip.
  rewrite truthy_rev, truthy_lstrip, existsb_rev_eq. apply existsb_lstrip.
Qed.

Lemma visible_has_details (p : Plan) : visible p = has_details p.
Proof. apply truthy_strip_existsb. Qed.


Section SummaryFacts.

Variable decimal : char -> option N.

Hypothesis decimal_ascii :
  forall c, (c < 128)%N -> decimal c = ascii_decimal c.

Definition digits (s : str) : Prop :=
  s <> [] /\ forallb (is_decimal decimal) s = true.

Lemma is_decimal_ascii (c : char) :
  (c < 128)%N -> is_decimal decimal c = match ascii_decimal c with
                                        | Some _ => true
                                        | None => false
                                        end.
Proof. intros H. unfold is_decimal. rewrite decimal_ascii by exact H. reflexivity. Qed.

Lemma re_match_time (a b c d : str) :
  digits a -> digits b -> digits c -> digits d ->
  re_match (time_pattern decimal)
    (a ++ pystr ":" ++ b ++ pystr "-" ++ c ++ pystr ":" ++ d)
  = Some (MState
            (rev d ++ rev (pystr ":") ++ rev c ++ rev (pystr "-") ++ rev b
               ++ rev (pystr ":") ++ rev a ++ [])
            [] [(4, d); (3, c); (2, b); (1, a)]).
Proof.
  intros [Ha Ha'] [Hb Hb'] [Hc Hc'] [Hd Hd'].
  assert (Hcolon : is_decimal decimal 58%N = false)
    by (rewrite is_decimal_ascii; reflexivity).
  assert (Hdash : is_decimal decimal 45%N = false)
    by (rewrite is_decimal_ascii; reflexivity).
  unfold re_match, time_pattern.
  change (pystr ":") with [58%N]. change (pystr "-") with [45%N].
  rewrite exec_Cat.
  apply exec_plus_group; [exact Ha | exact Ha' | exact Hcolon |].
  rewrite exec_Cat, exec_Lit. cbn [after before groups app strip_prefix].
  rewrite N.eqb_refl. rewrite exec_Cat.
  apply exec_plus_group; [exact Hb | exact Hb' | exact Hdash |].
  rewrite exec_Cat, exec_Lit. cbn [after before groups app strip_prefix].
  rewrite N.eqb_refl. rewrite exec_Cat.
  apply exec_plus_group; [exact Hc | exact Hc' | exact Hcolon |].
  rewrite exec_Cat, exec_Lit. cbn [after before groups app strip_prefix].
  rewrite N.eqb_refl.
  rewrite <- (app_nil_r d) at 1.
  apply exec_plus_group; [exact Hd | exact Hd' | exact I |].
  reflexivity.
Qed.

(** What [study_hours] computes from the four groups of a match. *)
Definition hours_of_groups (a b c d : str) : outcome exn (option float) :=
  and_then (py_int decimal a) (fun start_hour =>
  and_then (py_int decimal b) (fun start_min =>
  and_then (py_int decimal c) (fun end_hour =>
  and_then (py_int decimal d) (fun end_min =>
  and_then (duration start_hour start_min end_hour end_min) (fun hours =>
  Returns (Some hours)))))).

Lemma duration_hours_between (start_hour start_min end_hour end_min : Z) :
  hours_between start_hour start_min
    (if (end_hour <? start_hour)%Z then (end_hour + 12)%Z else end_hour)
    end_min
  = duration start_hour start_min end_hour end_min.
Proof.
  unfold hours_between, duration, int_add_float. cbv zeta.
  destruct (int_true_divide end_min 60); [|reflexivity]. cbn [and_then].
  destruct (float_of_int _); [|reflexivity]. cbn [and_then].
  destruct (int_true_divide start_min 60); [|reflexivity]. cbn [and_then].
  destruct (float_of_int start_hour); reflexivity.
Qed.

Lemma hours_of_match (a b c d : str) (bef rest : str) :
  a <> [] ->
  (let time_match := MState bef rest [(4, d); (3, c); (2, b); (1, a)] in
   and_then (py_int decimal (group 1 (groups time_match)))
     (fun start_hour =>
   and_then (py_int decimal (group 2 (groups time_match)))
     (fun start_min =>
   and_then (py_int decimal (group 3 (groups time_match)))
     (fun end_hour =>
   and_then (py_int decimal (group 4 (groups time_match)))
     (fun end_min =>
   let end_hour :=
     if (end_hour <? start_hour)%Z then (end_hour + 12)%Z else end_hour in
   and_then (hours_between start_hour start_min end_hour end_min)
     (fun hours => Returns (Some hours)))))))
  = hours_of_groups a b c d.
Proof.
  intros _. cbv zeta. cbn [groups group Nat.eqb]. unfold hours_of_groups.
  destruct (py_int decimal a) as [sh|]; [|reflexivity]. cbn [and_then].
  destruct (py_int decimal b) as [sm|]; [|reflexivity]. cbn [and_then].
  destruct (py_int decimal c) as [eh|]; [|reflexivity]. cbn [and_then].
  destruct (py_int decimal d) as [em|]; [|reflexivity]. cbn [and_then].
  rewrite duration_hours_between. reflexivity.
Qed.

Lemma study_hours_time (a b c d : str) :
  digits a -> digits b -> digits c -> digits d ->
  study_hours decimal (a ++ pystr ":" ++ b ++ pystr "-" ++ c ++ pystr ":" ++ d)
  = hours_of_groups a b c d.
Proof.
  intros Ha Hb Hc Hd. unfold study_hours.
  rewrite (re_match_time a b c d Ha Hb Hc Hd).
  destruct a as [|x a]; [destruct Ha as [Ha _]; contradiction|].
  cbn [app truthy]. apply hours_of_match. discriminate.
Qed.













End SummaryFacts.






(** The arithmetic is that of floats: twenty-one minutes are not 0.35 hours
    but the float below it, and hours beyond 2^53 are rounded before they
    are subtracted. *)
Lemma study_hours_rounding :
  study_hours ascii_decimal (pystr "9:00-9:21")
  = Returns (Some (S754_finite false 6305039478318688 (-54)))
  /\ int_true_divide 21 60
     = Returns (S754_finite false 6305039478318694 (-54))
  /\ study_hours ascii_decimal
       (pystr "9007199254740993:00-9007199254740994:00")
     = Returns (Some (S754_finite false 4503599627370496 (-51))).
Proof. repeat split; vm_compute; reflexivity. Qed.

(** ** Replacement of one character *)

Lemma replace_loop_single (c : char) (new : str) :
  forall fuel s,
    length s < fuel ->
    replace_loop fuel [c] new s
    = flat_map (fun x => if N.eqb c x then new else [x]) s.
Proof.
  induction fuel as [|fuel IH]; intros s Hlen; [lia|].
  destruct s as [|x s]; [reflexivity|].
  cbn [replace_loop strip_prefix flat_map].
  simpl in Hlen. destruct (N.eqb c x).
  - rewrite IH by lia. reflexivity.
  - rewrite IH by lia. reflexivity.
Qed.

Lemma replace_single (c : char) (new s : str) :
  replace [c] new s = flat_map (fun x => if N.eqb c x then new else [x]) s.
Proof. unfold replace. apply replace_loop_single. lia. Qed.

Lemma flat_map_flat_map {X Y Z : Type} (f : X -> list Y) (g : Y -> list Z)
    (l : list X) :
  flat_map g (flat_map f l) = flat_map (fun x => flat_map g (f x)) l.
Proof.
  induction l as [|x l IH]; simpl; [reflexivity|].
  rewrite flat_map_app, IH. reflexivity.
Qed.

Lemma forallb_flat_map {X Y : Type} (p : Y -> bool) (f : X -> list Y)
    (l : list X) :
  (forall x, forallb p (f x) = true) -> forallb p (flat_map f l) = true.
Proof.
  intros H. induction l as [|x l IH]; simpl; [reflexivity|].
  rewrite forallb_app, H, IH. reflexivity.
Qed.

(** ** The HTML report *)

(** What [html.escape] writes for one character. *)
Definition html_escape_char (c : char) : str :=
  if N.eqb 38 c then pystr "&amp;"
  else if N.eqb 60 c then pystr "&lt;"
  else if N.eqb 62 c then pystr "&gt;"
  else if N.eqb quote c then pystr "&quot;"
  else if N.eqb 39 c then pystr "&#x27;"
  else [c].

Lemma html_escape_chars (s : str) :
  html_escape s = flat_map html_escape_char s.
Proof.
  unfold html_escape.
  change (pystr "&") with [38%N]. change (pystr "<") with [60%N].
  change (pystr ">") with [62%N]. change (pystr "'") with [39%N].
  rewrite !replace_single, !flat_map_flat_map.
  apply flat_map_ext. intros c. unfold html_escape_char.
  destruct (N.eqb 38 c) eqn:E1;
    [apply N.eqb_eq in E1; subst c; reflexivity|].
  cbn [flat_map app].
  destruct (N.eqb 60 c) eqn:E2;
    [apply N.eqb_eq in E2; subst c; reflexivity|].
  cbn [flat_map app].
  destruct (N.eqb 62 c) eqn:E3;
    [apply N.eqb_eq in E3; subst c; reflexivity|].
  cbn [flat_map app].
  destruct (N.eqb quote c) eqn:E4;
    [apply N.eqb_eq in E4; subst c; reflexivity|].
  cbn [flat_map app].
  destruct (N.eqb 39 c) eqn:E5;
    [apply N.eqb_eq in E5; subst c; reflexivity|].
  reflexivity.
Qed.

(** The characters that open or close a tag or an attribute value. *)
Definition markup (c : char) : bool :=
  N.eqb 60 c || N.eqb 62 c || N.eqb quote c || N.eqb 39 c.

Lemma html_escape_no_markup (s : str) :
  forallb (fun c => negb (markup c)) (html_escape s) = true.
Proof.
  rewrite html_escape_chars. apply forallb_flat_map. intros c.
  unfold html_escape_char, markup.
  destruct (N.eqb 38 c) eqn:E1; [reflexivity|].
  destruct (N.eqb 60 c) eqn:E2; [reflexivity|].
  destruct (N.eqb 62 c) eqn:E3; [reflexivity|].
  destruct (N.eqb quote c) eqn:E4; [reflexivity|].
  destruct (N.eqb 39 c) eqn:E5; [reflexivity|].
  cbn [forallb]. rewrite E2, E3, E4, E5. reflexivity.
Qed.

(** *** An automaton for the search of [<script>] *)

Definition script_tag : str := pystr "<script>".

(** The state is the number of characters of the tag read so far; the tag
    has no proper border, so a character that does not go on restarts the
    search, and state 8 is final. *)
Definition tag_step (q : nat) (c : char) : nat :=
  if q =? 8 then 8
  else if N.eqb c 60 then 1
  else match nth_error script_tag q with
       | Some x => if N.eqb c x then S q else 0
       | None => 0
       end.

Definition tag_run (q : nat) (s : str) : nat := fold_left tag_step s q.

Lemma tag_run_app (q : nat) (a b : str) :
  tag_run q (a ++ b) = tag_run (tag_run q a) b.
Proof. apply fold_left_app. Qed.

Lemma tag_run_final (s : str) : tag_run 8 s = 8.
Proof. induction s as [|c s IH]; [reflexivity | exact IH]. Qed.

Lemma tag_run_tag (q : nat) : tag_run q script_tag = 8.
Proof.
  unfold tag_run, script_tag. cbn [pystr list_ascii_of_string map fold_left].
  unfold tag_step at 8. destruct (q =? 8); reflexivity.
Qed.

Lemma strip_prefix_Some (p s rest : str) :
  strip_prefix p s = Some rest -> s = p ++ rest.
Proof.
  revert s. induction p as [|x p IH]; intros s H; simpl in H.
  - injection H as ->. reflexivity.
  - destruct s as [|y s]; [discriminate|].
    destruct (N.eqb_spec x y) as [->|]; [|discriminate].
    rewrite (IH s H). reflexivity.
Qed.

Lemma contains_tag_run (s : str) :
  contains script_tag s = true -> forall q, tag_run q s = 8.
Proof.
  induction s as [|c s IH]; intros H q; cbn [contains] in H;
    apply orb_true_iff in H as [H|H].
  - unfold starts_with in H.
    destruct (strip_prefix script_tag []) eqn:E; discriminate.
  - discriminate.
  - unfold starts_with in H.
    destruct (strip_prefix script_tag (c :: s)) as [rest|] eqn:E;
      [|discriminate].
    apply strip_prefix_Some in E. rewrite E, tag_run_app, tag_run_tag.
    apply tag_run_final.
  - apply (IH H).
Qed.

Lemma tag_run_no_lt (s : str) :
  forallb (fun c => negb (N.eqb c 60)) s = true -> tag_run 0 s = 0.
Proof.
  induction s as [|c s IH]; intros H; [reflexivity|].
  cbn [forallb] in H. apply andb_true_iff in H as [Hc Hs].
  unfold tag_run. cbn [fold_left]. unfold tag_step at 2.
  cbn [Nat.eqb nth_error script_tag pystr list_ascii_of_string map].
  apply negb_true_iff in Hc. rewrite Hc.
  change (N_of_ascii "<") with 60%N. rewrite Hc. apply IH. exact Hs.
Qed.

(** A piece that leaves the automaton in its initial state. *)
Definition inert (piece : str) : Prop := tag_run 0 piece = 0.

Lemma inert_concat (pieces : list str) :
  Forall inert pieces -> tag_run 0 (concat pieces) = 0.
Proof.
  induction 1 as [|piece pieces Hp _ IH]; [reflexivity|].
  cbn [concat]. rewrite tag_run_app, Hp. exact IH.
Qed.

Lemma inert_escape (s : str) : inert (html_escape s).
Proof.
  apply tag_run_no_lt.
  pose proof (html_escape_no_markup s) as H.
  rewrite forallb_forall in *. intros c Hc. specialize (H c Hc).
  unfold markup in H. rewrite N.eqb_sym.
  destruct (N.eqb 60 c); [discriminate | reflexivity].
Qed.

Lemma inert_day_name (day : Day) : inert (day_name day).
Proof. destruct day; reflexivity. Qed.

Lemma inert_day_color (day : Day) : inert (day_colors day).
Proof. destruct day; reflexivity. Qed.

Ltac inert_piece :=
  lazymatch goal with
  | |- inert (html_escape _) => apply inert_escape
  | |- inert (day_name _) => apply inert_day_name
  | |- inert (day_colors _) => apply inert_day_color
  | |- inert _ => first [assumption | (vm_compute; reflexivity)]
  end.

Ltac inert_pieces :=
  repeat lazymatch goal with
    | |- Forall inert (_ ++ _) => apply Forall_app; split
    | |- Forall inert [] => apply Forall_nil
    | |- Forall inert (_ :: _) => apply Forall_cons
    | |- Forall inert (if ?b then _ else _) => destruct b
    | |- inert _ => inert_piece
    end.

Section HtmlFacts.

Variable CURRENT_DATE : str.
Variable W : WeekSchedule.

Lemma grid_rows_eq :
  grid_rows W (length DAYS) 0
  = [row_open]
    ++ (day_card W Monday ++ day_card W Tues ++ day_card W Wed ++ [])
    ++ [row_close] ++ [row_spacer]
    ++ [row_open]
    ++ (day_card W Thur ++ day_card W Fri ++ day_card W Sat ++ [])
    ++ [row_close] ++ [row_spacer]
    ++ [row_open]
    ++ (day_card W Sun ++ [empty_cell; empty_cell])
    ++ [row_close] ++ [] ++ [].
Proof. reflexivity. Qed.

Lemma inert_day_card (day : Day) : Forall inert (day_card W day).
Proof.
  unfold day_card. cbv zeta.
  apply Forall_app; split; [unfold card_open; inert_pieces|].
  apply Forall_app; split.
  { destruct (truthy (study_time (W day)));
      [unfold study_block; inert_pieces | constructor]. }
  apply Forall_app; split.
  { destruct (truthy (goals (W day)));
      [unfold goals_block; inert_pieces | constructor]. }
  apply Forall_app; split.
  { apply Forall_flat_map, Forall_forall. intros p _.
    unfold plan_block. cbv zeta. inert_pieces. }
  apply Forall_app; split.
  { destruct (_ && _); [unfold placeholder_block; inert_pieces | constructor]. }
  unfold card_close. inert_pieces.
Qed.

Lemma inert_html_pieces (notes_content : str) :
  inert CURRENT_DATE ->
  Forall inert (html_pieces CURRENT_DATE W notes_content).
Proof.
  intros Hdate. unfold html_pieces. rewrite grid_rows_eq.
  pose proof inert_day_card as Hcard.
  unfold html_open, html_close, notes_block.
  inert_pieces; apply Hcard.
Qed.

Lemma day_card_pieces (day : Day) (notes_content piece : str) :
  In piece (day_card W day) ->
  In piece (html_pieces CURRENT_DATE W notes_content).
Proof.
  intros H. unfold html_pieces. rewrite grid_rows_eq.
  rewrite !in_app_iff. destruct day; tauto.
Qed.

End HtmlFacts.

Lemma starts_with_app (x b : str) : starts_with x (x ++ b) = true.
Proof.
  unfold starts_with. induction x as [|c x IH]; [reflexivity|].
  cbn [app strip_prefix]. rewrite N.eqb_refl. exact IH.
Qed.

Lemma contains_app_r (x a b : str) :
  contains x b = true -> contains x (a ++ b) = true.
Proof.
  intros H. induction a as [|c a IH]; [exact H|].
  cbn [app contains]. rewrite IH. apply orb_true_r.
Qed.

Lemma contains_here (x b : str) : contains x (x ++ b) = true.
Proof.
  destruct x as [|c x]; destruct b as [|d b]; cbn [contains app];
    try reflexivity.
  - rewrite app_nil_r.
    change (starts_with (c :: x) (c :: x)) with
      (match strip_prefix (c :: x) (c :: x) with Some _ => true | None => false end).
    pose proof (starts_with_app (c :: x) []) as H. rewrite app_nil_r in H.
    unfold starts_with in H. rewrite H. reflexivity.
  - pose proof (starts_with_app (c :: x) (d :: b)) as H.
    cbn [app] in H. rewrite H. reflexivity.
Qed.

Lemma contains_piece (piece : str) (pieces : list str) :
  In piece pieces -> contains piece (concat pieces) = true.
Proof.
  induction pieces as [|p pieces IH]; intros H; [contradiction|].
  cbn [concat]. destruct H as [->|H].
  - apply contains_here.
  - apply contains_app_r, IH, H.
Qed.

(** C9: [html.escape] rewrites a text character by character: the
    ampersand, the angle brackets and the two quotes become entities, the
    other characters are kept, so that the escaped text has none of the
    characters that open or close a tag or an attribute value, and every
    ampersand in it begins an entity.  The study time, the goals, the name
    and the details of every visible plan and the notes are in the markup
    the renderer assembles in their escaped form, and that markup never
    contains [<script>], whatever the schedule and the notes.  The renderer
    returns what the style inliner makes of this markup, and the markup
    itself when the inliner raises.  The inliner is a library outside the
    program: when it puts no [<script>] into a text that has none, what the
    renderer returns contains no [<script>]. *)
Theorem html_escaping :
  forall (CURRENT_DATE : str) (W : WeekSchedule) (notes_content : str)
         (inline : str -> outcome exn str),
    forallb (fun c => negb (N.eqb c 60)) CURRENT_DATE = true ->
    (forall s r,
       inline s = Returns r ->
       contains (pystr "<script>") s = false ->
       contains (pystr "<script>") r = false) ->
    let html := html_content CURRENT_DATE W notes_content in
    let output := generate_html_email CURRENT_DATE W inline notes_content in
    contains (pystr "<script>") html = false
    /\ contains (pystr "<script>") output = false
    /\ (forall r, inline html = Returns r -> output = r)
    /\ (forall e, inline html = Raises e -> output = html)
    /\ (forall s, html_escape s = flat_map html_escape_char s)
    /\ (forall s, forallb (fun c => negb (markup c)) (html_escape s) = true)
    /\ (forall day,
          truthy (study_time (W day)) = true ->
          contains (html_escape (study_time (W day))) html = true)
    /\ (forall day,
          truthy (goals (W day)) = true ->
          contains (html_escape (goals (W day))) html = true)
    /\ (forall day p,
          In p (plans (W day)) -> has_details p = true ->
          contains (html_escape (name p)) html = true
          /\ contains (html_escape (details p)) html = true)
    /\ (truthy (strip notes_content) = true ->
        contains (html_escape (strip notes_content)) html = true).
Proof.
  intros date W notes inline Hdate Hinline html output.
  assert (Hcard : forall day piece,
            In piece (day_card W day) -> contains piece html = true).
  { intros day piece H. apply contains_piece.
    apply (day_card_pieces date W day notes piece H). }
  assert (Hhtml : contains (pystr "<script>") html = false).
  { destruct (contains (pystr "<script>") html) eqn:E; [|reflexivity].
    pose proof (contains_tag_run html E 0) as Hrun.
    unfold html, html_content in Hrun.
    rewrite inert_concat in Hrun; [discriminate|].
    apply inert_html_pieces. apply tag_run_no_lt. exact Hdate. }
  split; [exact Hhtml|].
  split.
  { unfold output, generate_html_email. fold html.
    destruct (inline html) as [r|e] eqn:E; [|exact Hhtml].
    exact (Hinline html r E Hhtml). }
  split.
  { intros r H. unfold output, generate_html_email. fold html.
    rewrite H. reflexivity. }
  split.
  { intros e H. unfold output, generate_html_email. fold html.
    rewrite H. reflexivity. }
  split; [exact html_escape_chars|].
  split; [exact html_escape_no_markup|].
  split.
  { intros day H. apply (Hcard day). unfold day_card. cbv zeta.
    rewrite H. unfold study_block. rewrite !in_app_iff. right. left.
    cbn [In]. tauto. }
  split.
  { intros day H. apply (Hcard day). unfold day_card. cbv zeta.
    rewrite H. unfold goals_block. rewrite !in_app_iff. right. right. left.
    cbn [In]. tauto. }
  split.
  { intros day p Hp Hv. rewrite <- visible_has_details in Hv.
    assert (Hin : forall piece,
              In piece (plan_block (day_colors day) p) ->
              In piece (day_card W day)).
    { intros piece H. unfold day_card. cbv zeta. rewrite !in_app_iff.
      right. right. right. left. apply in_flat_map. exists p.
      split; [apply filter_In; split; assumption | exact H]. }
    split; apply (Hcard day), Hin; unfold plan_block; cbn [In]; tauto. }
  intros H. apply contains_piece. unfold html_pieces.
  rewrite !in_app_iff. right. right. right. left.
  rewrite H. destruct notes as [|c notes]; [discriminate H|].
  cbn [truthy andb]. unfold notes_block. cbn [In]. tauto.
Qed.

(** A goal that holds a script tag. *)
Definition script_week : WeekSchedule :=
  fun d =>
    match d with
    | Wed => mkDay (pystr "9:00-10:00") (pystr "<script>alert(1)</script>") []
    | _ => initialize_default_schedule d
    end.

Lemma html_escaping_witness :
  contains (pystr "<script>")
    (generate_html_email (pystr "2024-05-06") script_week
       (fun s => Returns s) []) = false
  /\ contains (pystr "&lt;script&gt;alert(1)&lt;/script&gt;")
       (generate_html_email (pystr "2024-05-06") script_week
          (fun s => Returns s) []) = true.
Proof.
  destruct (html_escaping (pystr "2024-05-06") script_week []
              (fun s => Returns s) eq_refl)
    as (_ & Hno & Hout & _ & _ & _ & _ & Hgoals & _).
  - intros s r H Hs. injection H as <-. exact Hs.
  - split; [exact Hno|]. rewrite (Hout _ eq_refl). exact (Hgoals Wed eq_refl).
Defined.

(** ** The shell escaping and its inverse *)

Definition pipe : char := 124%N.

Lemma strip_prefix_length (p s rest : str) :
  strip_prefix p s = Some rest -> length s = length p + length rest.
Proof.
  intros H. apply strip_prefix_Some in H. subst s. apply length_app.
Qed.

Lemma replace_loop_fuel (old new : str) :
  old <> [] ->
  forall fuel fuel' s,
    length s < fuel -> length s < fuel' ->
    replace_loop fuel old new s = replace_loop fuel' old new s.
Proof.
  intros Hold. induction fuel as [|fuel IH]; intros fuel' s H H'; [lia|].
  destruct fuel' as [|fuel']; [lia|]. cbn [replace_loop].
  destruct (strip_prefix old s) as [rest|] eqn:E.
  - pose proof (strip_prefix_length _ _ _ E) as Hl.
    assert (0 < length old) by (destruct old; [contradiction | simpl; lia]).
    rewrite (IH fuel' rest) by lia. reflexivity.
  - destruct s as [|c s]; [reflexivity|]. simpl in H, H'.
    rewrite (IH fuel' s) by lia. reflexivity.
Qed.

(** The equation of [str.replace]. *)
Lemma replace_unfold (old new s : str) :
  old <> [] ->
  replace old new s
  = match strip_prefix old s with
    | Some rest => new ++ replace old new rest
    | None =>
        match s with
        | [] => []
        | c :: s' => c :: replace old new s'
        end
    end.
Proof.
  intros Hold. unfold replace at 1. cbn [replace_loop].
  destruct (strip_prefix old s) as [rest|] eqn:E.
  - pose proof (strip_prefix_length _ _ _ E) as Hl.
    assert (0 < length old) by (destruct old; [contradiction | simpl; lia]).
    unfold replace. rewrite (replace_loop_fuel old new Hold (length s)
                               (S (length rest)) rest) by lia.
    reflexivity.
  - destruct s as [|c s]; reflexivity.
Qed.

Definition shell_escape_char (c : char) : str :=
  if N.eqb backslash c then [backslash; backslash]
  else if N.eqb quote c then [backslash; quote]
  else [c].

Lemma shell_escape_chars (s : str) :
  shell_escape s = flat_map shell_escape_char s.
Proof.
  unfold shell_escape. rewrite !replace_single, flat_map_flat_map.
  apply flat_map_ext. intros c. unfold shell_escape_char.
  destruct (N.eqb backslash c) eqn:E1; [reflexivity|].
  cbn [flat_map app]. destruct (N.eqb quote c); reflexivity.
Qed.

Lemma shell_escape_app (a b : str) :
  shell_escape (a ++ b) = shell_escape a ++ shell_escape b.
Proof. rewrite !shell_escape_chars. apply flat_map_app. Qed.

(** A text that does not begin with a double quote. *)
Definition no_quote_first (t : str) : Prop :=
  match t with
  | [] => True
  | c :: _ => N.eqb quote c = false
  end.

Definition half_escape_char (c : char) : str :=
  if N.eqb backslash c then [backslash; backslash] else [c].

Lemma unquote_escaped (s t : str) :
  no_quote_first t ->
  replace [backslash; quote] [quote] (flat_map shell_escape_char s ++ t)
  = flat_map half_escape_char s ++ replace [backslash; quote] [quote] t.
Proof.
  intros Ht. induction s as [|c s IH]; [reflexivity|].
  assert (Hnext : no_quote_first (flat_map shell_escape_char s ++ t)).
  { destruct s as [|c' s]; [exact Ht|].
    cbn [flat_map]. unfold shell_escape_char at 1.
    destruct (N.eqb backslash c'); [reflexivity|].
    destruct (N.eqb quote c') eqn:E; [reflexivity | exact E]. }
  cbn [flat_map]. unfold shell_escape_char at 1, half_escape_char at 1.
  destruct (N.eqb backslash c) eqn:E1.
  - cbn [app]. rewrite replace_unfold by discriminate.
    cbn [strip_prefix]. rewrite N.eqb_refl.
    change (N.eqb quote backslash) with false. cbv iota.
    f_equal. rewrite replace_unfold by discriminate.
    cbn [strip_prefix]. rewrite N.eqb_refl.
    destruct (flat_map shell_escape_char s ++ t) as [|x rest] eqn:Erest.
    + rewrite <- IH. rewrite replace_unfold by discriminate. reflexivity.
    + cbn [no_quote_first] in Hnext. rewrite Hnext. f_equal. exact IH.
  - destruct (N.eqb quote c) eqn:E2.
    + apply N.eqb_eq in E2. subst c. cbn [app].
      rewrite replace_unfold by discriminate.
      cbn [strip_prefix]. rewrite !N.eqb_refl. cbn [app]. f_equal. exact IH.
    + cbn [app]. rewrite replace_unfold by discriminate.
      cbn [strip_prefix]. rewrite E1. f_equal. exact IH.
Qed.

Lemma unbackslash_half_escaped (s t : str) :
  replace [backslash; backslash] [backslash] (flat_map half_escape_char s ++ t)
  = s ++ replace [backslash; backslash] [backslash] t.
Proof.
  induction s as [|c s IH]; [reflexivity|].
  cbn [flat_map]. unfold half_escape_char at 1.
  destruct (N.eqb backslash c) eqn:E1.
  - apply N.eqb_eq in E1. subst c. cbn [app].
    rewrite replace_unfold by discriminate.
    cbn [strip_prefix]. rewrite !N.eqb_refl. cbn [app]. f_equal. exact IH.
  - cbn [app]. rewrite replace_unfold by discriminate.
    cbn [strip_prefix]. rewrite E1. f_equal. exact IH.
Qed.

(** [unescape] undoes [shell_escape], for every text. *)
Lemma unescape_shell_escape (s : str) : unescape (shell_escape s) = s.
Proof.
  unfold unescape. rewrite shell_escape_chars.
  rewrite <- (app_nil_r (flat_map shell_escape_char s)).
  rewrite unquote_escaped by exact I.
  rewrite unbackslash_half_escaped. apply app_nil_r.
Qed.

(** The same across a pipe. *)
Lemma unescape_legacy_part (a b : str) :
  unescape (shell_escape a ++ pystr "|" ++ shell_escape b)
  = a ++ pystr "|" ++ b.
Proof.
  unfold unescape. rewrite !shell_escape_chars.
  rewrite unquote_escaped by reflexivity.
  change (pystr "|") with [pipe]. cbn [app].
  rewrite (replace_unfold [backslash; quote] [quote]) by discriminate.
  cbn [strip_prefix]. change (N.eqb backslash pipe) with false. cbv iota.
  rewrite <- (app_nil_r (flat_map shell_escape_char b)).
  rewrite unquote_escaped by exact I.
  rewrite unbackslash_half_escaped.
  rewrite (replace_unfold [backslash; backslash] [backslash]) by discriminate.
  cbn [strip_prefix]. change (N.eqb backslash pipe) with false. cbv iota.
  rewrite unbackslash_half_escaped.
  change (replace [backslash; backslash] [backslash]
            (replace [backslash; quote] [quote] [])) with (@nil char).
  rewrite app_nil_r. reflexivity.
Qed.

(** ** Splitting a record *)

Definition no_pipe (s : str) : bool := forallb (fun c => negb (N.eqb pipe c)) s.

Lemma split_loop_last (s : str) :
  forall acc fuel,
    no_pipe s = true -> length s < fuel ->
    split_loop fuel [pipe] acc s = [rev acc ++ s].
Proof.
  induction s as [|c s IH]; intros acc fuel Hs Hf.
  - destruct fuel; [lia|]. cbn [split_loop]. rewrite app_nil_r. reflexivity.
  - destruct fuel; [simpl in Hf; lia|].
    cbn [no_pipe forallb] in Hs. apply andb_true_iff in Hs as [Hc Hs].
    apply negb_true_iff in Hc.
    cbn [split_loop strip_prefix]. rewrite Hc.
    rewrite (IH (c :: acc) fuel Hs) by (simpl in Hf; lia).
    cbn [rev]. rewrite <- app_assoc. reflexivity.
Qed.

Lemma split_loop_field (s t : str) :
  forall acc fuel,
    no_pipe s = true -> length s + length t + 1 < fuel ->
    split_loop fuel [pipe] acc (s ++ pipe :: t)
    = (rev acc ++ s) :: split_loop (fuel - length s - 1) [pipe] [] t.
Proof.
  induction s as [|c s IH]; intros acc fuel Hs Hf.
  - destruct fuel; [lia|]. cbn [app split_loop strip_prefix].
    rewrite N.eqb_refl, app_nil_r. cbn [length].
    replace (S fuel - 0 - 1) with fuel by lia. reflexivity.
  - destruct fuel; [lia|].
    cbn [no_pipe forallb] in Hs. apply andb_true_iff in Hs as [Hc Hs].
    apply negb_true_iff in Hc.
    cbn [app split_loop strip_prefix]. rewrite Hc.
    rewrite (IH (c :: acc) fuel Hs) by (simpl in Hf; lia).
    cbn [rev length]. rewrite <- app_assoc. reflexivity.
Qed.

Lemma split_two_fields (a b : str) :
  no_pipe a = true -> no_pipe b = true ->
  split (pystr "|") (a ++ pystr "|" ++ b) = [a; b].
Proof.
  intros Ha Hb. unfold split. change (pystr "|") with [pipe]. cbn [app].
  rewrite length_app. cbn [length].
  rewrite split_loop_field by (try exact Ha; lia).
  rewrite split_loop_last by (try exact Hb; lia).
  reflexivity.
Qed.

Lemma split_once_loop_skip (x : str) :
  forall acc rest,
    no_pipe x = true ->
    split_once_loop PLAN_SAVE_SEPARATOR acc (x ++ rest)
    = split_once_loop PLAN_SAVE_SEPARATOR (rev x ++ acc) rest.
Proof.
  induction x as [|c x IH]; intros acc rest Hx; [reflexivity|].
  cbn [no_pipe forallb] in Hx. apply andb_true_iff in Hx as [Hc Hx].
  apply negb_true_iff in Hc.
  cbn [app]. unfold split_once_loop at 1. fold split_once_loop.
  change PLAN_SAVE_SEPARATOR with (pipe :: pystr "|PLANS||") at 1.
  cbn [strip_prefix]. rewrite Hc. rewrite IH by exact Hx.
  cbn [rev]. rewrite <- app_assoc. reflexivity.
Qed.

Lemma split_once_loop_here (acc rest : str) :
  split_once_loop PLAN_SAVE_SEPARATOR acc (PLAN_SAVE_SEPARATOR ++ rest)
  = (rev acc, Some rest).
Proof.
  destruct rest as [|c rest]; reflexivity.
Qed.

(** The separator written by [save_schedule_data] is the first one. *)
Lemma split_once_combined (a b json : str) :
  no_pipe a = true -> no_pipe b = true ->
  split_once PLAN_SAVE_SEPARATOR
    (a ++ pystr "|" ++ b ++ PLAN_SAVE_SEPARATOR ++ json)
  = (a ++ pystr "|" ++ b, Some json).
Proof.
  intros Ha Hb. unfold split_once.
  rewrite split_once_loop_skip by exact Ha.
  change (pystr "|") with [pipe]. cbn [app].
  assert (Hstep :
    split_once_loop PLAN_SAVE_SEPARATOR (rev a ++ [])
      (pipe :: b ++ PLAN_SAVE_SEPARATOR ++ json)
    = split_once_loop PLAN_SAVE_SEPARATOR (pipe :: rev a ++ [])
        (b ++ PLAN_SAVE_SEPARATOR ++ json)).
  { destruct b as [|c b].
    - reflexivity.
    - cbn [no_pipe forallb] in Hb. apply andb_true_iff in Hb as [Hc _].
      apply negb_true_iff in Hc.
      unfold split_once_loop at 1. fold split_once_loop.
      change PLAN_SAVE_SEPARATOR with (pipe :: pipe :: pystr "PLANS||") at 1.
      cbn [app strip_prefix]. rewrite N.eqb_refl, Hc. reflexivity. }
  rewrite Hstep. rewrite split_once_loop_skip by exact Hb.
  rewrite split_once_loop_here.
  cbn [rev]. rewrite app_nil_r, rev_app_distr, rev_involutive.
  cbn [rev app]. rewrite rev_involutive, <- app_assoc. reflexivity.
Qed.

Lemma no_pipe_shell_escape (s : str) :
  no_pipe s = true -> no_pipe (shell_escape s) = true.
Proof.
  rewrite shell_escape_chars. unfold no_pipe.
  induction s as [|c s IH]; intros H; [reflexivity|].
  cbn [forallb] in H. apply andb_true_iff in H as [Hc Hs].
  change (flat_map shell_escape_char (c :: s))
    with (shell_escape_char c ++ flat_map shell_escape_char s).
  rewrite forallb_app. apply andb_true_iff. split; [|exact (IH Hs)].
  unfold shell_escape_char.
  destruct (N.eqb backslash c); [reflexivity|].
  destruct (N.eqb quote c); [reflexivity|].
  cbn [forallb]. rewrite Hc. reflexivity.
Qed.

(** ** Stripping *)

Lemma lstrip_first (c : char) (s : str) :
  is_space c = false -> lstrip (c :: s) = c :: s.
Proof. intros H. cbn [lstrip]. rewrite H. reflexivity. Qed.

Lemma strip_bracketed (body : str) :
  strip (pystr "[" ++ body ++ pystr "]") = pystr "[" ++ body ++ pystr "]".
Proof.
  unfold strip. change (pystr "[") with [91%N]. change (pystr "]") with [93%N].
  cbn [app]. rewrite lstrip_first by reflexivity.
  unfold rstrip.
  change (91%N :: body ++ [93%N]) with ((91%N :: body) ++ [93%N]).
  rewrite rev_app_distr. cbn [rev app].
  rewrite lstrip_first by reflexivity.
  cbn [rev]. rewrite rev_app_distr, rev_involutive. reflexivity.
Qed.

(** ** Reading back the JSON of the plans *)

(** No control character: what [sanitize_input] leaves. *)
Definition printable (s : str) : bool := forallb (fun c => N.leb 32 c) s.

Lemma escape_char_printable (c : char) :
  N.leb 32 c = true ->
  escape_char c
  = if N.eqb c quote then [backslash; quote]
    else if N.eqb c backslash then [backslash; backslash]
    else [c].
Proof.
  intros H. apply N.leb_le in H. unfold escape_char.
  destruct (N.eqb c quote); [reflexivity|].
  destruct (N.eqb c backslash); [reflexivity|].
  rewrite !(proj2 (N.eqb_neq c _)) by lia.
  rewrite (proj2 (N.ltb_ge c 32)) by lia. reflexivity.
Qed.

Lemma scanstring_escaped (s : str) :
  forall acc fuel tail,
    printable s = true ->
    length (flat_map escape_char s) < fuel ->
    scanstring fuel (flat_map escape_char s ++ quote :: tail) acc
    = Some (rev acc ++ s, tail).
Proof.
  induction s as [|c s IH]; intros acc fuel tail Hs Hf.
  - destruct fuel; [simpl in Hf; lia|]. cbn [flat_map app scanstring].
    rewrite N.eqb_refl, app_nil_r. reflexivity.
  - cbn [printable forallb] in Hs. apply andb_true_iff in Hs as [Hc Hs].
    cbn [flat_map] in Hf |- *. rewrite length_app in Hf.
    rewrite (escape_char_printable c Hc) in Hf |- *.
    assert (Hgoal : rev (c :: acc) ++ s = rev acc ++ c :: s)
      by (cbn [rev]; rewrite <- app_assoc; reflexivity).
    destruct (N.eqb c quote) eqn:Eq.
    + apply N.eqb_eq in Eq. subst c. destruct fuel; [lia|].
      cbn [app scanstring].
      change (N.eqb backslash quote) with false.
      change (N.eqb backslash backslash) with true.
      change (N.eqb quote (ch "u")) with false.
      change (simple_escape quote) with (Some quote). cbv iota.
      rewrite IH by (try exact Hs; simpl in Hf; lia). rewrite Hgoal.
      reflexivity.
    + destruct (N.eqb c backslash) eqn:Eb.
      * apply N.eqb_eq in Eb. subst c. destruct fuel; [lia|].
        cbn [app scanstring].
        change (N.eqb backslash quote) with false.
        change (N.eqb backslash backslash) with true.
        change (N.eqb backslash (ch "u")) with false.
        change (simple_escape backslash) with (Some backslash). cbv iota.
        rewrite IH by (try exact Hs; simpl in Hf; lia). rewrite Hgoal.
        reflexivity.
      * destruct fuel; [lia|]. cbn [app scanstring]. rewrite Eq, Eb.
        apply N.leb_le in Hc.
        rewrite (proj2 (N.ltb_ge c 32)) by lia.
        rewrite IH by (try exact Hs; simpl in Hf; lia). rewrite Hgoal.
        reflexivity.
Qed.

(** The value [json.loads] builds for a plan. *)
Definition plan_object (p : Plan) : json :=
  JObj [(pystr "name", JStr (name p)); (pystr "details", JStr (details p))].

Definition printable_plan (p : Plan) : bool :=
  printable (name p) && printable (details p).

Lemma scan_once_S (fuel depth : nat) (c : char) (rest : str) :
  scan_once (S fuel) (S depth) (c :: rest)
  = if N.eqb c quote then
      match scanstring (S (length rest)) rest [] with
      | Some (x, rest') => Returns (JStr x, rest')
      | None => Raises JSONDecodeError
      end
    else if N.eqb c (ch "{") then
      match skip_ws rest with
      | c' :: rest' =>
          if N.eqb c' (ch "}") then Returns (JObj [], rest')
          else if N.eqb c' quote then scan_members fuel depth rest' []
          else Raises JSONDecodeError
      | [] => Raises JSONDecodeError
      end
    else if N.eqb c (ch "[") then
      match skip_ws rest with
      | c' :: rest' =>
          if N.eqb c' (ch "]") then Returns (JArr [], rest')
          else scan_items fuel depth (c' :: rest') []
      | [] => Raises JSONDecodeError
      end
    else scan_atom (c :: rest).
Proof. reflexivity. Qed.

Lemma scan_once_quote (fuel depth : nat) (rest : str) :
  scan_once (S fuel) depth (quote :: rest)
  = match scanstring (S (length rest)) rest [] with
    | Some (x, rest') => Returns (JStr x, rest')
    | None => Raises JSONDecodeError
    end.
Proof. reflexivity. Qed.

Lemma scan_members_S (fuel depth : nat) (s : str) (acc : list (str * json)) :
  scan_members (S fuel) depth s acc
  = match scanstring (S (length s)) s [] with
    | None => Raises JSONDecodeError
    | Some (key, rest) =>
        match skip_ws rest with
        | c :: rest1 =>
            if N.eqb c (ch ":") then
              match scan_once fuel depth (skip_ws rest1) with
              | Raises e => Raises e
              | Returns (v, rest2) =>
                  match skip_ws rest2 with
                  | c' :: rest3 =>
                      if N.eqb c' (ch "}")
                      then Returns (JObj (rev ((key, v) :: acc)), rest3)
                      else if N.eqb c' (ch ",") then
                        match skip_ws rest3 with
                        | q :: rest4 =>
                            if N.eqb q quote
                            then scan_members fuel depth rest4
                                   ((key, v) :: acc)
                            else Raises JSONDecodeError
                        | [] => Raises JSONDecodeError
                        end
                      else Raises JSONDecodeError
                  | [] => Raises JSONDecodeError
                  end
              end
            else Raises JSONDecodeError
        | [] => Raises JSONDecodeError
        end
    end.
Proof. reflexivity. Qed.

Lemma scan_items_S (fuel depth : nat) (s : str) (acc : list json) :
  scan_items (S fuel) depth s acc
  = match scan_once fuel depth s with
    | Raises e => Raises e
    | Returns (v, rest) =>
        match skip_ws rest with
        | c :: rest' =>
            if N.eqb c (ch "]") then Returns (JArr (rev (v :: acc)), rest')
            else if N.eqb c (ch ",")
                 then scan_items fuel depth (skip_ws rest') (v :: acc)
            else Raises JSONDecodeError
        | [] => Raises JSONDecodeError
        end
    end.
Proof. reflexivity. Qed.

Lemma scan_string_value (s tail : str) (fuel depth : nat) :
  printable s = true ->
  scan_once (S fuel) depth (dumps_string s ++ tail) = Returns (JStr s, tail).
Proof.
  intros Hs. unfold dumps_string. cbn [app]. rewrite scan_once_quote.
  rewrite <- app_assoc. cbn [app].
  rewrite scanstring_escaped by (try exact Hs; rewrite length_app; simpl; lia).
  reflexivity.
Qed.

Lemma scan_key (key tail : str) :
  printable key = true ->
  scanstring (S (length (flat_map escape_char key ++ quote :: tail)))
    (flat_map escape_char key ++ quote :: tail) []
  = Some (key, tail).
Proof.
  intros Hk.
  rewrite scanstring_escaped by (try exact Hk; rewrite length_app; simpl; lia).
  reflexivity.
Qed.

Lemma dumps_plan_layout (p : Plan) (tail : str) :
  dumps_plan p ++ tail
  = ch "{" :: quote ::
    (flat_map escape_char (pystr "name") ++ quote :: ch ":" :: ch " " ::
     (dumps_string (name p) ++ ch "," :: ch " " :: quote ::
      (flat_map escape_char (pystr "details") ++ quote :: ch ":" :: ch " " ::
       (dumps_string (details p) ++ ch "}" :: tail)))).
Proof.
  unfold dumps_plan, dumps_string.
  change (pystr "{") with [ch "{"]. change (pystr ": ") with [ch ":"; ch " "].
  change (pystr ", ") with [ch ","; ch " "]. change (pystr "}") with [ch "}"].
  cbn [app]. repeat (rewrite <- !app_assoc; cbn [app]). reflexivity.
Qed.

Lemma skip_ws_none (c : char) (s : str) :
  is_ws c = false -> skip_ws (c :: s) = c :: s.
Proof. intros H. cbn [skip_ws]. rewrite H. reflexivity. Qed.

Lemma skip_ws_space (s : str) : skip_ws (ch " " :: s) = skip_ws s.
Proof. reflexivity. Qed.

Lemma skip_ws_string (s tail : str) :
  skip_ws (dumps_string s ++ tail) = dumps_string s ++ tail.
Proof. reflexivity. Qed.

(** Decides the comparisons of two known characters. *)
Ltac known_chars :=
  repeat match goal with
    | |- context [N.eqb ?a ?b] =>
        let v := eval vm_compute in (N.eqb a b) in
        lazymatch v with
        | true => change (N.eqb a b) with true
        | false => change (N.eqb a b) with false
        end
    end;
  cbv iota.

(** The object of a plan is read at any depth that leaves room for one
    more call. *)
Lemma scan_plan (p : Plan) (tail : str) (fuel depth : nat) :
  printable_plan p = true ->
  scan_once (S (S (S (S fuel)))) (S depth) (dumps_plan p ++ tail)
  = Returns (plan_object p, tail).
Proof.
  intros Hp. apply andb_true_iff in Hp as [Hn Hd].
  rewrite dumps_plan_layout, scan_once_S. known_chars.
  rewrite skip_ws_none by reflexivity. known_chars.
  rewrite scan_members_S, scan_key by reflexivity. cbv iota.
  rewrite skip_ws_none by reflexivity. known_chars.
  rewrite skip_ws_space, skip_ws_string, scan_string_value by exact Hn.
  cbv iota. rewrite skip_ws_none by reflexivity. known_chars.
  rewrite skip_ws_space, skip_ws_none by reflexivity. known_chars.
  rewrite scan_members_S, scan_key by reflexivity. cbv iota.
  rewrite skip_ws_none by reflexivity. known_chars.
  rewrite skip_ws_space, skip_ws_string, scan_string_value by exact Hd.
  cbv iota. rewrite skip_ws_none by reflexivity. known_chars.
  reflexivity.
Qed.

Definition plan_separator : str := pystr ", ".

Lemma join_plans_head (p : Plan) (l : list Plan) (tail : str) :
  exists rest,
    join plan_separator (map dumps_plan (p :: l)) ++ tail = ch "{" :: rest.
Proof.
  cbn [map join]. destruct (map dumps_plan l).
  - rewrite dumps_plan_layout. eexists. reflexivity.
  - rewrite <- app_assoc, dumps_plan_layout. eexists. reflexivity.
Qed.

Lemma scan_items_plans (l : list Plan) (depth : nat) :
  forall acc fuel tail,
    l <> [] -> forallb printable_plan l = true -> length l + 4 <= fuel ->
    scan_items fuel (S depth)
      (join plan_separator (map dumps_plan l) ++ ch "]" :: tail) acc
    = Returns (JArr (rev acc ++ map plan_object l), tail).
Proof.
  induction l as [|p l IH]; intros acc fuel tail Hne Hl Hf; [contradiction|].
  cbn [forallb] in Hl. apply andb_true_iff in Hl as [Hp Hl].
  do 5 (destruct fuel as [|fuel]; [simpl in Hf; lia|]).
  rewrite scan_items_S. destruct l as [|p' l].
  - cbn [map join]. rewrite scan_plan by exact Hp. cbv iota.
    rewrite skip_ws_none by reflexivity. known_chars.
    reflexivity.
  - change (join plan_separator (map dumps_plan (p :: p' :: l)))
      with (dumps_plan p ++ plan_separator
              ++ join plan_separator (map dumps_plan (p' :: l))).
    rewrite <- !app_assoc. rewrite scan_plan by exact Hp. cbv iota.
    change (plan_separator ++ ?x) with (ch "," :: ch " " :: x).
    rewrite skip_ws_none by reflexivity. known_chars.
    rewrite skip_ws_space.
    destruct (join_plans_head p' l (ch "]" :: tail)) as (rest & Hrest).
    rewrite Hrest, skip_ws_none by reflexivity. rewrite <- Hrest.
    rewrite IH; [|discriminate | exact Hl | simpl in Hf |- *; lia].
    cbn [rev map]. rewrite <- app_assoc. reflexivity.
Qed.

Lemma join_plans_length (l : list Plan) :
  3 * length l <= length (join plan_separator (map dumps_plan l)).
Proof.
  induction l as [|p l IH]; [simpl; lia|].
  assert (Hp : 3 <= length (dumps_plan p)).
  { unfold dumps_plan. repeat rewrite length_app.
    change (length (pystr "{")) with 1. change (length (pystr ": ")) with 2.
    lia. }
  cbn [map join]. destruct (map dumps_plan l) as [|x xs] eqn:E.
  - destruct l; [simpl; lia | discriminate].
  - rewrite !length_app. cbn [length] in *. lia.
Qed.

(** The list of the plans and their objects need two nested calls. *)
Lemma recursion_limit_two : exists depth, RECURSION_LIMIT = S (S depth).
Proof. exists 998. reflexivity. Qed.

(** [json.loads] reads back what [json.dumps] wrote for the plans. *)
Lemma loads_dumps_plans (l : list Plan) :
  forallb printable_plan l = true ->
  loads (dumps_plans l) = Returns (JArr (map plan_object l)).
Proof.
  intros Hl. unfold loads.
  destruct recursion_limit_two as (depth & ->).
  destruct l as [|p l]; [reflexivity|].
  unfold dumps_plans. fold plan_separator.
  change (pystr "[") with [ch "["]. change (pystr "]") with [ch "]"].
  cbn [app].
  change (match ch "[" :: ?x with
          | 65279%N :: _ => ?a
          | _ => ?b
          end) with b.
  rewrite skip_ws_none by reflexivity. rewrite scan_once_S. known_chars.
  destruct (join_plans_head p l [ch "]"]) as (rest & Hrest).
  rewrite Hrest, skip_ws_none by reflexivity. known_chars. rewrite <- Hrest.
  rewrite (scan_items_plans (p :: l) depth [] _ []);
    [reflexivity | discriminate | exact Hl |].
  pose proof (join_plans_length (p :: l)) as Hlen.
  cbn [length] in *. rewrite length_app. cbn [length]. lia.
Qed.

Lemma validate_plan_objects (py_str : json -> str) (l : list Plan) :
  validate_plans py_str (map plan_object l) = valid_plans l.
Proof.
  induction l as [|p l IH]; [reflexivity|].
  cbn [map validate_plans valid_plans plan_object].
  change (item_field py_str "name"
            [(pystr "name", JStr (name p)); (pystr "details", JStr (details p))])
    with (name p).
  change (item_field py_str "details"
            [(pystr "name", JStr (name p)); (pystr "details", JStr (details p))])
    with (details p).
  rewrite IH. reflexivity.
Qed.

Lemma printable_sanitize (x : str) : printable (sanitize_input x) = true.
Proof.
  rewrite sanitize_input_filter. unfold printable.
  apply forallb_forall. intros c Hc. apply filter_In in Hc as [_ Hc].
  unfold sanitize_class in Hc. apply negb_true_iff in Hc.
  apply orb_false_iff in Hc as [Hc _]. apply orb_false_iff in Hc as [_ Hc].
  apply N.leb_gt in Hc. apply N.leb_le. lia.
Qed.

Lemma valid_plans_printable (l : list Plan) :
  forallb printable_plan (valid_plans l) = true.
Proof.
  induction l as [|p l IH]; [reflexivity|]. cbn [valid_plans].
  destruct (truthy (sanitize_input (name p))); [|exact IH].
  cbn [forallb]. rewrite IH. unfold printable_plan. cbn [name details].
  rewrite !printable_sanitize. reflexivity.
Qed.

Lemma valid_plans_idem (l : list Plan) :
  valid_plans (valid_plans l) = valid_plans l.
Proof.
  induction l as [|p l IH]; [reflexivity|]. cbn [valid_plans].
  destruct (truthy (sanitize_input (name p))) eqn:E; [|exact IH].
  cbn [valid_plans name details]. rewrite !sanitize_input_idem, E, IH.
  reflexivity.
Qed.

(** ** A day written by [save_schedule_data], read back *)

(** The study time [load_schedule_data] keeps for a cleaned first field. *)
Definition study_time_or_default (day : Day) (cleaned : str) : str :=
  if negb (truthy cleaned) || contains (pystr "information") cleaned
  then DEFAULT_STUDY_TIMES day else cleaned.

(** What a day becomes when it is written and read back. *)
Definition normalized (day : Day) (day_data : DaySchedule) : DaySchedule :=
  mkDay
    (study_time_or_default day
       (clean_text (sanitize_input (study_time day_data))))
    (clean_text (sanitize_input (goals day_data)))
    (valid_plans (plans day_data)).

Lemma shell_escape_dumps_plans (l : list Plan) :
  exists rest, shell_escape (dumps_plans l) = ch "[" :: rest.
Proof.
  unfold dumps_plans. rewrite shell_escape_app. eexists. reflexivity.
Qed.

Lemma parse_day_combined (py_str : json -> str) (day : Day)
    (d0 day_data : DaySchedule) :
  no_pipe (sanitize_input (study_time day_data)) = true ->
  no_pipe (sanitize_input (goals day_data)) = true ->
  parse_day py_str day d0 (combined_data day_data)
  = Returns (normalized day day_data).
Proof.
  intros Hst Hg. unfold parse_day, combined_data. cbv zeta.
  rewrite split_once_combined by (apply no_pipe_shell_escape; assumption).
  rewrite unescape_legacy_part, split_two_fields by assumption.
  cbn [length Nat.leb field nth].
  destruct (shell_escape_dumps_plans (valid_plans (plans day_data)))
    as (rest & Hrest).
  rewrite Hrest. rewrite <- Hrest.
  rewrite unescape_shell_escape.
  unfold dumps_plans at 1 2. rewrite strip_bracketed.
  change (negb (truthy (pystr "[" ++ ?x))) with false. cbv iota.
  fold (dumps_plans (valid_plans (plans day_data))).
  rewrite loads_dumps_plans by apply valid_plans_printable.
  rewrite validate_plan_objects, valid_plans_idem.
  reflexivity.
Qed.

(** ** Finding a day's line *)

(** The texts group 1 of the line pattern matches. *)
Inductive tokens : str -> Prop :=
| tokens_nil : tokens []
| tokens_plain (c : char) (s : str) :
    plain_char c = true -> tokens s -> tokens (c :: s)
| tokens_pair (e : char) (s : str) :
    N.eqb e 10 = false -> tokens s -> tokens (backslash :: e :: s).

Lemma tokens_app (a b : str) : tokens a -> tokens b -> tokens (a ++ b).
Proof.
  induction 1 as [|c s Hc _ IH|e s He _ IH]; intros Hb; cbn [app].
  - exact Hb.
  - apply tokens_plain; [exact Hc | apply IH, Hb].
  - apply tokens_pair; [exact He | apply IH, Hb].
Qed.

Lemma tokens_shell_escape (s : str) : tokens (shell_escape s).
Proof.
  rewrite shell_escape_chars. induction s as [|c s IH]; [constructor|].
  change (flat_map shell_escape_char (c :: s))
    with (shell_escape_char c ++ flat_map shell_escape_char s).
  apply tokens_app; [|exact IH]. unfold shell_escape_char.
  destruct (N.eqb backslash c) eqn:E1.
  - apply tokens_pair; [reflexivity | constructor].
  - destruct (N.eqb quote c) eqn:E2.
    + apply tokens_pair; [reflexivity | constructor].
    + apply tokens_plain; [|constructor]. unfold plain_char.
      rewrite (N.eqb_sym c quote), (N.eqb_sym c backslash), E1, E2.
      reflexivity.
Qed.

Lemma tokens_combined (day_data : DaySchedule) :
  tokens (combined_data day_data).
Proof.
  unfold combined_data. cbv zeta.
  repeat apply tokens_app; try apply tokens_shell_escape.
  - apply tokens_plain; [reflexivity | constructor].
  - unfold PLAN_SAVE_SEPARATOR.
    repeat (apply tokens_plain; [reflexivity|]). constructor.
Qed.

Lemma exec_Alt {A : Type} (r1 r2 : regex) (st : mstate)
    (k : mstate -> option A) :
  exec (Alt r1 r2) st k
  = match exec r1 st k with
    | Some x => Some x
    | None => exec r2 st k
    end.
Proof. reflexivity. Qed.

Definition line_token : regex :=
  Alt (Cls plain_char) (Cat (Cls (N.eqb backslash)) Dot).

Lemma ltb_length_cons2 {X : Type} (c d : X) (l : list X) :
  (length l <? length (c :: d :: l)) = true.
Proof. apply Nat.ltb_lt. simpl. lia. Qed.

Lemma line_body_greedy {A : Type} (k : mstate -> option A) (x : A)
    (rest : str) (gs : list (nat * str)) :
  forall body,
    tokens body ->
    forall fuel bef,
      length body <= fuel ->
      k (MState (rev body ++ bef) (quote :: rest) gs) = Some x ->
      star_loop (exec line_token) k fuel
        (MState bef (body ++ quote :: rest) gs) = Some x.
Proof.
  induction 1 as [|c s Hc _ IH|e s He _ IH]; intros fuel bef Hf Hk.
  - cbn [app rev] in *. destruct fuel as [|fuel]; [exact Hk|].
    rewrite star_loop_S. unfold line_token at 1.
    rewrite exec_Alt, exec_Cls. cbn [after].
    change (plain_char quote) with false. cbv iota.
    rewrite exec_Cat, exec_Cls. cbn [after].
    change (N.eqb backslash quote) with false. cbv iota. exact Hk.
  - destruct fuel as [|fuel]; [simpl in Hf; lia|].
    rewrite star_loop_S. unfold line_token at 1.
    rewrite exec_Alt, exec_Cls. cbn [after app]. rewrite Hc.
    unfold advance. cbn [after before groups].
    rewrite ltb_length_cons.
    rewrite (IH fuel (c :: bef)); [reflexivity | simpl in Hf; lia |].
    cbn [rev] in Hk. rewrite <- app_assoc in Hk. exact Hk.
  - destruct fuel as [|fuel]; [simpl in Hf; lia|].
    rewrite star_loop_S. unfold line_token at 1.
    rewrite exec_Alt, exec_Cls. cbn [after app].
    change (plain_char backslash) with false. cbv iota.
    rewrite exec_Cat, exec_Cls. cbn [after].
    rewrite N.eqb_refl. unfold Dot. rewrite exec_Cls.
    unfold advance. cbn [after before groups]. rewrite He. cbn [negb].
    rewrite ltb_length_cons2.
    rewrite (IH fuel (e :: backslash :: bef)); [reflexivity | simpl in Hf; lia |].
    cbn [rev] in Hk. rewrite <- !app_assoc in Hk. exact Hk.
Qed.

Lemma strip_prefix_app (p s : str) : strip_prefix p (p ++ s) = Some s.
Proof.
  induction p as [|c p IH]; [reflexivity|].
  cbn [app strip_prefix]. rewrite N.eqb_refl. exact IH.
Qed.

(** The pattern of a day matches at the head of the day's line and
    captures the text up to the closing quote. *)
Lemma exec_line_pattern (day : Day) (bef body rest : str) :
  tokens body ->
  exists st,
    exec (line_pattern day)
      (MState bef (line_head day ++ body ++ quote :: rest) []) Some = Some st
    /\ group 1 (groups st) = body.
Proof.
  intros Hbody. eexists. split.
  - unfold line_pattern. rewrite exec_Cat, exec_Lit. cbn [after before groups].
    rewrite strip_prefix_app. rewrite exec_Cat.
    change (exec (Grp 1 line_body) ?st ?k)
      with (star_loop (exec line_token) (fun st' => k (set_group 1 st st'))
              (length (after st)) st).
    apply line_body_greedy;
      [exact Hbody | cbn [after]; rewrite length_app; lia |].
    unfold set_group. cbn [before after groups].
    rewrite exec_Lit. cbn [after before groups strip_prefix].
    rewrite N.eqb_refl. rewrite consumed_app. reflexivity.
  - reflexivity.
Qed.

(** No position of [pre] starts an occurrence of [head] in [pre ++ aft]. *)
Fixpoint absent_before (head pre aft : str) : bool :=
  match pre with
  | [] => true
  | _ :: pre' =>
      negb (starts_with head (pre ++ aft)) && absent_before head pre' aft
  end.

Lemma absent_before_app (head p1 p2 aft : str) :
  absent_before head (p1 ++ p2) aft
  = absent_before head p1 (p2 ++ aft) && absent_before head p2 aft.
Proof.
  induction p1 as [|c p1 IH]; [reflexivity|].
  cbn [app absent_before]. rewrite IH, <- app_assoc, andb_assoc. reflexivity.
Qed.

Lemma search_from_eq (r : regex) (bef aft : list char) :
  search_from r bef aft
  = match exec r (MState bef aft []) Some with
    | Some st => Some st
    | None =>
        match aft with
        | [] => None
        | c :: aft' => search_from r (c :: bef) aft'
        end
    end.
Proof. destruct aft; reflexivity. Qed.

(** The search passes the positions where the literal head of the pattern
    does not occur. *)
Lemma search_skip (head : str) (r : regex) :
  forall pre bef aft,
    absent_before head pre aft = true ->
    search_from (Cat (Lit head) r) bef (pre ++ aft)
    = search_from (Cat (Lit head) r) (rev pre ++ bef) aft.
Proof.
  induction pre as [|c pre IH]; intros bef aft H; [reflexivity|].
  cbn [absent_before] in H. apply andb_true_iff in H as [Hc Hpre].
  apply negb_true_iff, starts_with_false in Hc.
  rewrite search_from_eq, exec_Cat, exec_Lit. cbn [after]. rewrite Hc.
  cbn [app]. rewrite IH by exact Hpre.
  cbn [rev]. rewrite <- app_assoc. reflexivity.
Qed.

Definition eq_sign : char := 61%N.

Definition after_eq (prev : option char) : bool :=
  match prev with
  | Some p => N.eqb p eq_sign
  | None => false
  end.

(** The first double quote of [s], if there is one, does not follow [=];
    [prev] is the character before [s]. *)
Fixpoint first_quote_ok (prev : option char) (s : str) : bool :=
  match s with
  | [] => true
  | c :: s' =>
      if N.eqb c quote then negb (after_eq prev)
      else first_quote_ok (Some c) s'
  end.

(** No double quote of [s] follows [=]. *)
Fixpoint quotes_ok (prev : option char) (s : str) : bool :=
  match s with
  | [] => true
  | c :: s' => negb (N.eqb c quote && after_eq prev) && quotes_ok (Some c) s'
  end.

Definition no_quote (s : str) : bool :=
  forallb (fun c => negb (N.eqb c quote)) s.

Lemma starts_with_first_quote (body : str) :
  no_quote body = true ->
  forall prev s,
    starts_with (body ++ [eq_sign; quote]) s = true ->
    first_quote_ok prev s = false.
Proof.
  intros Hb. induction body as [|b body IH]; intros prev s H.
  - destruct s as [|x [|y s]]; unfold starts_with in H;
      cbn [app strip_prefix] in H; try discriminate.
    + destruct (N.eqb eq_sign x); discriminate.
    + destruct (N.eqb_spec eq_sign x) as [<-|]; [|discriminate].
      destruct (N.eqb_spec quote y) as [<-|]; [|discriminate].
      reflexivity.
  - cbn [no_quote forallb] in Hb. apply andb_true_iff in Hb as [Hq Hb].
    apply negb_true_iff in Hq.
    destruct s as [|x s]; unfold starts_with in H;
      cbn [app strip_prefix] in H; [discriminate|].
    destruct (N.eqb_spec b x) as [<-|]; [|discriminate].
    cbn [first_quote_ok]. rewrite Hq. apply (IH Hb). exact H.
Qed.

Lemma line_head_first_quote (day : Day) (s : str) :
  first_quote_ok None s = true -> starts_with (line_head day) s = false.
Proof.
  intros H. destruct (starts_with (line_head day) s) eqn:E; [|reflexivity].
  assert (Hhead : exists body,
            no_quote body = true /\ line_head day = body ++ [eq_sign; quote]).
  { exists (pystr "schedule[" ++ day_name day ++ pystr "]").
    destruct day; split; reflexivity. }
  destruct Hhead as (body & Hb & Hhead). rewrite Hhead in E.
  rewrite (starts_with_first_quote body Hb None s E) in H. discriminate.
Qed.

Lemma quotes_ok_first (x rest : str) :
  forall prev,
    quotes_ok prev (x ++ [quote]) = true ->
    first_quote_ok prev (x ++ quote :: rest) = true.
Proof.
  induction x as [|c x IH]; intros prev H.
  - cbn [app quotes_ok first_quote_ok] in *. rewrite N.eqb_refl in *.
    rewrite andb_true_r in H. exact H.
  - cbn [app quotes_ok first_quote_ok] in *.
    apply andb_true_iff in H as [Hc Hx].
    destruct (N.eqb c quote); [exact Hc | apply IH, Hx].
Qed.

Lemma quotes_ok_weaken (prev : option char) (s : str) :
  quotes_ok prev s = true -> quotes_ok None s = true.
Proof.
  destruct s as [|c s]; [reflexivity|]. cbn [quotes_ok after_eq].
  intros H. apply andb_true_iff in H as [_ H]. rewrite andb_false_r. exact H.
Qed.

(** Inside a text none of whose quotes follows [=], the closing quote
    included, a line head does not start. *)
Lemma absent_before_quotes_ok (day : Day) (rest : str) :
  forall x,
    quotes_ok None (x ++ [quote]) = true ->
    absent_before (line_head day) x (quote :: rest) = true.
Proof.
  induction x as [|c x IH]; intros H; [reflexivity|].
  cbn [absent_before]. apply andb_true_iff. split.
  - apply negb_true_iff, line_head_first_quote, quotes_ok_first. exact H.
  - apply IH. cbn [app quotes_ok] in H. apply andb_true_iff in H as [_ H].
    apply (quotes_ok_weaken _ _ H).
Qed.

(** The character before the end of [prev :: s]. *)
Definition last_char (prev : option char) (s : str) : option char :=
  fold_left (fun _ c => Some c) s prev.

Lemma tokens_quotes_ok (s t : str) :
  tokens s ->
  forall prev,
    quotes_ok (last_char prev s) t = true -> quotes_ok prev (s ++ t) = true.
Proof.
  induction 1 as [|c s Hc _ IH|e s He _ IH]; intros prev H.
  - exact H.
  - cbn [app quotes_ok]. unfold plain_char in Hc.
    apply negb_true_iff, orb_false_iff in Hc as [Hq _]. rewrite Hq.
    cbn [andb negb]. apply IH. exact H.
  - cbn [app quotes_ok].
    change (N.eqb backslash quote) with false.
    change (after_eq (Some backslash)) with false.
    rewrite andb_false_r. cbn [andb negb]. apply IH. exact H.
Qed.

Lemma last_char_app (prev : option char) (s : str) (c : char) :
  last_char prev (s ++ [c]) = Some c.
Proof. unfold last_char. rewrite fold_left_app. reflexivity. Qed.

Lemma combined_data_quotes_ok (day_data : DaySchedule) :
  quotes_ok None (combined_data day_data ++ [quote]) = true.
Proof.
  apply tokens_quotes_ok; [apply tokens_combined|].
  unfold combined_data, dumps_plans. cbv zeta.
  rewrite !shell_escape_app.
  change (shell_escape (pystr "]")) with [ch "]"].
  rewrite !app_assoc, last_char_app. reflexivity.
Qed.

Lemma first_quote_ok_skip (x y : str) :
  no_quote x = true ->
  (forall prev, first_quote_ok prev y = true) ->
  forall prev, first_quote_ok prev (x ++ y) = true.
Proof.
  intros Hx Hy. induction x as [|c x IH]; intros prev; [apply Hy|].
  cbn [no_quote forallb] in Hx. apply andb_true_iff in Hx as [Hc Hx].
  apply negb_true_iff in Hc. cbn [app first_quote_ok]. rewrite Hc.
  apply (IH Hx).
Qed.

Lemma absent_before_no_quote (day : Day) (y : str) :
  (forall prev, first_quote_ok prev y = true) ->
  forall x,
    no_quote x = true ->
    absent_before (line_head day) x y = true.
Proof.
  intros Hy. induction x as [|c x IH]; intros Hx; [reflexivity|].
  cbn [absent_before]. apply andb_true_iff. split.
  - apply negb_true_iff, line_head_first_quote.
    apply first_quote_ok_skip; assumption.
  - apply IH. cbn [no_quote forallb] in Hx.
    apply andb_true_iff in Hx as [_ Hx]. exact Hx.
Qed.

(** *** The layout of the file *)

Definition day_lines (W : WeekSchedule) (l : list Day) : str :=
  concat (map (fun day => day_line day (W day)) l).

(** The preamble after the date. *)
Definition preamble_tail : str := newline ++ concat (tl (preamble [])).

Lemma file_text_layout (CURRENT_DATE : str) (W : WeekSchedule) :
  file_text CURRENT_DATE W
  = (pystr "# Schedule data saved on " ++ CURRENT_DATE ++ preamble_tail)
    ++ day_lines W DAYS.
Proof.
  unfold file_text, file_chunks. rewrite concat_app. f_equal.
  change (concat (preamble CURRENT_DATE))
    with ((pystr "# Schedule data saved on " ++ CURRENT_DATE ++ newline)
          ++ concat (tl (preamble []))).
  unfold preamble_tail. rewrite <- !app_assoc. reflexivity.
Qed.

Lemma absent_other_head (day other : Day) (rest : str) :
  other <> day ->
  absent_before (line_head day) (line_head other) rest = true.
Proof.
  intros H.
  destruct day, other; try (exfalso; apply H; reflexivity);
    vm_compute; reflexivity.
Qed.

Lemma absent_line_end (day : Day) (rest : str) :
  absent_before (line_head day) ([quote] ++ newline) rest = true.
Proof. destruct day; vm_compute; reflexivity. Qed.

Lemma absent_day_line (day other : Day) (day_data : DaySchedule) (rest : str) :
  other <> day ->
  absent_before (line_head day) (day_line other day_data) rest = true.
Proof.
  intros H. unfold day_line. do 2 rewrite absent_before_app.
  rewrite absent_other_head by exact H.
  rewrite absent_line_end, andb_true_r. cbn [andb].
  change (([quote] ++ newline) ++ rest) with (quote :: newline ++ rest).
  apply absent_before_quotes_ok, combined_data_quotes_ok.
Qed.

Lemma absent_day_lines (W : WeekSchedule) (day : Day) :
  forall l rest,
    ~ In day l ->
    absent_before (line_head day) (day_lines W l) rest = true.
Proof.
  induction l as [|other l IH]; intros rest H; [reflexivity|].
  unfold day_lines. cbn [map concat]. fold (day_lines W l).
  rewrite absent_before_app, absent_day_line, IH; [reflexivity | |].
  - intros Hin. apply H. right. exact Hin.
  - intros ->. apply H. left. reflexivity.
Qed.

Lemma absent_preamble (CURRENT_DATE : str) (day : Day) (rest : str) :
  no_quote CURRENT_DATE = true ->
  absent_before (line_head day)
    (pystr "# Schedule data saved on " ++ CURRENT_DATE ++ preamble_tail) rest
  = true.
Proof.
  intros Hdate. rewrite !absent_before_app.
  apply andb_true_iff. split; [|apply andb_true_iff; split].
  - destruct day; vm_compute; reflexivity.
  - apply absent_before_no_quote; [|exact Hdate].
    intros prev. vm_compute. reflexivity.
  - destruct day; vm_compute; reflexivity.
Qed.

Lemma DAYS_split (day : Day) :
  exists l1 l2, DAYS = l1 ++ day :: l2 /\ ~ In day l1.
Proof.
  destruct day;
    [ exists [], [Tues; Wed; Thur; Fri; Sat; Sun]
    | exists [Monday], [Wed; Thur; Fri; Sat; Sun]
    | exists [Monday; Tues], [Thur; Fri; Sat; Sun]
    | exists [Monday; Tues; Wed], [Fri; Sat; Sun]
    | exists [Monday; Tues; Wed; Thur], [Sat; Sun]
    | exists [Monday; Tues; Wed; Thur; Fri], [Sun]
    | exists [Monday; Tues; Wed; Thur; Fri; Sat], [] ];
    (split; [reflexivity | cbn [In]; intuition discriminate]).
Qed.

(** In the text [save_schedule_data] writes, the search for a day finds
    the line of that day and captures what was written for it. *)
Lemma find_entry_file_text (CURRENT_DATE : str) (W : WeekSchedule)
    (day : Day) :
  no_quote CURRENT_DATE = true ->
  find_entry day (file_text CURRENT_DATE W) = Some (combined_data (W day)).
Proof.
  intros Hdate. rewrite file_text_layout.
  destruct (DAYS_split day) as (l1 & l2 & Hdays & Hnotin). rewrite Hdays.
  unfold day_lines. rewrite map_app, concat_app. cbn [map concat].
  fold (day_lines W l1). fold (day_lines W l2).
  set (head := pystr "# Schedule data saved on " ++ CURRENT_DATE ++ preamble_tail).
  rewrite (app_assoc head).
  unfold find_entry, re_search, line_pattern.
  rewrite search_skip.
  2:{ rewrite absent_before_app. unfold head.
      rewrite absent_preamble by exact Hdate.
      rewrite absent_day_lines by exact Hnotin. reflexivity. }
  rewrite search_from_eq. fold (line_pattern day).
  unfold day_line. rewrite <- !app_assoc. cbn [app].
  destruct (exec_line_pattern day (rev (head ++ day_lines W l1) ++ [])
              (combined_data (W day)) (newline ++ day_lines W l2)
              (tokens_combined (W day))) as (st & Hst & Hgroup).
  rewrite Hst, Hgroup. reflexivity.
Qed.

(** *** The text read back from the file

    The file is read with universal newlines.  The records hold no carriage
    return, so that only the date of the first line can change. *)

Definition no_cr (s : str) : bool := forallb (fun c => negb (N.eqb c 13)) s.

Lemma universal_newlines_no_cr (s : str) :
  no_cr s = true -> universal_newlines s = s.
Proof.
  induction s as [|c s IH]; [reflexivity|].
  cbn [no_cr forallb universal_newlines]. intros H.
  apply andb_true_iff in H. destruct H as (Hc & Hs).
  destruct (N.eqb c 13); [discriminate|].
  rewrite (IH Hs). reflexivity.
Qed.

(** A character the sanitizer keeps, or a backslash. *)
Definition record_char (c : char) : bool :=
  negb (sanitize_class c) || N.eqb c backslash.

Definition record_text (s : str) : bool := forallb record_char s.

Lemma record_text_app (a b : str) :
  record_text (a ++ b) = record_text a && record_text b.
Proof. apply forallb_app. Qed.

Lemma record_text_flat_map (f : char -> str) (s : str) :
  (forall c, In c s -> record_text (f c) = true) ->
  record_text (flat_map f s) = true.
Proof.
  induction s as [|c s IH]; intros H; [reflexivity|].
  cbn [flat_map]. rewrite record_text_app, (H c (or_introl eq_refl)).
  apply IH. intros d Hd. apply H. right. exact Hd.
Qed.

Lemma record_text_sanitize (x : str) : record_text (sanitize_input x) = true.
Proof.
  rewrite sanitize_input_filter. apply forallb_forall. intros c Hc.
  apply filter_In in Hc. destruct Hc as (_ & Hc).
  unfold record_char. rewrite Hc. reflexivity.
Qed.

Lemma record_text_shell_escape (s : str) :
  record_text s = true -> record_text (shell_escape s) = true.
Proof.
  intros H. rewrite shell_escape_chars. apply record_text_flat_map.
  intros c Hc. unfold record_text in H. rewrite forallb_forall in H.
  specialize (H c Hc). unfold shell_escape_char.
  destruct (N.eqb backslash c); [reflexivity|].
  destruct (N.eqb quote c); [reflexivity|].
  cbn [record_text forallb]. rewrite H. reflexivity.
Qed.

Lemma record_text_dumps_string (x : str) :
  record_text (dumps_string (sanitize_input x)) = true.
Proof.
  unfold dumps_string.
  change (quote :: flat_map escape_char (sanitize_input x) ++ [quote])
    with ([quote] ++ flat_map escape_char (sanitize_input x) ++ [quote]).
  rewrite !record_text_app.
  assert (Hq : record_text [quote] = true) by reflexivity.
  rewrite Hq, andb_true_r. cbn [andb].
  apply record_text_flat_map. intros c Hc.
  pose proof (printable_sanitize x) as Hp. unfold printable in Hp.
  rewrite forallb_forall in Hp. rewrite (escape_char_printable c (Hp c Hc)).
  destruct (N.eqb c quote); [reflexivity|].
  destruct (N.eqb c backslash); [reflexivity|].
  pose proof (record_text_sanitize x) as Hr. unfold record_text in Hr.
  rewrite forallb_forall in Hr. cbn [record_text forallb].
  rewrite (Hr c Hc). reflexivity.
Qed.

Lemma record_text_dumps_plan (p : Plan) :
  record_text (dumps_plan (sanitize_plan p)) = true.
Proof.
  unfold dumps_plan, sanitize_plan. cbn [name details].
  rewrite !record_text_app, !record_text_dumps_string. reflexivity.
Qed.

Lemma record_text_join (l : list Plan) :
  record_text (join (pystr ", ") (map dumps_plan (map sanitize_plan l)))
  = true.
Proof.
  induction l as [|p l IH]; [reflexivity|].
  destruct l as [|q l]; [apply record_text_dumps_plan|].
  change (join (pystr ", ")
            (map dumps_plan (map sanitize_plan (p :: q :: l))))
    with (dumps_plan (sanitize_plan p) ++ pystr ", "
          ++ join (pystr ", ") (map dumps_plan (map sanitize_plan (q :: l)))).
  rewrite !record_text_app, record_text_dumps_plan, IH. reflexivity.
Qed.

Lemma record_text_dumps_plans (l : list Plan) :
  record_text (dumps_plans (valid_plans l)) = true.
Proof.
  rewrite valid_plans_filter. unfold dumps_plans.
  rewrite !record_text_app, record_text_join. reflexivity.
Qed.

Lemma record_text_no_cr (s : str) : record_text s = true -> no_cr s = true.
Proof.
  intros H. apply forallb_forall. intros c Hc.
  unfold record_text in H. rewrite forallb_forall in H. specialize (H c Hc).
  destruct (N.eqb c 13) eqn:E; [|reflexivity].
  apply N.eqb_eq in E. subst c. discriminate.
Qed.

Lemma record_text_combined (day_data : DaySchedule) :
  record_text (combined_data day_data) = true.
Proof.
  unfold combined_data. cbv zeta. rewrite !record_text_app.
  rewrite !record_text_shell_escape
    by first [apply record_text_sanitize | apply record_text_dumps_plans].
  reflexivity.
Qed.

Lemma no_cr_app (a b : str) : no_cr (a ++ b) = no_cr a && no_cr b.
Proof. apply forallb_app. Qed.

Lemma no_cr_day_lines (W : WeekSchedule) (l : list Day) :
  no_cr (day_lines W l) = true.
Proof.
  induction l as [|day l IH]; [reflexivity|].
  unfold day_lines. cbn [map concat]. fold (day_lines W l).
  unfold day_line. rewrite !no_cr_app, IH.
  rewrite (record_text_no_cr _ (record_text_combined (W day))).
  destruct day; reflexivity.
Qed.

Lemma universal_newlines_app (a b : str) :
  no_cr a = true -> universal_newlines (a ++ b) = a ++ universal_newlines b.
Proof.
  induction a as [|c a IH]; intros H; [reflexivity|].
  cbn [no_cr forallb] in H. apply andb_true_iff in H. destruct H as (Hc & Ha).
  cbn [app universal_newlines].
  destruct (N.eqb c 13); [discriminate|].
  rewrite (IH Ha). reflexivity.
Qed.

(** A line that ends with a line feed, in front of text without carriage
    return: the line feed and what follows it are read as they are. *)
Lemma universal_newlines_line (rest : str) :
  no_cr rest = true ->
  forall n x,
    length x <= n ->
    exists x',
      universal_newlines (x ++ 10%N :: rest) = x' ++ 10%N :: rest
      /\ (no_quote x = true -> no_quote x' = true).
Proof.
  intros Hrest.
  assert (Hnil : universal_newlines (10%N :: rest) = 10%N :: rest).
  { cbn [universal_newlines]. change (N.eqb 10 13) with false. cbv iota.
    rewrite (universal_newlines_no_cr rest Hrest). reflexivity. }
  induction n as [|n IH]; intros x Hlen.
  - destruct x; [|simpl in Hlen; lia].
    exists []. split; [exact Hnil | tauto].
  - destruct x as [|c x]; [exists []; split; [exact Hnil | tauto]|].
    cbn [length] in Hlen. cbn [app universal_newlines].
    destruct (N.eqb c 13) eqn:Ec.
    + destruct x as [|d x].
      * cbn [app]. change (N.eqb 10 10) with true. cbv iota.
        rewrite (universal_newlines_no_cr rest Hrest).
        exists []. split; [reflexivity | tauto].
      * cbn [app]. cbn [length] in Hlen. destruct (N.eqb d 10) eqn:Ed.
        -- destruct (IH x) as (x' & Hx' & Hq); [lia|].
           exists (10%N :: x'). split; [rewrite Hx'; reflexivity|].
           intros H. cbn [no_quote forallb] in H |- *.
           apply andb_true_iff in H. destruct H as (_ & H).
           apply andb_true_iff in H. destruct H as (_ & H).
           exact (Hq H).
        -- change (d :: x ++ 10%N :: rest) with ((d :: x) ++ 10%N :: rest).
           destruct (IH (d :: x)) as (x' & Hx' & Hq); [cbn [length]; lia|].
           exists (10%N :: x'). split; [rewrite Hx'; reflexivity|].
           intros H. cbn [no_quote forallb] in H.
           apply andb_true_iff in H. destruct H as (_ & H).
           change (no_quote (10%N :: x')) with (true && no_quote x').
           exact (Hq H).
    + destruct (IH x) as (x' & Hx' & Hq); [lia|].
      exists (c :: x'). split; [rewrite Hx'; reflexivity|].
      intros H. cbn [no_quote forallb] in H |- *.
      apply andb_true_iff in H. destruct H as (Hc & H).
      rewrite Hc. exact (Hq H).
Qed.

(** The text read back from the file written for [W] is the text written
    for [W] under a date in which the carriage returns are read as line
    feeds. *)
Lemma universal_newlines_file_text (CURRENT_DATE : str) (W : WeekSchedule) :
  no_quote CURRENT_DATE = true ->
  exists date,
    no_quote date = true
    /\ universal_newlines (file_text CURRENT_DATE W) = file_text date W.
Proof.
  intros Hdate.
  assert (Hrest : no_cr (concat (tl (preamble [])) ++ day_lines W DAYS)
                  = true)
    by (rewrite no_cr_app, no_cr_day_lines; reflexivity).
  destruct (universal_newlines_line _ Hrest (length CURRENT_DATE)
              CURRENT_DATE (le_n _)) as (date & Hu & Hq).
  exists date. split; [exact (Hq Hdate)|].
  rewrite !file_text_layout. unfold preamble_tail, newline.
  rewrite <- !app_assoc. cbn [app].
  rewrite universal_newlines_app by reflexivity.
  f_equal. exact Hu.
Qed.

(** What [load_schedule_data] returns for the text written for [W]: each
    day is normalized, as long as the sanitized study time and goals have
    no pipe. *)
Lemma load_saved (py_str : json -> str) (CURRENT_DATE : str)
    (W : WeekSchedule) (self : Manager) :
  no_quote CURRENT_DATE = true ->
  (forall day,
     no_pipe (sanitize_input (study_time (W day))) = true
     /\ no_pipe (sanitize_input (goals (W day))) = true) ->
  exists w,
    load_schedule_data py_str (Content (file_text CURRENT_DATE W)) self
    = (Returns w, mkManager w)
    /\ forall day, w day = normalized day (W day).
Proof.
  intros Hdate Hpipes.
  destruct (universal_newlines_file_text CURRENT_DATE W Hdate)
    as (date & Hdate' & Hu).
  destruct (load_schedule_data_content py_str (file_text CURRENT_DATE W) self)
    as (w & Hw & Hd).
  exists w. split; [exact Hw|]. intros day. rewrite Hd. unfold loaded.
  rewrite Hu.
  assert (Hr : decode_raises py_str (file_text date W) = false).
  { unfold decode_raises.
    destruct (existsb (day_raises py_str (file_text date W)) DAYS) eqn:E;
      [|reflexivity].
    apply existsb_exists in E. destruct E as (d & _ & Hraise).
    unfold day_raises in Hraise.
    rewrite find_entry_file_text in Hraise by exact Hdate'.
    unfold parse_raises in Hraise. destruct (Hpipes d) as [Hst Hg].
    rewrite parse_day_combined in Hraise by assumption. discriminate. }
  rewrite Hr. unfold decoded.
  rewrite find_entry_file_text by exact Hdate'. unfold day_result.
  destruct (Hpipes day) as [Hst Hg].
  rewrite parse_day_combined by assumption. reflexivity.
Qed.

(** *** Plans without a name, written and read back *)

(** The week without the plans whose name is empty after sanitization. *)
Definition without_unnamed (W : WeekSchedule) : WeekSchedule :=
  fun day =>
    set_plans
      (filter (fun p => truthy (sanitize_input (name p))) (plans (W day)))
      (W day).

Lemma valid_plans_without_unnamed (l : list Plan) :
  valid_plans (filter (fun p => truthy (sanitize_input (name p))) l)
  = valid_plans l.
Proof.
  induction l as [|p l IH]; [reflexivity|]. cbn [filter valid_plans].
  destruct (truthy (sanitize_input (name p))) eqn:E; [|exact IH].
  cbn [valid_plans]. rewrite E, IH. reflexivity.
Qed.

Lemma loaded_named (py_str : json -> str) (content : str) (day : Day) :
  Forall named (plans (loaded py_str content day)).
Proof.
  unfold loaded. destruct (decode_raises py_str (universal_newlines content)).
  - constructor.
  - apply decoded_named.
Qed.

(** A week with text the sanitizer and [clean_text] change, and with a
    plan whose name is empty after sanitization. *)
Definition messy_week : WeekSchedule :=
  fun day =>
    mkDay (pystr " 9:00-10:30 ") (pystr "read; then <write>")
      [mkPlan (pystr ";") (pystr "dropped");
       mkPlan (pystr "Gym") (pystr "6pm & later")].

(** C4: a plan whose name is empty after sanitization is neither written
    nor loaded.  The record [save_schedule_data] writes for a day holds,
    after the study time and the goals, the JSON of the plans with a name,
    sanitized and in their order, and of no other plan: the text written for
    a week is the text written for the week without its plans without a
    name.  Every schedule [load_schedule_data] returns has only plans with
    a name, whatever the file; so has the schedule read back from the text
    written for a week, and when the date has no double quote and the study
    times and goals have no pipe, its plans are exactly the plans with a
    name of the week, sanitized. *)
Theorem plan_name_invariant :
  forall (py_str : json -> str) (CURRENT_DATE : str) (W : WeekSchedule),
    (forall day,
       combined_data (W day)
       = shell_escape (sanitize_input (study_time (W day))) ++ pystr "|"
         ++ shell_escape (sanitize_input (goals (W day)))
         ++ PLAN_SAVE_SEPARATOR
         ++ shell_escape
              (dumps_plans
                 (map sanitize_plan
                    (filter (fun p => truthy (sanitize_input (name p)))
                       (plans (W day))))))
    /\ file_text CURRENT_DATE W = file_text CURRENT_DATE (without_unnamed W)
    /\ (forall (fs : FileState) (self : Manager),
          exists w,
            load_schedule_data py_str fs self = (Returns w, mkManager w)
            /\ forall day, Forall named (plans (w day)))
    /\ (forall self : Manager,
          exists w,
            load_schedule_data py_str (Content (file_text CURRENT_DATE W)) self
            = (Returns w, mkManager w)
            /\ (forall day, Forall named (plans (w day)))
            /\ (no_quote CURRENT_DATE = true ->
                (forall day,
                   no_pipe (sanitize_input (study_time (W day))) = true
                   /\ no_pipe (sanitize_input (goals (W day))) = true) ->
                forall day,
                  plans (w day)
                  = map sanitize_plan
                      (filter (fun p => truthy (sanitize_input (name p)))
                         (plans (W day))))).
Proof.
  intros py_str date W. split; [|split; [|split]].
  - intros day. unfold combined_data. cbv zeta.
    rewrite valid_plans_filter. reflexivity.
  - unfold file_text, file_chunks. f_equal. f_equal.
    apply map_ext. intros day. unfold day_line. f_equal. f_equal.
    unfold combined_data, without_unnamed. cbv zeta.
    cbn [study_time goals plans set_plans].
    rewrite valid_plans_without_unnamed. reflexivity.
  - intros fs self. destruct fs as [| |content].
    + exists initialize_default_schedule. split; [reflexivity|].
      intros day. constructor.
    + exists initialize_default_schedule. split; [reflexivity|].
      intros day. constructor.
    + destruct (load_schedule_data_content py_str content self)
        as (w & Hw & Hd).
      exists w. split; [exact Hw|].
      intros day. rewrite Hd. apply loaded_named.
  - intros self.
    destruct (load_schedule_data_content py_str (file_text date W) self)
      as (w & Hw & Hd).
    exists w. split; [exact Hw|]. split.
    + intros day. rewrite Hd. apply loaded_named.
    + intros Hdate Hpipes day.
      destruct (load_saved py_str date W self Hdate Hpipes)
        as (w' & Hw' & Hd').
      rewrite Hw in Hw'. injection Hw' as <-.
      rewrite Hd'. unfold normalized. cbn [plans].
      apply valid_plans_filter.
Qed.

(** The week above has the plan [;] with the details [dropped] on every
    day: the details are not in the text written for it, those of the plan
    [Gym] are, and the week read back has the plan [Gym] only. *)
Lemma unnamed_plan_not_written :
  contains (pystr "dropped") (file_text (pystr "2024-05-06") messy_week)
  = false
  /\ contains (pystr "6pm  later") (file_text (pystr "2024-05-06") messy_week)
     = true
  /\ exists w,
       load_schedule_data (fun _ => [])
         (Content (file_text (pystr "2024-05-06") messy_week))
         (mkManager initialize_default_schedule)
       = (Returns w, mkManager w)
       /\ plans (w Monday) = [mkPlan (pystr "Gym") (pystr "6pm  later")].
Proof.
  split; [vm_compute; reflexivity|]. split; [vm_compute; reflexivity|].
  eexists. split; [vm_compute; reflexivity|]. reflexivity.
Qed.

(** ** The round trip *)

Definition sanitized_plan (p : Plan) : Prop :=
  sanitize_input (name p) = name p
  /\ sanitize_input (details p) = details p
  /\ name p <> [].

(** The hypotheses of C1: the fields are sanitized and the plans have a
    name. *)
Definition sanitized_day (day_data : DaySchedule) : Prop :=
  sanitize_input (study_time day_data) = study_time day_data
  /\ sanitize_input (goals day_data) = goals day_data
  /\ Forall sanitized_plan (plans day_data).

(** What the decoder leaves unchanged besides: study time and goals without
    a pipe that [clean_text] does not alter, a study time that is not empty
    and does not contain [information]. *)
Definition clean_day (day_data : DaySchedule) : Prop :=
  no_pipe (study_time day_data) = true
  /\ no_pipe (goals day_data) = true
  /\ clean_text (study_time day_data) = study_time day_data
  /\ clean_text (goals day_data) = goals day_data
  /\ study_time day_data <> []
  /\ contains (pystr "information") (study_time day_data) = false.

Lemma valid_plans_sanitized (l : list Plan) :
  Forall sanitized_plan l -> valid_plans l = l.
Proof.
  induction 1 as [|p l (Hn & Hd & Hne) _ IH]; [reflexivity|].
  cbn [valid_plans]. rewrite Hn, Hd, IH.
  destruct p as [n d]. cbn [name details] in *.
  destruct n; [contradiction | reflexivity].
Qed.

Lemma normalized_clean (day : Day) (day_data : DaySchedule) :
  sanitized_day day_data -> clean_day day_data ->
  normalized day day_data = day_data.
Proof.
  intros (Hst & Hg & Hp) (_ & _ & Hcst & Hcg & Hne & Hinfo).
  unfold normalized. rewrite Hst, Hg, Hcst, Hcg, (valid_plans_sanitized _ Hp).
  unfold study_time_or_default. rewrite Hinfo.
  destruct day_data as [st g pl]. cbn [study_time goals plans] in *.
  destruct st; [contradiction | reflexivity].
Qed.

(** The week whose fields are all empty. *)
Definition empty_week : WeekSchedule := fun _ => mkDay [] [] [].

(** C1, as stated, fails: an empty study time is sanitized, and it is read
    back as the default study time of the day. *)
Lemma round_trip_empty_study_time :
  (forall day, sanitized_day (empty_week day))
  /\ exists w,
       fst (load_schedule_data (fun _ => [])
              (Content (file_text (pystr "2024-05-06") empty_week))
              (mkManager empty_week)) = Returns w
       /\ study_time (w Monday) = pystr "11:00-3:00"
       /\ w Monday <> empty_week Monday.
Proof.
  split.
  - intros day. repeat split. constructor.
  - eexists. split; [vm_compute; reflexivity|].
    split; [reflexivity | discriminate].
Qed.

(** C1, amended: a week whose fields are sanitized, whose plans have a
    name, whose study times and goals have no pipe and are left unchanged by
    [clean_text], and whose study times are neither empty nor contain
    [information], is read back unchanged from the text written for it. *)
Theorem save_load_round_trip :
  forall (py_str : json -> str) (CURRENT_DATE : str) (W : WeekSchedule)
         (self : Manager),
    no_quote CURRENT_DATE = true ->
    (forall day, sanitized_day (W day)) ->
    (forall day, clean_day (W day)) ->
    exists w,
      load_schedule_data py_str (Content (file_text CURRENT_DATE W)) self
      = (Returns w, mkManager w)
      /\ forall day, w day = W day.
Proof.
  intros py_str date W self Hdate Hsan Hclean.
  destruct (load_saved py_str date W self Hdate) as (w & Hw & Hd).
  { intros day. destruct (Hsan day) as (Hst & Hg & _).
    destruct (Hclean day) as (Hpst & Hpg & _).
    rewrite Hst, Hg. split; assumption. }
  exists w. split; [exact Hw|]. intros day. rewrite Hd.
  apply normalized_clean; [apply Hsan | apply Hclean].
Qed.

(** A week with a plan whose text has a comma and a double quote. *)
Definition sample_week : WeekSchedule :=
  fun day =>
    mkDay (DEFAULT_STUDY_TIMES day) (pystr "read, then write")
      [mkPlan (pystr "Work") (pystr "9-5, room " ++ [quote] ++ pystr "B" ++ [quote])].

Lemma save_load_round_trip_witness :
  exists w,
    load_schedule_data (fun _ => [])
      (Content (file_text (pystr "2024-05-06") sample_week))
      (mkManager initialize_default_schedule)
    = (Returns w, mkManager w)
    /\ forall day, w day = sample_week day.
Proof.
  apply (save_load_round_trip (fun _ => []) (pystr "2024-05-06") sample_week
           (mkManager initialize_default_schedule)).
  - reflexivity.
  - intros day. destruct day; repeat split;
      try (vm_compute; reflexivity);
      (constructor; [repeat split; try (vm_compute; reflexivity); discriminate
                    | constructor]).
  - intros day. destruct day; repeat split;
      try (vm_compute; reflexivity); discriminate.
Defined.

(** ** The e-mail check, in full *)

(** [steps r st st']: [r] matches from the position [st] to the position
    [st']. *)
Inductive steps : regex -> mstate -> mstate -> Prop :=
| steps_Eps (st : mstate) : steps Eps st st
| steps_Cls (p : char -> bool) (st : mstate) (c : char) (rest : str) :
    after st = c :: rest -> p c = true ->
    steps (Cls p) st (advance c rest st)
| steps_Cat (r1 r2 : regex) (st st1 st2 : mstate) :
    steps r1 st st1 -> steps r2 st1 st2 -> steps (Cat r1 r2) st st2
| steps_Alt_left (r1 r2 : regex) (st st' : mstate) :
    steps r1 st st' -> steps (Alt r1 r2) st st'
| steps_Alt_right (r1 r2 : regex) (st st' : mstate) :
    steps r2 st st' -> steps (Alt r1 r2) st st'
| steps_Star_stop (r : regex) (st : mstate) : steps (Star r) st st
| steps_Star_more (r : regex) (st st1 st2 : mstate) :
    steps r st st1 -> length (after st1) < length (after st) ->
    steps (Star r) st1 st2 -> steps (Star r) st st2
| steps_Grp (n : nat) (r : regex) (st st' : mstate) :
    steps r st st' -> steps (Grp n r) st (set_group n st st')
| steps_Bos (st : mstate) : before st = [] -> steps Bos st st
| steps_Eos (st : mstate) :
    after st = [] \/ after st = [10%N] -> steps Eos st st.

Lemma star_loop_sound {A : Type} (r : regex) (k : mstate -> option A) (x : A) :
  (forall st (k' : mstate -> option A),
     exec r st k' = Some x -> exists st', steps r st st' /\ k' st' = Some x) ->
  forall fuel st,
    star_loop (exec r) k fuel st = Some x ->
    exists st', steps (Star r) st st' /\ k st' = Some x.
Proof.
  intros IHr. induction fuel as [|fuel IH]; intros st H.
  - exists st. split; [constructor | exact H].
  - rewrite star_loop_S in H.
    destruct (exec r st _) as [y|] eqn:E.
    + injection H as ->. apply IHr in E as (st1 & Hstep & Hk).
      destruct (length (after st1) <? length (after st)) eqn:Hlt;
        [|discriminate].
      apply IH in Hk as (st2 & Hstar & Hk). exists st2. split; [|exact Hk].
      apply (steps_Star_more r st st1 st2 Hstep); [|exact Hstar].
      apply Nat.ltb_lt. exact Hlt.
    + exists st. split; [constructor | exact H].
Qed.

(** What [exec] returns comes from a match. *)
Lemma exec_sound {A : Type} (r : regex) :
  forall (x : A) st (k : mstate -> option A),
    exec r st k = Some x -> exists st', steps r st st' /\ k st' = Some x.
Proof.
  induction r as [|p|r1 IH1 r2 IH2|r1 IH1 r2 IH2|r IH|n r IH| |];
    intros x st k H.
  - exists st. split; [constructor | exact H].
  - rewrite exec_Cls in H. destruct (after st) as [|c rest] eqn:E;
      [discriminate|].
    destruct (p c) eqn:Hp; [|discriminate].
    exists (advance c rest st). split; [constructor; assumption | exact H].
  - rewrite exec_Cat in H. apply IH1 in H as (st1 & H1 & H).
    apply IH2 in H as (st2 & H2 & H). exists st2.
    split; [econstructor; eassumption | exact H].
  - rewrite exec_Alt in H. destruct (exec r1 st k) as [y|] eqn:E.
    + injection H as ->. apply IH1 in E as (st' & H1 & Hk).
      exists st'. split; [apply steps_Alt_left, H1 | exact Hk].
    + apply IH2 in H as (st' & H2 & Hk).
      exists st'. split; [apply steps_Alt_right, H2 | exact Hk].
  - apply (star_loop_sound r k x (IH x) _ _ H).
  - change (exec (Grp n r) st k)
      with (exec r st (fun st' => k (set_group n st st'))) in H.
    apply IH in H as (st' & H1 & Hk).
    exists (set_group n st st'). split; [constructor; exact H1 | exact Hk].
  - cbn [exec] in H. destruct (before st) eqn:E; [|discriminate].
    exists st. split; [constructor; exact E | exact H].
  - cbn [exec] in H. destruct (after st) as [|c [|d rest]] eqn:E;
      try discriminate.
    + exists st. split; [constructor; left; exact E | exact H].
    + destruct (N.eqb_spec c 10) as [->|]; [|discriminate].
      exists st. split; [constructor; right; exact E | exact H].
Qed.

(** A match makes [exec] return. *)
Lemma exec_complete (r : regex) (st st' : mstate) :
  steps r st st' ->
  forall (A : Type) (k : mstate -> option A) (x : A),
    k st' = Some x ->
    (exists y, exec r st k = Some y)
    /\ forall r0, r = Star r0 ->
         forall fuel, length (after st) <= fuel ->
           exists y, star_loop (exec r0) k fuel st = Some y.
Proof.
  induction 1 as [st|p st c rest Ha Hp|r1 r2 st st1 st2 _ IH1 _ IH2
                  |r1 r2 st st' _ IH|r1 r2 st st' _ IH|r st
                  |r st st1 st2 _ IH1 Hlt _ IH2|n r st st' _ IH|st Hb|st He];
    intros A k x Hk.
  - split; [exists x; exact Hk | discriminate].
  - split; [|discriminate]. exists x. rewrite exec_Cls, Ha, Hp. exact Hk.
  - split; [|discriminate]. rewrite exec_Cat.
    destruct (IH2 A k x Hk) as [[y Hy] _].
    destruct (IH1 A (fun st' => exec r2 st' k) y Hy) as [Hex _]. exact Hex.
  - split; [|discriminate]. rewrite exec_Alt.
    destruct (IH A k x Hk) as [[y Hy] _]. rewrite Hy. exists y. reflexivity.
  - split; [|discriminate]. rewrite exec_Alt.
    destruct (exec r1 st k) as [y|]; [exists y; reflexivity|].
    destruct (IH A k x Hk) as [Hex _]. exact Hex.
  - assert (Hloop : forall fuel,
              exists y, star_loop (exec r) k fuel st = Some y).
    { intros [|fuel]; [exists x; exact Hk|]. rewrite star_loop_S.
      destruct (exec r st _) as [y|]; [exists y | exists x]; auto. }
    split; [apply Hloop|]. intros r0 E. injection E as <-.
    intros fuel _. apply Hloop.
  - assert (Hloop : forall fuel, length (after st) <= fuel ->
              exists y, star_loop (exec r) k fuel st = Some y).
    { intros [|fuel] Hf; [lia|]. rewrite star_loop_S.
      destruct (IH2 A k x Hk) as [_ Hstar].
      destruct (Hstar r eq_refl fuel) as [y Hy]; [lia|].
      destruct (IH1 A (fun st' =>
                  if length (after st') <? length (after st)
                  then star_loop (exec r) k fuel st' else None) y) as [[z Hz] _].
      { apply Nat.ltb_lt in Hlt. rewrite Hlt. exact Hy. }
      rewrite Hz. exists z. reflexivity. }
    split; [apply Hloop; lia|]. intros r0 E. injection E as <-. exact Hloop.
  - split; [|discriminate].
    change (exec (Grp n r) st k)
      with (exec r st (fun st' => k (set_group n st st'))).
    destruct (IH A (fun st' => k (set_group n st st')) x Hk) as [Hex _].
    exact Hex.
  - split; [|discriminate]. exists x. cbn [exec]. rewrite Hb. exact Hk.
  - split; [|discriminate]. exists x. cbn [exec].
    destruct He as [-> | ->]; exact Hk.
Qed.

(** [re.match] finds a match exactly when there is one. *)
Lemma re_match_steps (r : regex) (s : str) :
  (exists m, re_match r s = Some m)
  <-> exists st', steps r (MState [] s []) st'.
Proof.
  unfold re_match. split.
  - intros [m H]. apply exec_sound in H as (st' & H & _). exists st'. exact H.
  - intros [st' H].
    destruct (exec_complete r _ _ H mstate Some st' eq_refl) as [Hex _].
    exact Hex.
Qed.

Lemma steps_Cat_inv (r1 r2 : regex) (st st' : mstate) :
  steps (Cat r1 r2) st st' ->
  exists st1, steps r1 st st1 /\ steps r2 st1 st'.
Proof. intros H. inversion H; subst. eexists. split; eassumption. Qed.

Lemma steps_Cls_inv (p : char -> bool) (st st' : mstate) :
  steps (Cls p) st st' ->
  exists c, after st = c :: after st' /\ p c = true.
Proof.
  intros H. inversion H as [|p' st0 c rest Ha Hp| | | | | | | |]; subst.
  exists c. split; [exact Ha | exact Hp].
Qed.

Lemma steps_Cls_intro (p : char -> bool) (st : mstate) (c : char) (rest : str) :
  after st = c :: rest -> p c = true ->
  exists st', steps (Cls p) st st' /\ after st' = rest.
Proof.
  intros Ha Hp. exists (advance c rest st).
  split; [constructor; assumption | reflexivity].
Qed.

Lemma steps_run_inv (p : char -> bool) (st st' : mstate) :
  steps (Star (Cls p)) st st' ->
  exists ds, after st = ds ++ after st' /\ forallb p ds = true.
Proof.
  intros H. remember (Star (Cls p)) as r eqn:Er.
  induction H as [| | | | |r st|r st st1 st2 H1 _ Hlt _ IH| | |];
    try discriminate; injection Er as ->.
  - exists []. split; reflexivity.
  - apply steps_Cls_inv in H1 as (c & Ha & Hp).
    destruct (IH eq_refl) as (ds & Hds & Hall).
    exists (c :: ds). split.
    + rewrite Ha, Hds. reflexivity.
    + cbn [forallb]. rewrite Hp, Hall. reflexivity.
Qed.

Lemma steps_run_intro (p : char -> bool) (rest : str) :
  forall ds st,
    after st = ds ++ rest -> forallb p ds = true ->
    exists st', steps (Star (Cls p)) st st' /\ after st' = rest.
Proof.
  induction ds as [|c ds IH]; intros st Ha Hall.
  - exists st. split; [constructor | exact Ha].
  - cbn [forallb] in Hall. apply andb_true_iff in Hall as [Hp Hall].
    destruct (IH (advance c (ds ++ rest) st) eq_refl Hall) as (st' & Hs & Hr).
    exists st'. split; [|exact Hr].
    apply (steps_Star_more _ st (advance c (ds ++ rest) st) st');
      [constructor; assumption | | exact Hs].
    rewrite Ha. cbn [advance after app length]. lia.
Qed.

Lemma steps_Lit_inv (l : str) :
  forall st st', steps (Lit l) st st' -> after st = l ++ after st'.
Proof.
  induction l as [|c l IH]; intros st st' H; cbn [Lit] in H.
  - inversion H; subst. reflexivity.
  - apply steps_Cat_inv in H as (st1 & H1 & H2).
    apply steps_Cls_inv in H1 as (x & Ha & Hx). apply N.eqb_eq in Hx.
    subst x. rewrite Ha, (IH _ _ H2). reflexivity.
Qed.

Lemma steps_Lit_intro (l rest : str) :
  forall st,
    after st = l ++ rest ->
    exists st', steps (Lit l) st st' /\ after st' = rest.
Proof.
  induction l as [|c l IH]; intros st Ha; cbn [Lit].
  - exists st. split; [constructor | exact Ha].
  - destruct (IH (advance c (l ++ rest) st) eq_refl) as (st' & Hs & Hr).
    exists st'. split; [|exact Hr].
    apply (steps_Cat _ _ st (advance c (l ++ rest) st) st'); [|exact Hs].
    constructor; [exact Ha | apply N.eqb_refl].
Qed.

Lemma steps_Bos_inv (st st' : mstate) :
  steps Bos st st' -> st' = st.
Proof. intros H. inversion H; subst. reflexivity. Qed.

Lemma steps_Eos_inv (st st' : mstate) :
  steps Eos st st' -> after st' = [] \/ after st' = [10%N].
Proof. intros H. inversion H; subst. assumption. Qed.

Lemma email_pattern_shape (s : str) (st' : mstate) :
  steps email_pattern (MState [] s []) st' ->
  exists s0,
    s = s0 ++ after st' /\ email_shape s0
    /\ (after st' = [] \/ after st' = [10%N]).
Proof.
  unfold email_pattern, Plus, AtLeast2. intros H.
  apply steps_Cat_inv in H as (s1 & H1 & H).
  apply steps_Bos_inv in H1. subst s1.
  apply steps_Cat_inv in H as (s2 & H2 & H).
  apply steps_Cat_inv in H2 as (s2' & Hc & Hr).
  apply steps_Cls_inv in Hc as (c & Hc & Hpc).
  apply steps_run_inv in Hr as (l & Hl & Hpl).
  apply steps_Cat_inv in H as (s3 & H3 & H).
  apply steps_Lit_inv in H3.
  apply steps_Cat_inv in H as (s4 & H4 & H).
  apply steps_Cat_inv in H4 as (s4' & Hd & Hr).
  apply steps_Cls_inv in Hd as (d & Hd & Hpd).
  apply steps_run_inv in Hr as (ds & Hds & Hpds).
  apply steps_Cat_inv in H as (s5 & H5 & H).
  apply steps_Lit_inv in H5.
  apply steps_Cat_inv in H as (s6 & H6 & H).
  apply steps_Cat_inv in H6 as (s6' & Ha & Hr).
  apply steps_Cls_inv in Ha as (a & Ha & Hpa).
  apply steps_Cat_inv in Hr as (s6'' & Hb & Hr).
  apply steps_Cls_inv in Hb as (b & Hb & Hpb).
  apply steps_run_inv in Hr as (t & Ht & Hpt).
  pose proof (steps_Eos_inv _ _ H) as He.
  assert (Hsame : after s6 = after st') by (inversion H; reflexivity).
  rewrite Hsame in Ht.
  cbn [after] in Hc. rewrite Hl, H3, Hd, Hds, H5, Ha, Hb, Ht in Hc.
  exists ((c :: l) ++ pystr "@" ++ (d :: ds) ++ pystr "." ++ a :: b :: t).
  split; [|split; [|exact He]].
  - rewrite Hc. rewrite <- ?app_assoc. cbn [app].
    rewrite <- ?app_assoc. reflexivity.
  - exists (c :: l), (d :: ds), (a :: b :: t).
    split; [reflexivity|]. split; [discriminate|].
    split; [cbn [forallb]; rewrite Hpc, Hpl; reflexivity|].
    split; [discriminate|].
    split; [cbn [forallb]; rewrite Hpd, Hpds; reflexivity|].
    split; [cbn [length]; lia|].
    cbn [forallb]. rewrite Hpa, Hpb, Hpt. reflexivity.
Qed.

Lemma email_shape_pattern (s0 e : str) :
  email_shape s0 -> e = [] \/ e = [10%N] ->
  exists st', steps email_pattern (MState [] (s0 ++ e) []) st'.
Proof.
  intros (l & d & t & Hs0 & Hl & Hpl & Hd & Hpd & Ht & Hpt) He.
  destruct l as [|c l]; [contradiction|].
  destruct d as [|x d]; [contradiction|].
  destruct t as [|a [|b t]]; try (simpl in Ht; lia).
  cbn [forallb] in Hpl, Hpd, Hpt.
  apply andb_true_iff in Hpl as [Hpc Hpl].
  apply andb_true_iff in Hpd as [Hpx Hpd].
  apply andb_true_iff in Hpt as [Hpa Hpt].
  apply andb_true_iff in Hpt as [Hpb Hpt].
  subst s0.
  set (st0 := MState [] (((c :: l) ++ pystr "@" ++ (x :: d) ++ pystr "."
                           ++ a :: b :: t) ++ e) []).
  assert (Ha0 : after st0
                = c :: l ++ pystr "@" ++ x :: d ++ pystr "."
                    ++ a :: b :: t ++ e).
  { unfold st0. cbn [after]. rewrite <- ?app_assoc. cbn [app].
    rewrite <- ?app_assoc. reflexivity. }
  destruct (steps_Cls_intro email_local st0 c _ Ha0 Hpc) as (s1 & H1 & A1).
  destruct (steps_run_intro email_local _ l s1 A1 Hpl) as (s2 & H2 & A2).
  destruct (steps_Lit_intro (pystr "@") _ s2 A2) as (s3 & H3 & A3).
  destruct (steps_Cls_intro email_domain s3 x _ A3 Hpx) as (s4 & H4 & A4).
  destruct (steps_run_intro email_domain _ d s4 A4 Hpd) as (s5 & H5 & A5).
  destruct (steps_Lit_intro (pystr ".") _ s5 A5) as (s6 & H6 & A6).
  destruct (steps_Cls_intro alpha s6 a _ A6 Hpa) as (s7 & H7 & A7).
  destruct (steps_Cls_intro alpha s7 b _ A7 Hpb) as (s8 & H8 & A8).
  destruct (steps_run_intro alpha _ t s8 A8 Hpt) as (s9 & H9 & A9).
  exists s9. unfold email_pattern, Plus, AtLeast2.
  eapply steps_Cat; [constructor; reflexivity|].
  eapply steps_Cat; [eapply steps_Cat; eassumption|].
  eapply steps_Cat; [eassumption|].
  eapply steps_Cat; [eapply steps_Cat; eassumption|].
  eapply steps_Cat; [eassumption|].
  eapply steps_Cat;
    [eapply steps_Cat; [eassumption | eapply steps_Cat; eassumption]|].
  constructor. rewrite A9. exact He.
Qed.

(** [is_valid_email] accepts the shape C8 describes, and that shape
    followed by one newline, and nothing else. *)
Lemma is_valid_email_iff (s : str) :
  is_valid_email s = true
  <-> email_shape s \/ exists s0, s = s0 ++ newline /\ email_shape s0.
Proof.
  split.
  - unfold is_valid_email. destruct (negb (truthy s)); [discriminate|].
    destruct (re_match email_pattern s) as [m|] eqn:E; [|discriminate].
    intros _.
    assert (Hex : exists m, re_match email_pattern s = Some m)
      by (exists m; exact E).
    apply re_match_steps in Hex as (st' & Hsteps).
    apply email_pattern_shape in Hsteps as (s0 & Hs & Hshape & [He|He]);
      rewrite He in Hs.
    + left. rewrite app_nil_r in Hs. subst s0. exact Hshape.
    + right. exists s0. split; assumption.
  - intros H.
    assert (Hm : exists m, re_match email_pattern s = Some m).
    { apply re_match_steps. destruct H as [H | (s0 & -> & H)].
      - rewrite <- (app_nil_r s). apply email_shape_pattern; [exact H|].
        left. reflexivity.
      - apply email_shape_pattern; [exact H | right; reflexivity]. }
    assert (Hne : truthy s = true).
    { destruct H as [H | (s0 & -> & H)];
        destruct H as (l & d & t & -> & Hl & _);
        destruct l; try contradiction; reflexivity. }
    unfold is_valid_email. rewrite Hne. cbn [negb].
    destruct Hm as [m ->]. reflexivity.
Qed.

(** ** The fuel of the JSON scanner *)

Lemma skip_ws_length (s : str) : length (skip_ws s) <= length s.
Proof.
  induction s as [|c s IH]; [apply le_n|]. cbn [skip_ws].
  destruct (is_ws c); cbn [length]; lia.
Qed.

Lemma steps_shorter (r : regex) (st st' : mstate) :
  steps r st st' -> length (after st') <= length (after st).
Proof.
  induction 1 as [st|p st c rest Ha Hp|r1 r2 st st1 st2 _ IH1 _ IH2
                 |r1 r2 st st' _ IH|r1 r2 st st' _ IH|r st
                 |r st st1 st2 _ IH1 Hlt _ IH2|n r st st' _ IH|st Hb|st He];
    try apply le_n; try lia.
  - rewrite Ha. cbn [advance after length]. lia.
  - exact IH.
Qed.

(** A number has at least one character. *)
Lemma number_consumes (s : str) (st : mstate) :
  re_match NUMBER_RE s = Some st -> length (after st) < length s.
Proof.
  unfold re_match. intros H.
  apply exec_sound in H. destruct H as (st' & H & Hst). injection Hst as <-.
  unfold NUMBER_RE in H.
  apply steps_Cat_inv in H. destruct H as (st1 & H1 & H2).
  apply steps_shorter in H2.
  inversion H1 as [| | | | | | |n r st0 st1' Hg| |]; subst.
  cbn [set_group after] in H2.
  apply steps_Cat_inv in Hg. destruct Hg as (st2 & Hsign & Hint).
  apply steps_shorter in Hsign. cbn [after] in Hsign.
  inversion Hint as [| | |r1 r2 st3 st4 Hzero|r1 r2 st3 st4 Hdigits| | | | |];
    subst.
  - apply (steps_Lit_inv (pystr "0")) in Hzero. rewrite Hzero in Hsign.
    rewrite length_app in Hsign. cbn [length pystr list_ascii_of_string map]
      in Hsign. lia.
  - apply steps_Cat_inv in Hdigits. destruct Hdigits as (st5 & Hfirst & Hmore).
    apply steps_Cls_inv in Hfirst. destruct Hfirst as (c & Ha & _).
    apply steps_shorter in Hmore. rewrite Ha in Hsign. cbn [length] in Hsign.
    lia.
Qed.

Lemma decode_uXXXX_length (s : str) (u : N) (rest : str) :
  decode_uXXXX s = Some (u, rest) -> length s = 4 + length rest.
Proof.
  unfold decode_uXXXX.
  destruct s as [|a [|b [|c [|d s]]]]; try discriminate.
  destruct (hex_value a), (hex_value b), (hex_value c), (hex_value d);
    try discriminate.
  intros H. injection H as _ <-. reflexivity.
Qed.

Lemma unicode_escape_length (s : str) (u : char) (rest : str) :
  unicode_escape s = Some (u, rest) -> length rest < length s.
Proof.
  unfold unicode_escape.
  destruct (decode_uXXXX s) as [[uni rest1]|] eqn:E1; [|discriminate].
  apply decode_uXXXX_length in E1.
  assert (Hplain : Some (uni, rest1) = Some (u, rest) ->
                   length rest < length s)
    by (intros H; injection H as _ <-; lia).
  destruct (N.leb 55296 uni && N.leb uni 56319); [|exact Hplain].
  destruct rest1 as [|b [|x rest2]]; try exact Hplain.
  destruct (N.eqb b backslash && N.eqb x (ch "u")); [|exact Hplain].
  destruct (decode_uXXXX rest2) as [[uni2 rest3]|] eqn:E2; [|discriminate].
  apply decode_uXXXX_length in E2.
  destruct (N.leb 56320 uni2 && N.leb uni2 57343); [|exact Hplain].
  intros H. injection H as _ <-. cbn [length] in E1. lia.
Qed.

Lemma scanstring_consumes (fuel : nat) :
  forall s acc x rest,
    scanstring fuel s acc = Some (x, rest) -> length rest < length s.
Proof.
  induction fuel as [|fuel IH]; intros s acc x rest H; [discriminate|].
  cbn [scanstring] in H. destruct s as [|c s]; [discriminate|].
  cbn [length]. destruct (N.eqb c quote).
  - injection H as _ <-. lia.
  - destruct (N.eqb c backslash).
    + destruct s as [|e s]; [discriminate|]. cbn [length].
      destruct (N.eqb e (ch "u")).
      * destruct (unicode_escape s) as [[u rest2]|] eqn:E; [|discriminate].
        apply unicode_escape_length in E. apply IH in H. lia.
      * destruct (simple_escape e); [|discriminate]. apply IH in H. lia.
    + destruct (N.ltb c 32); [discriminate|]. apply IH in H. lia.
Qed.

Lemma keyword_consumes (kw : string) (v v' : json) (s rest : str) :
  keyword kw v s = Some (v', rest) -> pystr kw <> [] ->
  length rest < length s.
Proof.
  unfold keyword. intros H Hkw.
  destruct (strip_prefix (pystr kw) s) as [r|] eqn:E; [|discriminate].
  injection H as _ <-. apply strip_prefix_Some in E. subst s.
  rewrite length_app. destruct (pystr kw); [contradiction|].
  cbn [length]. lia.
Qed.

Lemma scan_atom_consumes (s : str) (v : json) (rest : str) :
  scan_atom s = Returns (v, rest) -> length rest < length s.
Proof.
  unfold scan_atom. intros H.
  destruct (keyword "null" JNull s) as [[v1 r1]|] eqn:E1.
  { injection H as <- <-. apply (keyword_consumes _ _ _ _ _ E1). discriminate. }
  destruct (keyword "true" (JBool true) s) as [[v2 r2]|] eqn:E2.
  { injection H as <- <-. apply (keyword_consumes _ _ _ _ _ E2). discriminate. }
  destruct (keyword "false" (JBool false) s) as [[v3 r3]|] eqn:E3.
  { injection H as <- <-. apply (keyword_consumes _ _ _ _ _ E3). discriminate. }
  destruct (re_match NUMBER_RE s) as [st|] eqn:En.
  { apply number_consumes in En. cbv zeta in H.
    destruct (truthy _ || truthy _).
    - injection H as _ <-. exact En.
    - destruct (MAX_STR_DIGITS <? _); [discriminate|].
      injection H as _ <-. exact En. }
  destruct (keyword "NaN" (JNum (pystr "NaN")) s) as [[v4 r4]|] eqn:E4.
  { injection H as <- <-. apply (keyword_consumes _ _ _ _ _ E4). discriminate. }
  destruct (keyword "Infinity" (JNum (pystr "Infinity")) s)
    as [[v5 r5]|] eqn:E5.
  { injection H as <- <-. apply (keyword_consumes _ _ _ _ _ E5). discriminate. }
  destruct (keyword "-Infinity" (JNum (pystr "-Infinity")) s)
    as [[v6 r6]|] eqn:E6; [|discriminate].
  injection H as <- <-. apply (keyword_consumes _ _ _ _ _ E6). discriminate.
Qed.

Lemma scan_once_unfold (fuel depth : nat) (c : char) (rest : str) :
  scan_once (S fuel) depth (c :: rest)
  = if N.eqb c quote then
      match scanstring (S (length rest)) rest [] with
      | Some (x, rest') => Returns (JStr x, rest')
      | None => Raises JSONDecodeError
      end
    else if N.eqb c (ch "{") then
      match depth with
      | O => Raises RecursionError
      | S depth' =>
          match skip_ws rest with
          | c' :: rest' =>
              if N.eqb c' (ch "}") then Returns (JObj [], rest')
              else if N.eqb c' quote then scan_members fuel depth' rest' []
              else Raises JSONDecodeError
          | [] => Raises JSONDecodeError
          end
      end
    else if N.eqb c (ch "[") then
      match depth with
      | O => Raises RecursionError
      | S depth' =>
          match skip_ws rest with
          | c' :: rest' =>
              if N.eqb c' (ch "]") then Returns (JArr [], rest')
              else scan_items fuel depth' (c' :: rest') []
          | [] => Raises JSONDecodeError
          end
      end
    else scan_atom (c :: rest).
Proof. reflexivity. Qed.

(** What the scanner returns with a value is shorter than what it was
    given. *)
Lemma scan_consumes (fuel : nat) :
  forall depth s,
    (forall v rest,
       scan_once fuel depth s = Returns (v, rest) -> length rest < length s)
    /\ (forall acc v rest,
          scan_items fuel depth s acc = Returns (v, rest) ->
          length rest < length s)
    /\ (forall acc v rest,
          scan_members fuel depth s acc = Returns (v, rest) ->
          length rest < length s).
Proof.
  induction fuel as [|fuel IH]; intros depth s.
  - repeat split; intros; discriminate.
  - split; [|split].
    + intros v rest H. destruct s as [|c s]; [discriminate|].
      rewrite scan_once_unfold in H. cbn [length].
      pose proof (skip_ws_length s) as Hws.
      destruct (N.eqb c quote).
      { destruct (scanstring (S (length s)) s []) as [[x r]|] eqn:E;
          [|discriminate].
        injection H as _ <-. apply scanstring_consumes in E. lia. }
      destruct (N.eqb c (ch "{")).
      { destruct depth as [|depth]; [discriminate|].
        destruct (skip_ws s) as [|c' rest']; [discriminate|].
        cbn [length] in Hws.
        destruct (N.eqb c' (ch "}")); [injection H as _ <-; lia|].
        destruct (N.eqb c' quote); [|discriminate].
        apply (proj2 (proj2 (IH depth rest'))) in H. lia. }
      destruct (N.eqb c (ch "[")).
      { destruct depth as [|depth]; [discriminate|].
        destruct (skip_ws s) as [|c' rest']; [discriminate|].
        cbn [length] in Hws.
        destruct (N.eqb c' (ch "]")); [injection H as _ <-; lia|].
        apply (proj1 (proj2 (IH depth (c' :: rest')))) in H.
        cbn [length] in H. lia. }
      apply scan_atom_consumes in H. exact H.
    + intros acc v rest H. rewrite scan_items_S in H.
      destruct (scan_once fuel depth s) as [[v0 r0]|e] eqn:E; [|discriminate].
      apply (proj1 (IH depth s)) in E.
      pose proof (skip_ws_length r0) as Hws.
      destruct (skip_ws r0) as [|c rest']; [discriminate|].
      cbn [length] in Hws.
      destruct (N.eqb c (ch "]")); [injection H as _ <-; lia|].
      destruct (N.eqb c (ch ",")); [|discriminate].
      apply (proj1 (proj2 (IH depth (skip_ws rest')))) in H.
      pose proof (skip_ws_length rest'). lia.
    + intros acc v rest H. rewrite scan_members_S in H.
      destruct (scanstring (S (length s)) s []) as [[key r]|] eqn:Ek;
        [|discriminate].
      apply scanstring_consumes in Ek.
      pose proof (skip_ws_length r) as Hws.
      destruct (skip_ws r) as [|c rest1]; [discriminate|].
      cbn [length] in Hws.
      destruct (N.eqb c (ch ":")); [|discriminate].
      destruct (scan_once fuel depth (skip_ws rest1)) as [[v0 rest2]|e] eqn:E;
        [|discriminate].
      apply (proj1 (IH depth (skip_ws rest1))) in E.
      pose proof (skip_ws_length rest1) as Hws1.
      pose proof (skip_ws_length rest2) as Hws2.
      destruct (skip_ws rest2) as [|c' rest3]; [discriminate|].
      cbn [length] in Hws2.
      destruct (N.eqb c' (ch "}")); [injection H as _ <-; lia|].
      destruct (N.eqb c' (ch ",")); [|discriminate].
      pose proof (skip_ws_length rest3) as Hws3.
      destruct (skip_ws rest3) as [|q rest4]; [discriminate|].
      cbn [length] in Hws3.
      destruct (N.eqb q quote); [|discriminate].
      apply (proj2 (proj2 (IH depth rest4))) in H. lia.
Qed.

(** With fuel beyond twice the length of the text, one more unit of fuel
    changes nothing. *)
Lemma scan_stable (fuel : nat) :
  forall depth s,
    (2 * length s < fuel ->
     scan_once (S fuel) depth s = scan_once fuel depth s)
    /\ (forall acc,
          2 * length s + 1 < fuel ->
          scan_items (S fuel) depth s acc = scan_items fuel depth s acc)
    /\ (forall acc,
          2 * length s + 1 < fuel ->
          scan_members (S fuel) depth s acc = scan_members fuel depth s acc).
Proof.
  induction fuel as [|fuel IH]; intros depth s.
  - repeat split; intros; lia.
  - split; [|split].
    + intros Hf. destruct s as [|c s]; [reflexivity|].
      rewrite !scan_once_unfold. cbn [length] in Hf.
      pose proof (skip_ws_length s) as Hws.
      destruct (N.eqb c quote); [reflexivity|].
      destruct (N.eqb c (ch "{")).
      { destruct depth as [|depth]; [reflexivity|].
        destruct (skip_ws s) as [|c' rest']; [reflexivity|].
        cbn [length] in Hws.
        destruct (N.eqb c' (ch "}")); [reflexivity|].
        destruct (N.eqb c' quote); [|reflexivity].
        apply (proj2 (proj2 (IH depth rest'))). lia. }
      destruct (N.eqb c (ch "[")); [|reflexivity].
      destruct depth as [|depth]; [reflexivity|].
      destruct (skip_ws s) as [|c' rest'] eqn:E; [reflexivity|].
      destruct (N.eqb c' (ch "]")); [reflexivity|].
      apply (proj1 (proj2 (IH depth (c' :: rest')))). lia.
    + intros acc Hf.
      rewrite (scan_items_S (S fuel)), (scan_items_S fuel).
      rewrite (proj1 (IH depth s)) by lia.
      destruct (scan_once fuel depth s) as [[v0 r0]|e] eqn:E; [|reflexivity].
      apply (proj1 (scan_consumes fuel depth s)) in E.
      pose proof (skip_ws_length r0) as Hws.
      destruct (skip_ws r0) as [|c rest']; [reflexivity|].
      cbn [length] in Hws.
      destruct (N.eqb c (ch "]")); [reflexivity|].
      destruct (N.eqb c (ch ",")); [|reflexivity].
      pose proof (skip_ws_length rest').
      apply (proj1 (proj2 (IH depth (skip_ws rest')))). lia.
    + intros acc Hf.
      rewrite (scan_members_S (S fuel)), (scan_members_S fuel).
      destruct (scanstring (S (length s)) s []) as [[key r]|] eqn:Ek;
        [|reflexivity].
      apply scanstring_consumes in Ek.
      pose proof (skip_ws_length r) as Hws.
      destruct (skip_ws r) as [|c rest1]; [reflexivity|].
      cbn [length] in Hws.
      destruct (N.eqb c (ch ":")); [|reflexivity].
      pose proof (skip_ws_length rest1) as Hws1.
      rewrite (proj1 (IH depth (skip_ws rest1))) by lia.
      destruct (scan_once fuel depth (skip_ws rest1)) as [[v0 rest2]|e] eqn:E;
        [|reflexivity].
      apply (proj1 (scan_consumes fuel depth (skip_ws rest1))) in E.
      pose proof (skip_ws_length rest2) as Hws2.
      destruct (skip_ws rest2) as [|c' rest3]; [reflexivity|].
      cbn [length] in Hws2.
      destruct (N.eqb c' (ch "}")); [reflexivity|].
      destruct (N.eqb c' (ch ",")); [|reflexivity].
      pose proof (skip_ws_length rest3) as Hws3.
      destruct (skip_ws rest3) as [|q rest4]; [reflexivity|].
      cbn [length] in Hws3.
      destruct (N.eqb q quote); [|reflexivity].
      apply (proj2 (proj2 (IH depth rest4))). lia.
Qed.

Lemma scan_once_more_fuel (n fuel depth : nat) (s : str) :
  2 * length s < fuel ->
  scan_once (n + fuel) depth s = scan_once fuel depth s.
Proof.
  intros H. induction n as [|n IH]; [reflexivity|].
  cbn [Nat.add]. rewrite (proj1 (scan_stable (n + fuel) depth s)) by lia.
  exact IH.
Qed.

(** The fuel of [json.loads] is enough: with any fuel beyond twice the
    length of the text, the scanner does what it does with the fuel that
    [loads] gives it. *)
Lemma loads_fuel (s : str) (fuel depth : nat) :
  2 * length s < fuel ->
  scan_once fuel depth (skip_ws s)
  = scan_once (S (2 * length s)) depth (skip_ws s).
Proof.
  intros H. pose proof (skip_ws_length s) as Hws.
  replace fuel with ((fuel - S (2 * length s)) + S (2 * length s)) by lia.
  apply scan_once_more_fuel. lia.
Qed.

(** * Further properties *)

(** ** Trimmed text *)

Lemma lstrip_idem (s : str) : lstrip (lstrip s) = lstrip s.
Proof.
  induction s as [|c s IH]; [reflexivity|].
  cbn [lstrip]. destruct (is_space c) eqn:E; [exact IH|].
  cbn [lstrip]. rewrite E. reflexivity.
Qed.

Lemma lstrip_snoc (s : str) (c : char) :
  is_space c = false -> lstrip (s ++ [c]) = lstrip s ++ [c].
Proof.
  intros Hc. induction s as [|d s IH].
  - cbn [app lstrip]. rewrite Hc. reflexivity.
  - cbn [app lstrip]. destruct (is_space d); [exact IH | reflexivity].
Qed.

(** The first character of a text is not white space. *)
Definition trimmed_left (s : str) : Prop :=
  match s with
  | [] => True
  | c :: _ => is_space c = false
  end.

Lemma lstrip_trimmed_left (s : str) : trimmed_left (lstrip s).
Proof.
  induction s as [|c s IH]; [exact I|].
  cbn [lstrip]. destruct (is_space c) eqn:E; [exact IH | exact E].
Qed.

Lemma trimmed_left_lstrip (s : str) : trimmed_left s -> lstrip s = s.
Proof.
  destruct s as [|c s]; [reflexivity|]. cbn [trimmed_left lstrip].
  intros ->. reflexivity.
Qed.

Lemma rstrip_trimmed_left (s : str) : trimmed_left s -> trimmed_left (rstrip s).
Proof.
  destruct s as [|c s]; [intros _; exact I|].
  cbn [trimmed_left]. intros Hc. unfold rstrip. cbn [rev].
  rewrite (lstrip_snoc _ _ Hc), rev_app_distr. exact Hc.
Qed.

Lemma rstrip_idem (s : str) : rstrip (rstrip s) = rstrip s.
Proof. unfold rstrip. rewrite rev_involutive, lstrip_idem. reflexivity. Qed.

Lemma strip_idem (s : str) : strip (strip s) = strip s.
Proof.
  unfold strip at 1.
  rewrite (trimmed_left_lstrip (strip s)).
  - unfold strip. apply rstrip_idem.
  - unfold strip. apply rstrip_trimmed_left, lstrip_trimmed_left.
Qed.

Lemma strip_clean_text (text : str) : strip (clean_text text) = clean_text text.
Proof.
  unfold clean_text. destruct (negb (truthy text)); [reflexivity|].
  apply strip_idem.
Qed.

(** X1: The text [clean_text] returns has no white space at either end:
    stripping it again changes nothing. *)
Theorem clean_text_trimmed :
  forall text : str,
    strip (clean_text text) = clean_text text
    /\ lstrip (clean_text text) = clean_text text
    /\ rstrip (clean_text text) = clean_text text.
Proof.
  intros text. split; [apply strip_clean_text|].
  assert (H : exists s, clean_text text = strip s).
  { unfold clean_text. destruct (negb (truthy text)).
    - exists []. reflexivity.
    - eexists. reflexivity. }
  destruct H as (s & ->). split.
  - apply trimmed_left_lstrip. unfold strip.
    apply rstrip_trimmed_left, lstrip_trimmed_left.
  - unfold strip. apply rstrip_idem.
Qed.

(** ** The sanitizer, again *)

(** X2: Sanitizing twice is sanitizing once, and the sanitizer works
    character by character: the sanitized form of a concatenation is the
    concatenation of the sanitized forms. *)
Theorem sanitize_input_idempotent :
  forall a b : str,
    sanitize_input (sanitize_input a) = sanitize_input a
    /\ sanitize_input (a ++ b) = sanitize_input a ++ sanitize_input b
    /\ length (sanitize_input a) <= length a.
Proof.
  intros a b. split; [apply sanitize_input_idem|]. split.
  - rewrite !sanitize_input_filter. apply filter_app.
  - rewrite sanitize_input_filter. apply filter_length_le.
Qed.

(** ** The shell escaping *)

(** X3: What [save_schedule_data] escapes for the shell,
    [load_schedule_data] reads back unchanged, whatever the text,
    backslashes and double quotes included; so two texts are never escaped
    to the same text. *)
Theorem shell_escaping_round_trip :
  forall s t : str,
    unescape (shell_escape s) = s
    /\ (shell_escape s = shell_escape t -> s = t).
Proof.
  intros s t. split; [apply unescape_shell_escape|].
  intros H. rewrite <- (unescape_shell_escape s), <- (unescape_shell_escape t).
  rewrite H. reflexivity.
Qed.

(** ** What a loaded schedule always satisfies *)

(** A study time that can be shown: not empty, without [information], and
    with no white space around it. *)
Definition usable_study_time (s : str) : Prop :=
  truthy s = true
  /\ contains (pystr "information") s = false
  /\ strip s = s.

Lemma usable_default (day : Day) : usable_study_time (DEFAULT_STUDY_TIMES day).
Proof. destruct day; repeat split. Qed.

Lemma usable_study_time_or_default (day : Day) (x : str) :
  usable_study_time (study_time_or_default day (clean_text x)).
Proof.
  unfold study_time_or_default.
  destruct (truthy (clean_text x)) eqn:Et; cbn [negb orb].
  - destruct (contains (pystr "information") (clean_text x)) eqn:Ec.
    + apply usable_default.
    + repeat split; [exact Et | exact Ec | apply strip_clean_text].
  - apply usable_default.
Qed.

Lemma day_result_fields (py_str : json -> str) (day : Day) (d0 : DaySchedule)
    (data_str : str) :
  (study_time (day_result py_str day d0 data_str) = study_time d0
   \/ exists x,
        study_time (day_result py_str day d0 data_str)
        = study_time_or_default day (clean_text x))
  /\ (goals (day_result py_str day d0 data_str) = goals d0
      \/ exists x, goals (day_result py_str day d0 data_str) = clean_text x).
Proof.
  unfold day_result, parse_day.
  destruct (split_once PLAN_SAVE_SEPARATOR data_str) as [legacy_part json_part].
  set (legacy_data := split (pystr "|") (unescape legacy_part)).
  set (d1 := if 1 <=? length legacy_data then _ else d0).
  set (d2 := if 2 <=? length legacy_data then _ else d1).
  assert (H1 : study_time d1 = study_time d0
               \/ exists x, study_time d1
                            = study_time_or_default day (clean_text x)).
  { unfold d1. destruct (1 <=? length legacy_data); [|now left].
    right. exists (field legacy_data 0). reflexivity. }
  assert (G1 : goals d1 = goals d0).
  { unfold d1. destruct (1 <=? length legacy_data); reflexivity. }
  assert (H2 : study_time d2 = study_time d1).
  { unfold d2. destruct (2 <=? length legacy_data); reflexivity. }
  assert (G2 : goals d2 = goals d0 \/ exists x, goals d2 = clean_text x).
  { unfold d2. destruct (2 <=? length legacy_data).
    - right. eexists. reflexivity.
    - left. exact G1. }
  rewrite <- H2 in H1.
  assert (Hset : forall l, study_time (set_plans l d2) = study_time d2
                           /\ goals (set_plans l d2) = goals d2)
    by (intros l; split; reflexivity).
  assert (Hplain : forall l,
    (study_time (set_plans l d2) = study_time d0
     \/ exists x, study_time (set_plans l d2)
                  = study_time_or_default day (clean_text x))
    /\ (goals (set_plans l d2) = goals d0
        \/ exists x, goals (set_plans l d2) = clean_text x)).
  { intros l. destruct (Hset l) as (-> & ->). split; assumption. }
  assert (Hleg : forall l x,
    (study_time (set_plans l (set_goals (clean_text x) d2)) = study_time d0
     \/ exists y, study_time (set_plans l (set_goals (clean_text x) d2))
                  = study_time_or_default day (clean_text y))
    /\ (goals (set_plans l (set_goals (clean_text x) d2)) = goals d0
        \/ exists y, goals (set_plans l (set_goals (clean_text x) d2))
                     = clean_text y)).
  { intros l x. split; [exact H1|]. right. exists x. reflexivity. }
  destruct json_part as [[|c r]|].
  - destruct (7 <=? _); [apply Hleg | apply Hplain].
  - destruct (negb (truthy (strip (unescape (c :: r))))); [apply Hplain|].
    destruct (loads _) as [v|e] eqn:El.
    + destruct v; apply Hplain.
    + destruct e; first [apply Hplain | (split; left; reflexivity)].
  - destruct (7 <=? _); [apply Hleg | apply Hplain].
Qed.

(** X4: Whatever the record file holds, and also when it is missing or
    cannot be read, every day of the schedule [load_schedule_data] returns
    has a study time that is not empty, does not contain [information] and
    has no white space around it, and goals with no white space around them. *)
Theorem loaded_fields_usable :
  forall (py_str : json -> str) (fs : FileState) (self : Manager),
  exists w,
    load_schedule_data py_str fs self = (Returns w, mkManager w)
    /\ forall day,
         usable_study_time (study_time (w day))
         /\ strip (goals (w day)) = goals (w day).
Proof.
  intros py_str fs self.
  destruct (load_schedule_data_days py_str fs self) as (w & Hw & Hd).
  exists w. split; [exact Hw|]. intros day.
  destruct (Hd day) as [->|(data_str & _ & ->)].
  - split; [apply usable_default | reflexivity].
  - destruct (day_result_fields py_str day (initialize_default_schedule day)
                data_str) as ([->|(x & ->)] & [->|(y & ->)]);
      (split;
       [first [apply usable_default | apply usable_study_time_or_default]
       | first [reflexivity | apply strip_clean_text]]).
Qed.

(** A name that the sanitizer leaves as it is, and that is not empty. *)
Definition safe_name (p : Plan) : Prop :=
  sanitize_input (name p) = name p /\ name p <> [].

Lemma truthy_nonempty (s : str) : truthy s = true -> s <> [].
Proof. destruct s; [discriminate | discriminate]. Qed.

Lemma validate_plans_safe (py_str : json -> str) (l : list json) :
  Forall safe_name (validate_plans py_str l).
Proof.
  induction l as [|item l IH]; simpl; [constructor|].
  destruct item; try exact IH.
  destruct (truthy (sanitize_input (item_field py_str "name" members))) eqn:E;
    [|exact IH].
  constructor; [|exact IH]. split.
  - apply sanitize_input_idem.
  - apply truthy_nonempty. exact E.
Qed.

Lemma legacy_plans_safe (legacy_data : list str) :
  Forall safe_name (legacy_plans legacy_data).
Proof.
  unfold legacy_plans. apply Forall_app; split; [|apply Forall_app; split].
  - destruct (str_eqb _ _); constructor;
      [split; [reflexivity | discriminate] | constructor].
  - destruct (str_eqb _ _); constructor;
      [split; [reflexivity | discriminate] | constructor].
  - destruct (truthy _); constructor;
      [split; [reflexivity | discriminate] | constructor].
Qed.

Lemma day_result_safe (py_str : json -> str) (day : Day) (d0 : DaySchedule)
    (data_str : str) :
  Forall safe_name (plans d0) ->
  Forall safe_name (plans (day_result py_str day d0 data_str)).
Proof.
  intros Hd0. unfold day_result, parse_day.
  destruct (split_once PLAN_SAVE_SEPARATOR data_str) as [legacy_part json_part].
  assert (Hnil : forall d, Forall safe_name (plans (set_plans [] d)))
    by (intros d; constructor).
  assert (Hleg : forall l d,
            Forall safe_name (plans (set_plans (legacy_plans l) d)))
    by (intros l d; apply legacy_plans_safe).
  assert (Hval : forall l d,
            Forall safe_name (plans (set_plans (validate_plans py_str l) d)))
    by (intros l d; apply validate_plans_safe).
  destruct json_part as [[|c r]|].
  - destruct (7 <=? _); [apply Hleg | apply Hnil].
  - destruct (negb (truthy (strip (unescape (c :: r))))); [apply Hnil|].
    destruct (loads _) as [v|e] eqn:El.
    + destruct v; first [apply Hval | apply Hnil].
    + destruct e; first [apply Hnil | exact Hd0].
  - destruct (7 <=? _); [apply Hleg | apply Hnil].
Qed.

(** X5: Whatever the record file holds, the name of every plan of a loaded
    schedule is not empty and holds no character the sanitizer removes. *)
Theorem loaded_plan_names_safe :
  forall (py_str : json -> str) (fs : FileState) (self : Manager),
  exists w,
    load_schedule_data py_str fs self = (Returns w, mkManager w)
    /\ forall day p,
         In p (plans (w day)) ->
         name p <> []
         /\ forallb (fun c => negb (sanitize_class c)) (name p) = true.
Proof.
  intros py_str fs self.
  destruct (load_schedule_data_days py_str fs self) as (w & Hw & Hd).
  exists w. split; [exact Hw|]. intros day p Hp.
  assert (Hs : safe_name p).
  { destruct (Hd day) as [E|(data_str & _ & E)]; rewrite E in Hp.
    - destruct Hp.
    - revert p Hp. apply Forall_forall, day_result_safe. constructor. }
  destruct Hs as (Hs & Hn). split; [exact Hn|].
  rewrite <- Hs, sanitize_input_filter.
  apply forallb_forall. intros c Hc. apply filter_In in Hc. apply Hc.
Qed.

(** ** What a call of [save_schedule_data] leaves on the disk *)

(** X6: When the directory can be made and the copy succeeds, the file that
    is about to be overwritten is first kept as a backup under the time
    stamp of the call, whatever fails afterwards. The backups under other
    time stamps stay as they are; when there is no file yet, no backup is
    made; and a call that cannot make the directory leaves the disk as it
    was. *)
Theorem save_keeps_backup :
  forall (CURRENT_DATE : str) (flt : Faults) (stamp : N)
         (schedule_to_save : option WeekSchedule) (self : Manager)
         (disk : Disk),
    let disk' :=
      snd (snd (save_schedule_data CURRENT_DATE flt stamp schedule_to_save
                  (self, disk))) in
    (mkdir_raises flt = false -> copy_raises flt = false ->
     exists_ (answers_file disk) = true ->
     backups disk' = (stamp, answers_file disk) :: backups disk)
    /\ (forall other f,
          other <> stamp ->
          (In (other, f) (backups disk') <-> In (other, f) (backups disk)))
    /\ (exists_ (answers_file disk) = false -> backups disk' = backups disk)
    /\ (mkdir_raises flt = true -> disk' = disk).
Proof.
  intros date flt stamp arg self disk. cbv zeta.
  rewrite save_schedule_data_run. cbn [snd].
  unfold disk_after, kept_backups.
  assert (Hother : forall other f,
            other <> stamp ->
            (In (other, f) ((stamp, answers_file disk) :: backups disk)
             <-> In (other, f) (backups disk))).
  { intros other f Hne. cbn [In]. split; [|tauto].
    intros [H|H]; [|exact H]. injection H as H _. congruence. }
  destruct (mkdir_raises flt), (open_raises flt), (copy_raises flt),
    (exists_ (answers_file disk)); cbn [andb negb backups];
    repeat split; intros; try reflexivity; try discriminate;
    try assumption; try (apply Hother; assumption);
    try (apply Hother; assumption).
Qed.

Lemma file_chunks_nonempty (CURRENT_DATE : str) (W : WeekSchedule) :
  Forall (fun chunk => chunk <> []) (file_chunks CURRENT_DATE W).
Proof.
  unfold file_chunks, preamble. unfold DAYS. cbn [map app].
  repeat (constructor; [discriminate|]). constructor.
Qed.

(** X7: The save is not atomic on the disk. When the file could be opened
    and a write raised, [save_schedule_data] returns [False], the manager is
    as it was, and the record file holds a beginning of the new text that is
    not the whole of it: the text the file held before the call is no longer
    in it. *)
Theorem save_partial_write :
  forall (CURRENT_DATE : str) (flt : Faults) (stamp : N) (W : WeekSchedule)
         (self : Manager) (disk : Disk),
    mkdir_raises flt = false ->
    open_raises flt = false ->
    save_fails CURRENT_DATE flt W = true ->
    exists disk' begun rest,
      save_schedule_data CURRENT_DATE flt stamp (Some W) (self, disk)
      = (Returns false, (self, disk'))
      /\ answers_file disk' = Content begun
      /\ file_text CURRENT_DATE W = begun ++ rest
      /\ rest <> [].
Proof.
  intros date flt stamp W self disk Hmk Hop Hf.
  rewrite save_schedule_data_run. rewrite Hf. cbn [negb].
  unfold disk_after. rewrite Hmk, Hop.
  unfold save_fails in Hf. rewrite Hmk, Hop in Hf. cbn [orb] in Hf.
  destruct (written_part _ (file_chunks_nonempty date W) _ Hf)
    as (rest & Hrest & Hne).
  eexists _, _, rest.
  split; [reflexivity|]. split; [reflexivity|].
  split; [exact Hrest | exact Hne].
Qed.

Lemma save_partial_write_witness :
  exists disk' begun rest,
    save_schedule_data (pystr "2024-05-06")
      (mkFaults false false false (Some 3) false) 7 (Some empty_week)
      (mkManager initialize_default_schedule,
       mkDisk (Content (pystr "old")) [])
    = (Returns false, (mkManager initialize_default_schedule, disk'))
    /\ answers_file disk' = Content begun
    /\ file_text (pystr "2024-05-06") empty_week = begun ++ rest
    /\ rest <> [].
Proof.
  apply (save_partial_write (pystr "2024-05-06")
           (mkFaults false false false (Some 3) false) 7 empty_week
           (mkManager initialize_default_schedule)
           (mkDisk (Content (pystr "old")) [])).
  - reflexivity.
  - reflexivity.
  - vm_compute. reflexivity.
Defined.

(** X8: A call of [save_schedule_data] that returns [True], followed by
    [load_schedule_data] on the file it wrote: the week that comes back is
    the saved week with every field sanitized and cleaned, the plans without
    a name left out, and an empty study time replaced by the default of the
    day. *)
Theorem save_then_load :
  forall (py_str : json -> str) (CURRENT_DATE : str) (flt : Faults)
         (stamp : N) (W : WeekSchedule) (self self' : Manager)
         (disk disk' : Disk),
    no_quote CURRENT_DATE = true ->
    (forall day,
       no_pipe (sanitize_input (study_time (W day))) = true
       /\ no_pipe (sanitize_input (goals (W day))) = true) ->
    save_schedule_data CURRENT_DATE flt stamp (Some W) (self, disk)
    = (Returns true, (self', disk')) ->
    exists w,
      load_schedule_data py_str (answers_file disk') self'
      = (Returns w, mkManager w)
      /\ forall day,
           study_time (w day)
           = (let cleaned :=
                clean_text (sanitize_input (study_time (W day))) in
              if negb (truthy cleaned)
                 || contains (pystr "information") cleaned
              then DEFAULT_STUDY_TIMES day else cleaned)
           /\ goals (w day) = clean_text (sanitize_input (goals (W day)))
           /\ plans (w day) = valid_plans (plans (W day)).
Proof.
  intros py_str date flt stamp W self self' disk disk' Hdate Hpipe Hsave.
  rewrite save_schedule_data_run in Hsave.
  destruct (save_fails date flt W) eqn:Hf; [discriminate|].
  cbn [negb] in Hsave. injection Hsave as <- <-.
  unfold save_fails in Hf.
  apply orb_false_iff in Hf. destruct Hf as (Hf & Hwf).
  apply orb_false_iff in Hf. destruct Hf as (Hmk & Hop).
  unfold disk_after. rewrite Hmk, Hop. cbn [answers_file].
  rewrite (written_all _ _ Hwf).
  destruct (load_saved py_str date W (mkManager W) Hdate Hpipe)
    as (w & Hw & Hd).
  exists w. split; [exact Hw|]. intros day. rewrite Hd. repeat split.
Qed.

Lemma save_then_load_witness :
  exists w,
    load_schedule_data (fun _ => [])
      (answers_file
         (snd (snd (save_schedule_data (pystr "2024-05-06")
                      (mkFaults false true false None true) 7
                      (Some messy_week)
                      (mkManager initialize_default_schedule,
                       mkDisk Absent [])))))
      (mkManager messy_week)
    = (Returns w, mkManager w)
    /\ forall day,
         study_time (w day)
         = (let cleaned :=
              clean_text (sanitize_input (study_time (messy_week day))) in
            if negb (truthy cleaned)
               || contains (pystr "information") cleaned
            then DEFAULT_STUDY_TIMES day else cleaned)
         /\ goals (w day)
            = clean_text (sanitize_input (goals (messy_week day)))
         /\ plans (w day) = valid_plans (plans (messy_week day)).
Proof.
  apply (save_then_load (fun _ => []) (pystr "2024-05-06")
           (mkFaults false true false None true) 7 messy_week
           (mkManager initialize_default_schedule) (mkManager messy_week)
           (mkDisk Absent [])
           (snd (snd (save_schedule_data (pystr "2024-05-06")
                        (mkFaults false true false None true) 7
                        (Some messy_week)
                        (mkManager initialize_default_schedule,
                         mkDisk Absent []))))).
  - reflexivity.
  - intros day. split; vm_compute; reflexivity.
  - vm_compute. reflexivity.
Defined.

(** ** The e-mail check on stripped input *)

Lemma strip_last (s s0 : str) (c : char) :
  strip s = s0 ++ [c] -> is_space c = false.
Proof.
  unfold strip, rstrip. intros H.
  apply (f_equal (@rev char)) in H.
  rewrite rev_involutive, rev_app_distr in H. cbn [rev app] in H.
  pose proof (lstrip_trimmed_left (rev (lstrip s))) as Ht.
  rewrite H in Ht. exact Ht.
Qed.

(** X9: The callers of [is_valid_email] strip what the user types before
    they check it. On a stripped text the check accepts exactly the
    addresses made of a local part of letters, digits and [._%+-], an [@], a
    domain of letters, digits, dots and hyphens, a dot, and two or more
    letters: a stripped text does not end with a line feed. *)
Theorem is_valid_email_stripped :
  forall s : str,
    is_valid_email (strip s) = true <-> email_shape (strip s).
Proof.
  intros s. split.
  - intros H. apply is_valid_email_iff in H.
    destruct H as [H | (s0 & Hs & _)]; [exact H|].
    apply strip_last in Hs. discriminate.
  - intros H. apply is_valid_email_iff. left. exact H.
Qed.

(** ** Plans without details in the reports *)

(** Two weeks that differ only in plans whose details are blank. *)
Definition same_visible (W W' : WeekSchedule) : Prop :=
  forall day,
    study_time (W day) = study_time (W' day)
    /\ goals (W day) = goals (W' day)
    /\ filter visible (plans (W day)) = filter visible (plans (W' day)).

Lemma day_card_same_visible (W W' : WeekSchedule) (day : Day) :
  same_visible W W' -> day_card W day = day_card W' day.
Proof.
  intros H. destruct (H day) as (Hs & Hg & Hp).
  unfold day_card. cbv zeta. rewrite Hs, Hg, Hp. reflexivity.
Qed.

Lemma fold_left_ext_in {A B : Type} (f g : A -> B -> A) (l : list B) :
  (forall a b, f a b = g a b) ->
  forall a, fold_left f l a = fold_left g l a.
Proof.
  intros H. induction l as [|b l IH]; intros a; [reflexivity|].
  cbn [fold_left]. rewrite H. apply IH.
Qed.

Lemma existsb_pointwise {A : Type} (f g : A -> bool) (l : list A) :
  (forall a, f a = g a) -> existsb f l = existsb g l.
Proof.
  intros H. induction l as [|a l IH]; [reflexivity|].
  cbn [existsb]. rewrite H, IH. reflexivity.
Qed.

(** X10: A plan whose details are blank shows in no report: two weeks with
    the same study times, the same goals and the same plans with details
    have the same HTML report, the same week statistics, and the same goals
    and plans in the reminders. *)
Theorem reports_ignore_blank_plans :
  forall (decimal : char -> option N) (CURRENT_DATE : str)
         (W W' : WeekSchedule) (notes_content : str),
    same_visible W W' ->
    html_content CURRENT_DATE W notes_content
    = html_content CURRENT_DATE W' notes_content
    /\ week_statistics decimal W = week_statistics decimal W'
    /\ has_any_content W = has_any_content W'
    /\ all_goals W = all_goals W'
    /\ all_plans W = all_plans W'.
Proof.
  intros decimal date W W' notes H.
  split; [|split; [|split; [|split]]].
  - unfold html_content, html_pieces. rewrite !grid_rows_eq.
    rewrite !(day_card_same_visible W W') by exact H. reflexivity.
  - unfold week_statistics. apply fold_left_ext_in. intros acc day.
    unfold count_day. cbv zeta. destruct (H day) as (-> & -> & ->).
    reflexivity.
  - unfold has_any_content. apply existsb_pointwise. intros day. cbv zeta.
    destruct (H day) as (_ & -> & ->). reflexivity.
  - unfold all_goals. apply flat_map_ext. intros day. cbv zeta.
    destruct (H day) as (_ & -> & _). reflexivity.
  - unfold all_plans. apply flat_map_ext. intros day.
    destruct (H day) as (_ & _ & ->). reflexivity.
Qed.

(** The sample week with a plan that has a name and blank details added to
    every day. *)
Definition padded_week : WeekSchedule :=
  fun day =>
    mkDay (study_time (sample_week day)) (goals (sample_week day))
      (mkPlan (pystr "Later") (pystr "  ") :: plans (sample_week day)).

Lemma reports_ignore_blank_plans_witness :
  html_content (pystr "2024-05-06") sample_week []
  = html_content (pystr "2024-05-06") padded_week []
  /\ week_statistics ascii_decimal sample_week
     = week_statistics ascii_decimal padded_week
  /\ has_any_content sample_week = has_any_content padded_week
  /\ all_goals sample_week = all_goals padded_week
  /\ all_plans sample_week = all_plans padded_week.
Proof.
  apply (reports_ignore_blank_plans ascii_decimal (pystr "2024-05-06")
           sample_week padded_week []).
  intros day. destruct day; repeat split.
Defined.

(** ** The notes in the HTML report *)

Lemma truthy_strip (s : str) : truthy (strip s) = true -> truthy s = true.
Proof. destruct s; [discriminate | reflexivity]. Qed.

(** X11: The white space around the notes never reaches the HTML report, and
    notes that are blank give the report without a notes section. *)
Theorem html_notes_stripped :
  forall (CURRENT_DATE : str) (W : WeekSchedule) (notes_content : str),
    html_content CURRENT_DATE W notes_content
    = html_content CURRENT_DATE W (strip notes_content)
    /\ (truthy (strip notes_content) = false ->
        html_content CURRENT_DATE W notes_content
        = html_content CURRENT_DATE W []).
Proof.
  intros date W notes. split.
  - unfold html_content, html_pieces. rewrite strip_idem.
    destruct (truthy (strip notes)) eqn:E.
    + rewrite (truthy_strip notes E). reflexivity.
    + rewrite !andb_false_r. reflexivity.
  - intros E. unfold html_content, html_pieces. rewrite E, andb_false_r.
    reflexivity.
Qed.

(** ** The groups of the reminders *)

Inductive Group : Type :=
| Work | Appointment | Eating | Sleeping | Praying | Break | Study | Play
| Youtube | Other.

Definition Group_eqb (a b : Group) : bool :=
  match a, b with
  | Work, Work | Appointment, Appointment | Eating, Eating
  | Sleeping, Sleeping | Praying, Praying | Break, Break | Study, Study
  | Play, Play | Youtube, Youtube | Other, Other => true
  | _, _ => false
  end.

(** The first family of words, in the order of the tests, of which the
    lowered name contains one. *)
Definition group_of (plan_name : str) : Group :=
  if has "work" plan_name || has "dollar general" plan_name
     || has "jj" plan_name
  then Work
  else if has "appointment" plan_name || has "appt" plan_name
          || has "meeting" plan_name
  then Appointment
  else if has "eat" plan_name || has "meal" plan_name
          || has "lunch" plan_name || has "dinner" plan_name
  then Eating
  else if has "sleep" plan_name || has "night" plan_name
          || has "bedtime" plan_name || has "nap" plan_name
          || has "rest" plan_name
  then Sleeping
  else if has "pray" plan_name || has "worship" plan_name
          || has "rosary" plan_name || has "meditation" plan_name
  then Praying
  else if has "break" plan_name || has "relax" plan_name
          || has "chill" plan_name
  then Break
  else if has "study" plan_name || has "homework" plan_name
          || has "assignment" plan_name || has "revision" plan_name
          || has "research" plan_name
  then Study
  else if has "play" plan_name || has "game" plan_name
          || has "gaming" plan_name || has "fun" plan_name
          || has "outside" plan_name
  then Play
  else if has "youtube" plan_name || has "video" plan_name
          || has "watch" plan_name
  then Youtube
  else Other.

Definition members (c : Group) (g : PlanGroups) : list (Day * Plan) :=
  match c with
  | Work => work_plans g
  | Appointment => appointment_plans g
  | Eating => eat_plans g
  | Sleeping => sleeping_plans g
  | Praying => pray_plans g
  | Break => break_plans g
  | Study => study_plans g
  | Play => play_plans g
  | Youtube => youtube_plans g
  | Other => other_plans g
  end.

Section RemindersFacts.

Variable lower : str -> str.

Definition in_group (c : Group) (entry : Day * Plan) : bool :=
  Group_eqb (group_of (lower (name (snd entry)))) c.

Lemma group_plan_members (c : Group) (g : PlanGroups) (entry : Day * Plan) :
  members c (group_plan lower g entry)
  = members c g ++ (if in_group c entry then [entry] else []).
Proof.
  unfold in_group, group_plan, group_of. cbv zeta.
  repeat match goal with
         | |- context [if (?x || ?y)%bool then _ else _] =>
             destruct (x || y)%bool
         end;
    destruct c; cbn [members Group_eqb work_plans appointment_plans eat_plans
                       sleeping_plans pray_plans break_plans study_plans
                       youtube_plans play_plans other_plans];
    first [reflexivity | symmetry; apply app_nil_r].
Qed.

Lemma fold_group_plan_members (c : Group) (l : list (Day * Plan)) :
  forall g,
    members c (fold_left (group_plan lower) l g)
    = members c g ++ filter (in_group c) l.
Proof.
  induction l as [|entry l IH]; intros g.
  - cbn [fold_left filter]. symmetry. apply app_nil_r.
  - cbn [fold_left filter]. rewrite IH, group_plan_members, <- app_assoc.
    destruct (in_group c entry); reflexivity.
Qed.

Lemma grouped_plans_members (W : WeekSchedule) (c : Group) :
  members c (grouped_plans lower W) = filter (in_group c) (all_plans W).
Proof.
  unfold grouped_plans. rewrite fold_group_plan_members. destruct c; reflexivity.
Qed.

Lemma Group_eqb_eq (a b : Group) : Group_eqb a b = true <-> a = b.
Proof. destruct a, b; split; intros H; try reflexivity; discriminate. Qed.

(** The groups, in the order in which they are printed. *)
Definition printed_order : list Group :=
  [Work; Appointment; Eating; Youtube; Sleeping; Praying; Break; Study; Play;
   Other].

Lemma filter_disjoint_permutation {A : Type} (p q : A -> bool) (l : list A) :
  (forall x, p x = true -> q x = false) ->
  Permutation (filter p l ++ filter q l) (filter (fun x => p x || q x) l).
Proof.
  intros Hpq. induction l as [|x l IH]; [constructor|].
  cbn [filter]. destruct (p x) eqn:Hp.
  - rewrite (Hpq x Hp). cbn [orb app]. apply perm_skip. exact IH.
  - cbn [orb]. destruct (q x) eqn:Hq; [|exact IH].
    apply Permutation_sym, Permutation_cons_app, Permutation_sym. exact IH.
Qed.

Lemma groups_permutation (l : list (Day * Plan)) (cs : list Group) :
  NoDup cs ->
  Permutation (flat_map (fun c => filter (in_group c) l) cs)
    (filter (fun entry => existsb (fun c => in_group c entry) cs) l).
Proof.
  induction cs as [|c cs IH]; intros Hnd.
  - cbn [flat_map existsb]. induction l as [|x l IHl]; [constructor | exact IHl].
  - inversion Hnd as [|? ? Hnotin Hnd']; subst.
    cbn [flat_map existsb].
    eapply Permutation_trans;
      [apply Permutation_app_head, IH, Hnd'|].
    apply filter_disjoint_permutation.
    intros entry Hc. unfold in_group in Hc. apply Group_eqb_eq in Hc.
    destruct (existsb (fun c0 => in_group c0 entry) cs) eqn:E; [|reflexivity].
    apply existsb_exists in E. destruct E as (c' & Hin & Hc').
    unfold in_group in Hc'. apply Group_eqb_eq in Hc'. congruence.
Qed.

Lemma printed_order_NoDup : NoDup printed_order.
Proof.
  unfold printed_order.
  repeat (constructor; [cbn [In]; intros H; repeat destruct H as [H|H];
                        try discriminate; exact H|]).
  constructor.
Qed.

Lemma printed_groups_permutation (W : WeekSchedule) :
  Permutation (concat (printed_groups (grouped_plans lower W))) (all_plans W).
Proof.
  assert (E : concat (printed_groups (grouped_plans lower W))
              = flat_map (fun c => filter (in_group c) (all_plans W))
                  printed_order).
  { unfold printed_groups, printed_order. cbn [flat_map concat].
    rewrite <- !grouped_plans_members. reflexivity. }
  rewrite E.
  eapply Permutation_trans;
    [apply groups_permutation, printed_order_NoDup|].
  assert (F : forall l : list (Day * Plan),
            filter (fun entry => existsb (fun c => in_group c entry)
                                   printed_order) l = l).
  { induction l as [|x l IHl]; [reflexivity|]. cbn [filter].
    assert (Hx : existsb (fun c => in_group c x) printed_order = true).
    { unfold in_group, printed_order. cbn [existsb].
      destruct (group_of (lower (name (snd x)))); reflexivity. }
    rewrite Hx, IHl. reflexivity. }
  rewrite F. apply Permutation_refl.
Qed.

End RemindersFacts.

(** X12: Every plan with details is printed in the reminders exactly once:
    the groups, taken in the order in which they are printed, are a
    rearrangement of the plans the week lists. Each group holds, in the
    order of the week, the plans whose lowered name contains a word of the
    group and none of a group tested before it. *)
Theorem reminder_groups_partition :
  forall (lower : str -> str) (W : WeekSchedule),
    Permutation (concat (printed_groups (grouped_plans lower W)))
      (all_plans W)
    /\ forall c,
         members c (grouped_plans lower W)
         = filter (fun entry =>
                     Group_eqb (group_of (lower (name (snd entry)))) c)
             (all_plans W).
Proof.
  intros lower W. split.
  - apply printed_groups_permutation.
  - intros c. apply grouped_plans_members.
Qed.

Lemma contains_tail (x : str) (c : char) (s : str) :
  contains x s = true -> contains x (c :: s) = true.
Proof. intros H. cbn [contains]. rewrite H. apply orb_true_r. Qed.

Lemma contains_suffix (a b s : str) :
  contains (a ++ b) s = true -> contains b s = true.
Proof.
  induction s as [|c s IH]; intros H.
  - cbn [contains] in H. rewrite orb_false_r in H. unfold starts_with in H.
    destruct (strip_prefix (a ++ b) []) as [rest|] eqn:E; [|discriminate].
    apply strip_prefix_Some in E. rewrite E, <- app_assoc.
    apply contains_app_r, contains_here.
  - cbn [contains] in H. apply orb_true_iff in H. destruct H as [H|H].
    + unfold starts_with in H.
      destruct (strip_prefix (a ++ b) (c :: s)) as [rest|] eqn:E;
        [|discriminate].
      apply strip_prefix_Some in E. rewrite E, <- app_assoc.
      apply contains_app_r, contains_here.
    + apply contains_tail, IH, H.
Qed.

(** X13: A plan whose name contains [homework] is listed under work, not
    under study: the word [work] is looked for first, so the word [homework]
    of the study group is never what decides. *)
Theorem homework_listed_as_work :
  forall (lower : str -> str) (W : WeekSchedule) (day : Day) (plan : Plan),
    In (day, plan) (all_plans W) ->
    has "homework" (lower (name plan)) = true ->
    In (day, plan) (work_plans (grouped_plans lower W))
    /\ ~ In (day, plan) (study_plans (grouped_plans lower W)).
Proof.
  intros lower W day plan Hin Hhw.
  assert (Hw : has "work" (lower (name plan)) = true).
  { unfold has in *. apply (contains_suffix (pystr "home")). exact Hhw. }
  assert (Hg : group_of (lower (name plan)) = Work).
  { unfold group_of. rewrite Hw. reflexivity. }
  split.
  - change (In (day, plan) (members Work (grouped_plans lower W))).
    rewrite grouped_plans_members. apply filter_In. split; [exact Hin|].
    unfold in_group. cbn [snd]. rewrite Hg. reflexivity.
  - change (~ In (day, plan) (members Study (grouped_plans lower W))).
    rewrite grouped_plans_members. intros H. apply filter_In in H.
    destruct H as (_ & H). unfold in_group in H. cbn [snd] in H.
    rewrite Hg in H. discriminate.
Qed.

(** Lower case for the letters of ASCII. *)
Definition ascii_lower (s : str) : str :=
  map (fun c => if in_range "A" "Z" c then (c + 32)%N else c) s.

Definition homework_week : WeekSchedule :=
  fun day =>
    mkDay (DEFAULT_STUDY_TIMES day) []
      (match day with
       | Monday => [mkPlan (pystr "Math Homework") (pystr "chapter 3")]
       | _ => []
       end).

Lemma homework_listed_as_work_witness :
  In (Monday, mkPlan (pystr "Math Homework") (pystr "chapter 3"))
    (work_plans (grouped_plans ascii_lower homework_week))
  /\ ~ In (Monday, mkPlan (pystr "Math Homework") (pystr "chapter 3"))
         (study_plans (grouped_plans ascii_lower homework_week)).
Proof.
  apply (homework_listed_as_work ascii_lower homework_week Monday
           (mkPlan (pystr "Math Homework") (pystr "chapter 3"))).
  - left. reflexivity.
  - vm_compute. reflexivity.
Defined.

Lemma nonempty_flat_map {A B : Type} (f : A -> list B) (l : list A) :
  nonempty (flat_map f l) = existsb (fun a => nonempty (f a)) l.
Proof.
  induction l as [|a l IH]; [reflexivity|].
  cbn [flat_map existsb]. rewrite <- IH.
  destruct (f a); reflexivity.
Qed.

Lemma existsb_orb {A : Type} (f g : A -> bool) (l : list A) :
  existsb (fun a => f a || g a) l = existsb f l || existsb g l.
Proof.
  induction l as [|a l IH]; [reflexivity|].
  cbn [existsb]. rewrite IH.
  destruct (f a), (g a), (existsb f l), (existsb g l); reflexivity.
Qed.

(** X14: The reminders show the line that nothing is set exactly when there
    is neither a goal nor a plan with details to list: when they do not show
    it, the goals section or the plans section has an entry. *)
Theorem reminders_placeholder :
  forall W : WeekSchedule,
    has_any_content W = nonempty (all_goals W) || nonempty (all_plans W).
Proof.
  intros W. unfold has_any_content, all_goals, all_plans.
  rewrite !nonempty_flat_map, <- existsb_orb.
  apply existsb_pointwise. intros day. cbv zeta.
  destruct (truthy (goals (W day))); cbn [nonempty orb]; [reflexivity|].
  destruct (filter visible (plans (W day))); reflexivity.
Qed.

(** ** The notes file *)

(** What makes [save_notes] return [False]. *)
Definition save_notes_fails (flt : Faults) (text : str) : bool :=
  mkdir_raises flt || open_raises flt || negb (encodable text)
  || match writes_ok flt with Some O => true | _ => false end.

Lemma save_notes_run (flt : Faults) (notes_content : option str)
    (self : Notes) :
  let text := match notes_content with
              | None => additional_notes self
              | Some notes => notes
              end in
  save_notes flt notes_content self
  = (Returns (negb (save_notes_fails flt text)),
     if mkdir_raises flt || open_raises flt then self
     else if save_notes_fails flt text
          then mkNotes (additional_notes self) (Content [])
          else mkNotes text (Content text)).
Proof.
  intros text. unfold save_notes, save_notes_fails. fold text.
  unfold notes_try, notes_bind, notes_mkdir, notes_open_w, notes_write,
    notes_chmod, set_additional_notes, notes_ret, notes_raise.
  destruct (mkdir_raises flt); [reflexivity|].
  destruct (open_raises flt); [reflexivity|].
  destruct (encodable text); cbn [negb orb]; [|reflexivity].
  destruct (writes_ok flt) as [[|n]|]; cbn [negb];
    try reflexivity; destruct (chmod_raises flt); reflexivity.
Qed.

(** X15: [save_notes] never raises. It returns [False] exactly when making
    the directory, opening the file or the write raised, or when the notes
    have no UTF-8 encoding; the notes the manager holds are then the ones it
    had. Otherwise it returns [True], the file holds the notes as they were
    given, unsanitized, and the manager holds them; a failure of [chmod]
    changes nothing of this. *)
Theorem save_notes_outcome :
  forall (flt : Faults) (notes_content : option str) (self : Notes),
    let text := match notes_content with
                | None => additional_notes self
                | Some notes => notes
                end in
    exists self',
      save_notes flt notes_content self
      = (Returns (negb (save_notes_fails flt text)), self')
      /\ (if save_notes_fails flt text
          then additional_notes self' = additional_notes self
          else self' = mkNotes text (Content text))
      /\ (mkdir_raises flt || open_raises flt = true -> self' = self).
Proof.
  intros flt arg self text. eexists. split; [apply save_notes_run|].
  fold text. unfold save_notes_fails.
  destruct (mkdir_raises flt); cbn [orb]; [split; reflexivity|].
  destruct (open_raises flt); cbn [orb]; [split; reflexivity|].
  split; [|discriminate].
  destruct (negb (encodable text) || _); reflexivity.
Qed.

(** X16: Notes that [save_notes] saved are what [load_notes] returns next,
    with every carriage return, and the line feed after it if there is one,
    read as one line feed: notes without a carriage return come back
    unchanged, whatever else they hold. *)
Theorem save_notes_load_notes :
  forall (flt : Faults) (notes : str) (self self' : Notes),
    save_notes flt (Some notes) self = (Returns true, self') ->
    fst (load_notes self') = universal_newlines notes
    /\ additional_notes (snd (load_notes self')) = universal_newlines notes
    /\ (no_cr notes = true -> fst (load_notes self') = notes).
Proof.
  intros flt notes self self' H.
  rewrite save_notes_run in H. cbv zeta in H.
  destruct (save_notes_fails flt notes) eqn:Hf; [discriminate|].
  unfold save_notes_fails in Hf.
  destruct (mkdir_raises flt || open_raises flt); [discriminate|].
  injection H as <-.
  assert (E : fst (load_notes (mkNotes notes (Content notes)))
              = universal_newlines notes).
  { unfold load_notes. cbn [NOTES_FILE exists_ st_size_positive andb fst].
    destruct notes; reflexivity. }
  split; [exact E|]. split; [exact E|].
  intros Hcr. rewrite E. apply universal_newlines_no_cr. exact Hcr.
Qed.

Lemma save_notes_load_notes_witness :
  fst (load_notes (mkNotes (pystr "buy <milk>; call Bob")
                     (Content (pystr "buy <milk>; call Bob"))))
  = universal_newlines (pystr "buy <milk>; call Bob")
  /\ additional_notes
       (snd (load_notes (mkNotes (pystr "buy <milk>; call Bob")
                           (Content (pystr "buy <milk>; call Bob")))))
     = universal_newlines (pystr "buy <milk>; call Bob")
  /\ (no_cr (pystr "buy <milk>; call Bob") = true ->
      fst (load_notes (mkNotes (pystr "buy <milk>; call Bob")
                         (Content (pystr "buy <milk>; call Bob"))))
      = pystr "buy <milk>; call Bob").
Proof.
  apply (save_notes_load_notes (mkFaults false false false None true)
           (pystr "buy <milk>; call Bob") (mkNotes [] Absent)
           (mkNotes (pystr "buy <milk>; call Bob")
              (Content (pystr "buy <milk>; call Bob")))).
  reflexivity.
Defined.

(** ** The prompts of the command line *)

Section CliFacts.

Variable lower : str -> str.
Variable stdin_isatty : bool.

Lemma ask_loop_length (d : option str) (stdin : list str) :
  length (snd (ask_loop lower d stdin)) <= length stdin.
Proof.
  induction stdin as [|line rest IH]; [apply Nat.le_refl|].
  cbn [ask_loop].
  repeat match goal with
         | |- context [if ?b then _ else _] => destruct b
         end; cbn [snd length]; lia.
Qed.

Lemma ask_yes_no_length (default : option str) (stdin : list str) :
  length (snd (ask_yes_no lower stdin_isatty default stdin)) <= length stdin.
Proof.
  unfold ask_yes_no. destruct (negb stdin_isatty); [apply Nat.le_refl|].
  apply ask_loop_length.
Qed.

Lemma sanitized_entry (line1 line2 : str) :
  truthy (sanitize_input (strip line1)) = true ->
  sanitized_plan
    (mkPlan (sanitize_input (strip line1)) (sanitize_input (strip line2))).
Proof.
  intros H. unfold sanitized_plan. cbn [name details].
  rewrite !sanitize_input_idem. repeat split.
  destruct (sanitize_input (strip line1)); [discriminate | discriminate].
Qed.

(** The loop that asks for plans ends with the turns it is given, and
    the plans it adds are sanitized and have a name. *)
Lemma add_plans_spec :
  forall (fuel : nat) (new_plans : list Plan) (stdin : list str),
    length stdin < fuel ->
    Forall sanitized_plan new_plans ->
    exists r rest,
      add_plans lower stdin_isatty fuel new_plans stdin = Some (r, rest)
      /\ match r with
         | Returns l => Forall sanitized_plan l
         | Raises _ => rest = []
         end.
Proof.
  induction fuel as [|fuel IH]; intros new_plans stdin Hlen Hsan; [lia|].
  cbn [add_plans].
  pose proof (ask_yes_no_length
                (Some (if negb (nonempty new_plans)
                       then pystr "yes" else pystr "no")) stdin) as Hask.
  destruct (ask_yes_no lower stdin_isatty _ stdin) as [add_more stdin1].
  cbn [snd] in Hask.
  destruct add_more; cbn [negb].
  2:{ exists (Returns new_plans), stdin1. split; [reflexivity | exact Hsan]. }
  destruct stdin1 as [|line1 stdin2]; cbn [input].
  { exists (Raises EOFError), []. split; reflexivity. }
  destruct stdin2 as [|line2 stdin3]; cbn [input].
  { exists (Raises EOFError), []. split; reflexivity. }
  apply IH.
  - cbn [length] in Hask. lia.
  - destruct (truthy (sanitize_input (strip line1))) eqn:E; [|exact Hsan].
    apply Forall_app. split; [exact Hsan|].
    constructor; [|constructor]. apply sanitized_entry. exact E.
Qed.

End CliFacts.

(** X17: [collect_day_info_cli] ends on every input. It raises [EOFError]
    only when the input has run out. The entry it returns has a sanitized
    study time and sanitized goals, and its plans are either the plans the
    day had before, kept as they were, or plans that are sanitized and have
    a name: plans typed at the prompt are never without a name. *)
Theorem collect_day_info_cli_sanitized :
  forall (lower : str -> str) (stdin_isatty : bool) (day : Day)
         (day_data : DaySchedule) (stdin : list str),
  exists r rest,
    collect_day_info_cli lower stdin_isatty day day_data stdin
    = Some (r, rest)
    /\ match r with
       | Raises _ => rest = []
       | Returns d =>
           sanitize_input (study_time d) = study_time d
           /\ sanitize_input (goals d) = goals d
           /\ (plans d = plans day_data \/ Forall sanitized_plan (plans d))
       end.
Proof.
  intros lower tty day day_data stdin. unfold collect_day_info_cli.
  destruct stdin as [|line1 stdin1]; cbn [input].
  { exists (Raises EOFError), []. split; reflexivity. }
  destruct stdin1 as [|line2 stdin2]; cbn [input].
  { exists (Raises EOFError), []. split; reflexivity. }
  cbv zeta.
  set (st := sanitize_input (or_else (strip line1) (study_time day_data))).
  set (gl := sanitize_input (or_else (strip line2) (goals day_data))).
  assert (Hst : sanitize_input st = st) by apply sanitize_input_idem.
  assert (Hgl : sanitize_input gl = gl) by apply sanitize_input_idem.
  assert (Hnew : forall stdin3,
    exists r rest,
      match add_plans lower tty (S (length stdin3)) [] stdin3 with
      | Some (Returns new_plans, stdin4) =>
          Some (Returns (mkDay st gl new_plans), stdin4)
      | Some (Raises e, stdin4) => Some (Raises e, stdin4)
      | None => None
      end = Some (r, rest)
      /\ match r with
         | Raises _ => rest = []
         | Returns d =>
             sanitize_input (study_time d) = study_time d
             /\ sanitize_input (goals d) = goals d
             /\ (plans d = plans day_data \/ Forall sanitized_plan (plans d))
         end).
  { intros stdin3.
    destruct (add_plans_spec lower tty (S (length stdin3)) [] stdin3)
      as (r & rest & -> & Hr); [lia | constructor |].
    destruct r as [l|e].
    - eexists _, rest. split; [reflexivity|]. cbn [study_time goals plans].
      repeat split; [exact Hst | exact Hgl | right; exact Hr].
    - exists (Raises e), rest. split; [reflexivity | exact Hr]. }
  destruct (plans day_data) as [|p ps] eqn:Ep; cbn [nonempty].
  - cbn [negb nonempty]. apply Hnew.
  - destruct (ask_yes_no lower tty (Some (pystr "no")) stdin2)
      as [clear stdin3].
    destruct clear; cbn [negb nonempty].
    + apply Hnew.
    + eexists _, stdin3. split; [reflexivity|]. cbn [study_time goals plans].
      repeat split; [exact Hst | exact Hgl | left; reflexivity].
Qed.

(** ** The placeholder of an empty day *)

(** A day with no study time, no goals and no plan with details. *)
Definition nothing_to_show (day_data : DaySchedule) : bool :=
  negb (truthy (study_time day_data)) && negb (truthy (goals day_data))
  && match filter visible (plans day_data) with
     | [] => true
     | _ :: _ => false
     end.

Lemma html_escape_not_placeholder (s : str) :
  html_escape s <> placeholder_block.
Proof.
  intros H. pose proof (html_escape_no_markup s) as Hm.
  rewrite H in Hm. vm_compute in Hm. discriminate.
Qed.

Ltac not_placeholder H :=
  first [ exact (html_escape_not_placeholder _ H)
        | apply str_eqb_eq in H; vm_compute in H; discriminate H ].

Lemma card_open_not_placeholder (day : Day) :
  ~ In placeholder_block (card_open (day_colors day) (day_name day)).
Proof.
  unfold card_open. cbn [In]. intros H.
  destruct day;
    repeat (destruct H as [H|H]; [not_placeholder H|]); exact H.
Qed.

Lemma study_block_not_placeholder (day : Day) (s : str) :
  ~ In placeholder_block (study_block (day_colors day) s).
Proof.
  unfold study_block. cbn [In]. intros H.
  destruct day;
    repeat (destruct H as [H|H]; [not_placeholder H|]); exact H.
Qed.

Lemma goals_block_not_placeholder (day : Day) (s : str) :
  ~ In placeholder_block (goals_block (day_colors day) s).
Proof.
  unfold goals_block. cbn [In]. intros H.
  destruct day;
    repeat (destruct H as [H|H]; [not_placeholder H|]); exact H.
Qed.

Lemma plan_block_not_placeholder (day : Day) (p : Plan) :
  ~ In placeholder_block (plan_block (day_colors day) p).
Proof.
  unfold plan_block. cbv zeta. cbn [In]. intros H.
  destruct day;
    repeat (destruct H as [H|H]; [not_placeholder H|]); exact H.
Qed.

(** X18: The card of a day holds the block that says that no schedule is set
    exactly when the day has no study time, no goals and no plan with
    details; the card is then nothing but its frame around that block. *)
Theorem placeholder_for_empty_days :
  forall (W : WeekSchedule) (day : Day),
    (In placeholder_block (day_card W day)
     <-> nothing_to_show (W day) = true)
    /\ (nothing_to_show (W day) = true ->
        day_card W day
        = card_open (day_colors day) (day_name day)
          ++ [placeholder_block; card_close]).
Proof.
  intros W day. split; [split|].
  - intros Hin. unfold nothing_to_show.
    destruct (negb (truthy (study_time (W day)))
              && negb (truthy (goals (W day)))
              && match filter visible (plans (W day)) with
                 | [] => true
                 | _ :: _ => false
                 end) eqn:E; [reflexivity|].
    exfalso. unfold day_card in Hin. cbv zeta in Hin. rewrite E in Hin.
    rewrite !in_app_iff in Hin.
    destruct Hin as [H|[H|[H|[H|[H|H]]]]].
    + exact (card_open_not_placeholder day H).
    + destruct (truthy (study_time (W day))); [|destruct H].
      exact (study_block_not_placeholder day _ H).
    + destruct (truthy (goals (W day))); [|destruct H].
      exact (goals_block_not_placeholder day _ H).
    + apply in_flat_map in H. destruct H as (p & _ & H).
      exact (plan_block_not_placeholder day p H).
    + destruct H.
    + destruct H as [H|[]]. not_placeholder H.
  - intros E. unfold nothing_to_show in E. unfold day_card. cbv zeta.
    rewrite E. rewrite !in_app_iff. right. right. right. right. left.
    left. reflexivity.
  - intros E. unfold nothing_to_show in E. unfold day_card. cbv zeta.
    rewrite E.
    apply andb_true_iff in E. destruct E as (E & Ep).
    apply andb_true_iff in E. destruct E as (Es & Eg).
    apply negb_true_iff in Es. apply negb_true_iff in Eg.
    rewrite Es, Eg.
    destruct (filter visible (plans (W day))); [|discriminate].
    reflexivity.
Qed.

(** ** Text that [clean_text] only strips *)

(** The class of the first character of what a pattern matches, for a
    pattern that starts with one. *)
Fixpoint first_class (r : regex) : option (char -> bool) :=
  match r with
  | Cls p => Some p
  | Cat r1 _ => first_class r1
  | Grp _ r1 => first_class r1
  | _ => None
  end.

Lemma exec_first_class {A : Type} (r : regex) (p : char -> bool) :
  first_class r = Some p ->
  forall (st : mstate) (k : mstate -> option A),
    match after st with
    | [] => True
    | c :: _ => p c = false
    end ->
    exec r st k = None.
Proof.
  induction r as [|q|r1 IH1 r2 IH2| | | n r1 IH1 | |]; intros H st k Hst;
    try discriminate.
  - injection H as ->. cbn [exec]. destruct (after st) as [|c rest];
      [reflexivity|]. rewrite Hst. reflexivity.
  - cbn [exec]. apply IH1; assumption.
  - cbn [exec]. apply IH1; assumption.
Qed.

Lemma sub_loop_first_class (r : regex) (p : char -> bool) (repl : str) :
  first_class r = Some p ->
  forall fuel bef aft,
    forallb (fun c => negb (p c)) aft = true ->
    sub_loop r repl fuel bef aft = aft.
Proof.
  intros Hr. induction fuel as [|fuel IH]; intros bef aft Haft;
    [reflexivity|].
  cbn [sub_loop].
  rewrite (exec_first_class r p Hr).
  - destruct aft as [|c aft]; [reflexivity|].
    cbn [forallb] in Haft. apply andb_true_iff in Haft.
    rewrite IH by apply Haft. reflexivity.
  - cbn [after]. destruct aft as [|c aft]; [exact I|].
    cbn [forallb] in Haft. apply andb_true_iff in Haft.
    destruct Haft as (Hc & _). apply negb_true_iff in Hc. exact Hc.
Qed.

(** The characters a pattern of [clean_text] can start with: the escape
    character, the opening bracket, and the capitals of [Study], [Enter],
    [Work], [Add] and [Plan]. *)
Definition pattern_start (c : char) : bool :=
  N.eqb c 27 || one_of "[SEWAP" c.

Definition ordinary (text : str) : bool :=
  forallb (fun c => negb (pattern_start c)) text.

Lemma ordinary_without (text : str) (a : char) :
  pattern_start a = true ->
  ordinary text = true ->
  forallb (fun c => negb (N.eqb a c)) text = true.
Proof.
  intros Ha H. apply forallb_forall. intros c Hc.
  unfold ordinary in H. rewrite forallb_forall in H. specialize (H c Hc).
  destruct (N.eqb a c) eqn:E; [|reflexivity].
  apply N.eqb_eq in E. subst c. rewrite Ha in H. discriminate.
Qed.

Lemma re_sub_ordinary (r : regex) (a : char) (text : str) :
  first_class r = Some (N.eqb a) ->
  pattern_start a = true ->
  ordinary text = true ->
  re_sub r [] text = text.
Proof.
  intros Hr Ha Htext. unfold re_sub.
  apply (sub_loop_first_class r (N.eqb a) [] Hr).
  apply ordinary_without; assumption.
Qed.

(** X19: A text without the escape character, without an opening bracket and
    without the capitals S, E, W, A and P holds nothing that [clean_text]
    removes: [clean_text] only strips it; and when it has no white space
    around it, [clean_text] returns it unchanged. *)
Theorem clean_text_ordinary :
  forall text : str,
    ordinary text = true ->
    clean_text text = strip text
    /\ (strip text = text -> clean_text text = text).
Proof.
  intros text H.
  assert (E : clean_text text = strip text).
  { unfold clean_text. destruct text as [|c text]; [reflexivity|].
    cbn [truthy negb]. unfold clean_patterns. cbn [fold_left].
    rewrite (re_sub_ordinary _ 27%N (c :: text)) by (reflexivity || exact H).
    rewrite (re_sub_ordinary _ (ch "[") (c :: text))
      by (reflexivity || exact H).
    rewrite (re_sub_ordinary _ (ch "S") (c :: text))
      by (reflexivity || exact H).
    rewrite (re_sub_ordinary _ (ch "E") (c :: text))
      by (reflexivity || exact H).
    rewrite (re_sub_ordinary _ (ch "W") (c :: text))
      by (reflexivity || exact H).
    rewrite (re_sub_ordinary _ (ch "A") (c :: text))
      by (reflexivity || exact H).
    rewrite (re_sub_ordinary _ (ch "P") (c :: text))
      by (reflexivity || exact H).
    rewrite (re_sub_ordinary _ (ch "P") (c :: text))
      by (reflexivity || exact H).
    reflexivity. }
  split; [exact E|]. intros Hs. rewrite E. exact Hs.
Qed.

Lemma clean_text_ordinary_witness :
  clean_text (pystr "  read chapter 3, then rest ")
  = strip (pystr "  read chapter 3, then rest ")
  /\ (strip (pystr "  read chapter 3, then rest ")
      = pystr "  read chapter 3, then rest " ->
      clean_text (pystr "  read chapter 3, then rest ")
      = pystr "  read chapter 3, then rest ").
Proof.
  apply (clean_text_ordinary (pystr "  read chapter 3, then rest ")).
  reflexivity.
Defined.

(** ** Notes typed at the command line *)

(** A character the sanitizer keeps, or a line feed. *)
Definition note_char (c : char) : bool :=
  negb (sanitize_class c) || N.eqb c 10.

Lemma sanitize_input_note_chars (line : str) :
  forallb note_char (sanitize_input line) = true.
Proof.
  rewrite sanitize_input_filter. apply forallb_forall. intros c Hc.
  apply filter_In in Hc. destruct Hc as (_ & Hc).
  unfold note_char. rewrite Hc. reflexivity.
Qed.

Lemma sentinel_line (line : str) :
  (if str_eqb line (pystr "DIEEEEE") then line else sanitize_input line)
  = sanitize_input line.
Proof.
  destruct (str_eqb line (pystr "DIEEEEE")) eqn:E; [|reflexivity].
  apply str_eqb_eq in E. subst line. reflexivity.
Qed.

Lemma join_note_chars (lines : list str) :
  Forall (fun line => forallb note_char line = true) lines ->
  forallb note_char (join newline lines) = true.
Proof.
  induction lines as [|x lines IH]; intros H; [reflexivity|].
  inversion H as [|? ? Hx Hrest]; subst.
  destruct lines as [|y lines]; [exact Hx|].
  change (join newline (x :: y :: lines))
    with (x ++ newline ++ join newline (y :: lines)).
  rewrite !forallb_app, Hx, (IH Hrest). reflexivity.
Qed.

Lemma note_chars_no_cr (s : str) :
  forallb note_char s = true -> no_cr s = true.
Proof.
  intros H. apply forallb_forall. intros c Hc.
  rewrite forallb_forall in H. specialize (H c Hc).
  destruct (N.eqb c 13) eqn:E; [|reflexivity].
  apply N.eqb_eq in E. subst c. discriminate.
Qed.

Section NotesCliFacts.

Variable lower : str -> str.
Variable upper : str -> str.
Variable stdin_isatty : bool.

Lemma read_note_lines_note_chars (stdin : list str) :
  Forall (fun line => forallb note_char line = true)
    (fst (read_note_lines upper stdin)).
Proof.
  induction stdin as [|line rest IH]; [constructor|].
  cbn [read_note_lines].
  destruct (str_eqb (upper (strip line)) (pystr "END")); [constructor|].
  cbv zeta. rewrite sentinel_line.
  destruct (read_note_lines upper rest) as [lines rest'].
  cbn [fst] in *. constructor; [apply sanitize_input_note_chars | exact IH].
Qed.

End NotesCliFacts.

(** X20: After [add_notes_cli] the manager holds either the notes it loaded,
    or notes made of characters the sanitizer keeps and of line feeds; in
    that case the notes file holds them, and loading the notes again returns
    them unchanged. The test for the line [DIEEEEE] changes nothing, the
    sanitizer returning that line as it is. *)
Theorem add_notes_cli_safe :
  forall (lower upper : str -> str) (stdin_isatty : bool) (flt : Faults)
         (stdin : list str) (manager : Notes),
    let manager' :=
      snd (add_notes_cli lower upper stdin_isatty flt stdin manager) in
    (additional_notes manager' = fst (load_notes manager)
     \/ (forallb note_char (additional_notes manager') = true
         /\ NOTES_FILE manager' = Content (additional_notes manager')
         /\ fst (load_notes manager') = additional_notes manager'))
    /\ forall line,
         (if str_eqb line (pystr "DIEEEEE") then line
          else sanitize_input line)
         = sanitize_input line.
Proof.
  intros lower upper tty flt stdin manager. cbv zeta.
  split; [|apply sentinel_line].
  unfold add_notes_cli.
  destruct (load_notes manager) as [previous_notes manager1] eqn:El.
  assert (Hprev : additional_notes manager1 = previous_notes).
  { unfold load_notes in El. injection El as <- <-. reflexivity. }
  cbn [fst].
  destruct (if truthy previous_notes
            then ask_yes_no lower tty (Some (pystr "no")) stdin
            else (true, stdin)) as [update stdin1].
  destruct update; cbn [negb]; [|left; exact Hprev].
  pose proof (read_note_lines_note_chars upper stdin1) as Hlines.
  destruct (read_note_lines upper stdin1) as [lines stdin2].
  cbn [fst] in Hlines. cbv zeta. cbn [snd].
  apply join_note_chars in Hlines.
  set (new_notes := join newline lines) in *.
  rewrite save_notes_run. cbv zeta. cbn [snd].
  destruct (mkdir_raises flt || open_raises flt); [left; exact Hprev|].
  destruct (save_notes_fails flt new_notes); [left; exact Hprev|].
  right. cbn [additional_notes NOTES_FILE].
  split; [exact Hlines|]. split; [reflexivity|].
  pose proof (universal_newlines_no_cr new_notes
                (note_chars_no_cr _ Hlines)) as Hu.
  unfold load_notes.
  cbn [NOTES_FILE exists_ st_size_positive andb fst read_notes].
  rewrite Hu. destruct new_notes; reflexivity.
Qed.

(** ** Blank answers at the prompts of a day *)

(** X21: On a terminal, for a day that has plans, three blank answers keep
    the day as it is, apart from the sanitizing of its study time and of its
    goals: the default of each prompt is the value the day has, and the
    default of the question whether to clear the plans is no. *)
Theorem collect_day_info_cli_blank :
  forall (lower : str -> str) (day : Day) (day_data : DaySchedule)
         (line1 line2 line3 : str) (rest : list str),
    plans day_data <> [] ->
    strip line1 = [] -> strip line2 = [] -> strip (lower line3) = [] ->
    collect_day_info_cli lower true day day_data
      (line1 :: line2 :: line3 :: rest)
    = Some (Returns (mkDay (sanitize_input (study_time day_data))
                       (sanitize_input (goals day_data))
                       (plans day_data)),
            rest).
Proof.
  intros lower day day_data line1 line2 line3 rest Hp H1 H2 H3.
  unfold collect_day_info_cli. cbn [input]. cbv zeta.
  rewrite H1, H2. cbn [or_else truthy].
  destruct (plans day_data) as [|p ps]; [contradiction|].
  cbn [nonempty]. unfold ask_yes_no. cbn [negb].
  unfold default_answer, default_is. cbn [ask_loop].
  rewrite H3. reflexivity.
Qed.

Lemma collect_day_info_cli_blank_witness :
  collect_day_info_cli ascii_lower true Monday (sample_week Monday)
    ([] :: pystr "  " :: [] :: [pystr "next"])
  = Some (Returns (mkDay (sanitize_input (study_time (sample_week Monday)))
                     (sanitize_input (goals (sample_week Monday)))
                     (plans (sample_week Monday))),
          [pystr "next"]).
Proof.
  apply (collect_day_info_cli_blank ascii_lower Monday (sample_week Monday)
           [] (pystr "  ") [] [pystr "next"]).
  - discriminate.
  - reflexivity.
  - reflexivity.
  - reflexivity.
Defined.

(** ** The characters of a record *)

(** X22: The record written for a day holds no character the sanitizer
    removes, apart from the backslashes of the escaping: no control
    character, so no line feed, and no semicolon, ampersand, angle bracket,
    dollar sign or backquote, whatever the day holds. It is made of
    characters other than the double quote and the backslash and of pairs of
    a backslash and a character, so every double quote in it follows a
    backslash. *)
Theorem record_shell_safe :
  forall day_data : DaySchedule,
    (forall c,
       In c (combined_data day_data) ->
       sanitize_class c = false \/ c = backslash)
    /\ tokens (combined_data day_data).
Proof.
  intros day_data. split; [|apply tokens_combined].
  assert (H : record_text (combined_data day_data) = true).
  { unfold combined_data. cbv zeta.
    rewrite !record_text_app.
    rewrite !record_text_shell_escape
      by first [apply record_text_sanitize | apply record_text_dumps_plans].
    reflexivity. }
  intros c Hc. unfold record_text in H. rewrite forallb_forall in H.
  specialize (H c Hc). unfold record_char in H.
  apply orb_true_iff in H. destruct H as [H|H].
  - left. apply negb_true_iff. exact H.
  - right. apply N.eqb_eq. exact H.
Qed.

(** ** The recipient of the legacy configuration *)

Lemma stops_not_quote (post : str) : stops not_quote (quote :: post).
Proof. unfold stops, not_quote. rewrite N.eqb_refl. reflexivity. Qed.

Lemma exec_email_line (bef addr post : str) :
  no_quote addr = true ->
  exists st,
    exec email_line
      (MState bef (email_line_head ++ addr ++ quote :: post) []) Some
    = Some st
    /\ group 1 (groups st) = addr.
Proof.
  intros Haddr. eexists. split.
  - unfold email_line. rewrite exec_Cat, exec_Lit.
    cbn [after before groups]. rewrite strip_prefix_app. rewrite exec_Cat.
    change (exec (Grp 1 (Star (Cls not_quote))) ?st ?k)
      with (star_loop (exec (Cls not_quote))
              (fun st' => k (set_group 1 st st')) (length (after st)) st).
    apply star_class_greedy;
      [exact Haddr | apply stops_not_quote
      | cbn [after]; rewrite length_app; lia |].
    unfold set_group. cbn [before after groups].
    rewrite exec_Lit. cbn [after before groups strip_prefix].
    rewrite N.eqb_refl. rewrite consumed_app. reflexivity.
  - reflexivity.
Qed.

(** Reading with universal newlines goes part by part, where the second
    part does not begin with a line feed. *)
Lemma universal_newlines_parts (b : str) :
  (forall rest, b <> 10%N :: rest) ->
  forall n a,
    length a <= n ->
    universal_newlines (a ++ b) = universal_newlines a ++ universal_newlines b.
Proof.
  intros Hb. induction n as [|n IH]; intros a Hlen.
  - destruct a; [reflexivity | simpl in Hlen; lia].
  - destruct a as [|c a]; [reflexivity|].
    cbn [length] in Hlen. cbn [app universal_newlines].
    destruct (N.eqb c 13) eqn:Ec.
    + destruct a as [|d a].
      * cbn [app]. destruct b as [|d b]; [reflexivity|].
        destruct (N.eqb d 10) eqn:Ed; [|reflexivity].
        apply N.eqb_eq in Ed. subst d. exfalso. apply (Hb b). reflexivity.
      * cbn [app]. cbn [length] in Hlen. destruct (N.eqb d 10) eqn:Ed.
        -- rewrite IH by lia. reflexivity.
        -- change (d :: a ++ b) with ((d :: a) ++ b).
           rewrite IH by (cbn [length]; lia). reflexivity.
    + rewrite IH by lia. reflexivity.
Qed.

Lemma no_quote_universal_newlines :
  forall n s,
    length s <= n ->
    no_quote s = true -> no_quote (universal_newlines s) = true.
Proof.
  induction n as [|n IH]; intros s Hlen H.
  - destruct s; [reflexivity | simpl in Hlen; lia].
  - destruct s as [|c s]; [reflexivity|].
    cbn [length] in Hlen. cbn [no_quote forallb] in H.
    apply andb_true_iff in H. destruct H as (Hc & Hs).
    cbn [universal_newlines]. destruct (N.eqb c 13) eqn:Ec.
    + change (no_quote (10%N :: ?x)) with (true && no_quote x). cbn [andb].
      destruct s as [|d s]; [reflexivity|].
      cbn [length] in Hlen. destruct (N.eqb d 10).
      * apply IH; [lia|]. cbn [no_quote forallb] in Hs.
        apply andb_true_iff in Hs. apply Hs.
      * apply IH; [cbn [length]; lia | exact Hs].
    + cbn [no_quote forallb]. rewrite Hc. apply IH; [lia | exact Hs].
Qed.

(** X23: The legacy file is read with universal newlines: a carriage
    return, with the line feed that follows it if there is one, is read as a
    line feed.  When the file holds [EMAIL=], a double quote, an address
    without a double quote and a double quote, with no [EMAIL=] and double
    quote before it in the text as it is read, [load_legacy_config] makes
    the address as it is read the recipient if the recipient is still the
    default one, and leaves the recipient as it is otherwise.  The address is
    not checked by [is_valid_email]. *)
Theorem legacy_recipient :
  forall (pre addr post email_to : str),
    absent_before email_line_head (universal_newlines pre)
      (email_line_head ++ universal_newlines addr
         ++ quote :: universal_newlines post) = true ->
    no_quote addr = true ->
    load_legacy_config
      (Content (pre ++ email_line_head ++ addr ++ quote :: post)) email_to
    = Returns (if str_eqb email_to DEFAULT_EMAIL
               then universal_newlines addr else email_to).
Proof.
  intros pre addr post email_to Hpre Haddr.
  unfold load_legacy_config. cbn [path_exists exists_ read_text].
  assert (Hread :
    universal_newlines (pre ++ email_line_head ++ addr ++ quote :: post)
    = universal_newlines pre ++ email_line_head ++ universal_newlines addr
      ++ quote :: universal_newlines post).
  { assert (Hhead : forall rest,
              email_line_head ++ addr ++ quote :: post <> 10%N :: rest)
      by discriminate.
    assert (Hquote : forall rest, quote :: post <> 10%N :: rest)
      by discriminate.
    rewrite (universal_newlines_parts _ Hhead (length pre) pre (le_n _)).
    f_equal. rewrite universal_newlines_app by reflexivity. f_equal.
    rewrite (universal_newlines_parts _ Hquote (length addr) addr (le_n _)).
    reflexivity. }
  rewrite Hread.
  unfold re_search, email_line.
  rewrite (search_skip email_line_head) by exact Hpre.
  rewrite search_from_eq.
  destruct (exec_email_line (rev (universal_newlines pre) ++ [])
              (universal_newlines addr) (universal_newlines post)
              (no_quote_universal_newlines _ _ (le_n _) Haddr))
    as (st & Hst & Hg).
  unfold email_line in Hst. rewrite Hst. cbv zeta. rewrite Hg.
  destruct (str_eqb email_to DEFAULT_EMAIL); reflexivity.
Qed.

Lemma legacy_recipient_witness :
  load_legacy_config
    (Content (pystr "# settings" ++ [13; 10]%N ++ email_line_head
              ++ (pystr "not an" ++ [13%N] ++ pystr "address")
              ++ quote :: [13; 10]%N))
    DEFAULT_EMAIL
  = Returns (pystr "not an" ++ newline ++ pystr "address").
Proof.
  apply (legacy_recipient (pystr "# settings" ++ [13; 10]%N)
           (pystr "not an" ++ [13%N] ++ pystr "address") [13; 10]%N
           DEFAULT_EMAIL).
  - vm_compute. reflexivity.
  - reflexivity.
Defined.

(** ** Study times with text around the times *)

Section StudyHoursFacts.

Variable decimal : char -> option N.

Hypothesis decimal_ascii :
  forall c, (c < 128)%N -> decimal c = ascii_decimal c.

Lemma re_match_time_rest (a b c d rest : str) :
  digits decimal a -> digits decimal b -> digits decimal c ->
  digits decimal d -> stops (is_decimal decimal) rest ->
  re_match (time_pattern decimal)
    (a ++ pystr ":" ++ b ++ pystr "-" ++ c ++ pystr ":" ++ d ++ rest)
  = Some (MState
            (rev d ++ rev (pystr ":") ++ rev c ++ rev (pystr "-") ++ rev b
               ++ rev (pystr ":") ++ rev a ++ [])
            rest [(4, d); (3, c); (2, b); (1, a)]).
Proof.
  intros [Ha Ha'] [Hb Hb'] [Hc Hc'] [Hd Hd'] Hrest.
  assert (Hcolon : is_decimal decimal 58%N = false)
    by (rewrite (is_decimal_ascii decimal decimal_ascii); reflexivity).
  assert (Hdash : is_decimal decimal 45%N = false)
    by (rewrite (is_decimal_ascii decimal decimal_ascii); reflexivity).
  unfold re_match, time_pattern.
  change (pystr ":") with [58%N]. change (pystr "-") with [45%N].
  rewrite exec_Cat.
  apply exec_plus_group; [exact Ha | exact Ha' | exact Hcolon |].
  rewrite exec_Cat, exec_Lit. cbn [after before groups app strip_prefix].
  rewrite N.eqb_refl. rewrite exec_Cat.
  apply exec_plus_group; [exact Hb | exact Hb' | exact Hdash |].
  rewrite exec_Cat, exec_Lit. cbn [after before groups app strip_prefix].
  rewrite N.eqb_refl. rewrite exec_Cat.
  apply exec_plus_group; [exact Hc | exact Hc' | exact Hcolon |].
  rewrite exec_Cat, exec_Lit. cbn [after before groups app strip_prefix].
  rewrite N.eqb_refl.
  apply exec_plus_group; [exact Hd | exact Hd' | exact Hrest |].
  reflexivity.
Qed.

Lemma study_hours_rest (a b c d rest : str) :
  digits decimal a -> digits decimal b -> digits decimal c ->
  digits decimal d -> stops (is_decimal decimal) rest ->
  study_hours decimal
    (a ++ pystr ":" ++ b ++ pystr "-" ++ c ++ pystr ":" ++ d ++ rest)
  = hours_of_groups decimal a b c d.
Proof.
  intros Ha Hb Hc Hd Hrest. unfold study_hours.
  rewrite (re_match_time_rest a b c d rest Ha Hb Hc Hd Hrest).
  destruct a as [|x a]; [destruct Ha as [Ha _]; contradiction|].
  cbn [app truthy]. apply hours_of_match. discriminate.
Qed.

Lemma study_hours_no_digit (s : str) :
  stops (is_decimal decimal) s -> study_hours decimal s = Returns None.
Proof.
  intros Hs. unfold study_hours. destruct (truthy s); [|reflexivity].
  unfold re_match.
  rewrite (exec_first_class (time_pattern decimal) (is_decimal decimal));
    [reflexivity | reflexivity | exact Hs].
Qed.

End StudyHoursFacts.

(** X24: The study hours of a day are read from the beginning of its
    study time only.  Text after the two times is ignored, as long as it
    does not go on with a digit: the study time counts as the two times
    alone do, for the same hours or with the same exception.  A study time
    that begins with a character that is not a digit adds no hours,
    whatever follows: a time span after a space or after other text is not
    found. *)
Theorem study_hours_surrounding_text :
  forall (decimal : char -> option N),
    (forall c, (c < 128)%N -> decimal c = ascii_decimal c) ->
    forall (a b c d rest : str) (x : char),
      digits decimal a -> digits decimal b ->
      digits decimal c -> digits decimal d ->
      stops (is_decimal decimal) rest ->
      is_decimal decimal x = false ->
      study_hours decimal
        (a ++ pystr ":" ++ b ++ pystr "-" ++ c ++ pystr ":" ++ d ++ rest)
      = study_hours decimal
          (a ++ pystr ":" ++ b ++ pystr "-" ++ c ++ pystr ":" ++ d)
      /\ study_hours decimal
           (x :: a ++ pystr ":" ++ b ++ pystr "-" ++ c ++ pystr ":" ++ d
              ++ rest)
         = Returns None.
Proof.
  intros decimal Hdec a b c d rest x Ha Hb Hc Hd Hrest Hx. split.
  - rewrite (study_hours_rest decimal Hdec) by assumption.
    rewrite (study_hours_time decimal Hdec) by assumption. reflexivity.
  - apply study_hours_no_digit. exact Hx.
Qed.

Lemma study_hours_surrounding_text_witness :
  study_hours ascii_decimal (pystr "11:00-3:00 pm")
  = study_hours ascii_decimal (pystr "11:00-3:00")
  /\ study_hours ascii_decimal (pystr " 11:00-3:00 pm") = Returns None.
Proof.
  apply (study_hours_surrounding_text ascii_decimal (fun c _ => eq_refl)
           (pystr "11") (pystr "00") (pystr "3") (pystr "00") (pystr " pm")
           32%N).
  - split; [discriminate | reflexivity].
  - split; [discriminate | reflexivity].
  - split; [discriminate | reflexivity].
  - split; [discriminate | reflexivity].
  - reflexivity.
  - reflexivity.
Defined.
